(** * Okinawa Spectrum Logger

    A shallow embedding of [app.py]: the survey records kept in the Streamlit
    session, their mirror in a Google Sheets worksheet and in the local backup
    file, and the views drawn from them.

    The script talks to three libraries.  What the script itself does is
    written out below, line for line.  What the libraries make of text and
    of the bytes of a file (reading a number out of a string, printing a
    float, finding a table or an image in a file) is an interface, [Libs],
    over which every definition and theorem is stated; [ref_libs]
    instantiates it on decimal integer literals and on plain comma-separated
    text so that the embedding can be run on concrete inputs. *)

From Stdlib Require Import ZArith List String Ascii Floats DecimalString DecimalPos DecimalZ Lia.
From stdpp Require Import gmap strings list fin_maps.

Set Warnings "-inexact-float".
Local Open Scope string_scope.

(** ** Python values *)

(** The values a record holds: the form writes [int] and [str], the worksheet
    and the backup file are read back as [int], [float], [bool] or [str]. *)
Inductive value :=
| VInt (z : Z)
| VFloat (f : float)
| VBool (b : bool)
| VStr (s : string).

(** A missing entry of a data frame is the float NaN. *)
Abbreviation NaN := (VFloat nan).

(** A record is a [dict] from field names to values. *)
Abbreviation record := (gmap string value).

(** The exception classes that occur; all of them derive from [Exception]. *)
Inductive exn :=
| AttributeError
| KeyError
| IndexError
| TypeError
| ValueError
| OverflowError
| OSError
| EmptyDataError
| ParserError
| APIError
| GSpreadException
| UnidentifiedImageError.

Inductive result (A : Type) :=
| Ok (a : A)
| Raise (e : exn).
Arguments Ok {A} a.
Arguments Raise {A} e.

(** Numbers as [pd.to_numeric] yields them. *)
Inductive num :=
| NInt (z : Z)
| NFloat (f : float).

Definition value_of_num (n : num) : value :=
  match n with
  | NInt z => VInt z
  | NFloat f => VFloat f
  end.

(** [str(z)] for an [int]. *)
Definition str_int (z : Z) : string := NilZero.string_of_int (Z.to_int z).

(** [float(z)] for an [int]: the nearest double, [OverflowError] beyond the
    largest one. *)
Definition float_of_int (z : Z) : result float :=
  match binary_normalize prec emax z 0%Z false with
  | S754_infinity _ => Raise OverflowError
  | sf => Ok (SF2Prim sf)
  end.

(** The cast of an [int64] column to [float64]. *)
Definition astype_float (z : Z) : float := SF2Prim (binary_normalize prec emax z 0%Z false).

(** Truth value of an object, as [or] and [if] test it. *)
Definition truthy (v : value) : bool :=
  match v with
  | VInt z => negb (z =? 0)%Z
  | VFloat f => negb (PrimFloat.eqb f 0%float)
  | VBool b => b
  | VStr s => negb (String.eqb s "")
  end.

(** [a or b] *)
Definition py_or (a b : value) : value := if truthy a then a else b.

(** [isinstance(v, str)] *)
Definition is_str (v : value) : bool :=
  match v with
  | VStr _ => true
  | _ => false
  end.

(** [v >= 0]: a string does not compare with an [int]. *)
Definition py_ge0 (v : value) : result bool :=
  match v with
  | VInt z => Ok (0 <=? z)%Z
  | VFloat f => Ok (PrimFloat.leb 0%float f)
  | VBool _ => Ok true
  | VStr _ => Raise TypeError
  end.

(** [log.get(k, d)] and [log[k]] *)
Definition dict_get (log : record) (k : string) (d : value) : value := default d (log !! k).

Definition dict_item (log : record) (k : string) : result value :=
  match log !! k with
  | Some v => Ok v
  | None => Raise KeyError
  end.

(** ** What a local file holds *)

(** The text table a CSV file holds: the header's column labels and, per
    line, the text of each cell.  Quoting and the byte order mark, which the
    writer adds and the reader removes, are not part of it. *)
Record csv := {
  csv_columns : gset string;
  csv_rows : list (gmap string string)
}.

(** A local file holds bytes (a photo, or whatever else) or the text of a
    table as [to_csv] writes it (the backup). *)
Inductive content :=
| Bytes (b : list Byte.byte)
| Table (t : csv).

(** ** The libraries' handling of text and bytes *)

Class Libs := {
  (** [float(s)] on a string; [None] is [ValueError] *)
  py_float_str : string -> option float;
  (** [str(f)] on a float that is not NaN, which is also how [to_csv] and the
      worksheet print it *)
  float_repr : float -> string;
  (** what [pd.to_numeric] reads in a string; [None] is a parsing failure *)
  pd_numeric_str : string -> option num;
  (** gspread's [numericise] of a cell text *)
  numericise : string -> value;
  (** the C parser of [pd.read_csv] on one cell *)
  csv_int : string -> option Z;
  csv_float : string -> option float;
  csv_bool : string -> option bool;
  (** the tokenizer of [pd.read_csv] on the bytes of a file that is not
      empty: the table of cell texts it finds, or the error it raises *)
  csv_tokens : list Byte.byte -> result csv;
  (** the error [st.image] raises on the file named [p] that holds [c], if
      it raises one: [UnidentifiedImageError] when PIL finds no image *)
  image_error : string -> content -> option exn
}.

(** A small instance: decimal integer literals are the only numbers read. *)
Definition dec_int (s : string) : option Z := Z.of_int <$> NilZero.int_of_string s.

Definition ref_bool (s : string) : option bool :=
  if String.eqb s "True" then Some true
  else if String.eqb s "False" then Some false
  else None.

Fixpoint zeros (n : nat) : string :=
  match n with
  | O => ""
  | S n' => "0" ++ zeros n'
  end.

(** [s] padded with zeros on the left to [n] characters. *)
Definition pad_left (n : nat) (s : string) : string := zeros (n - String.length s) ++ s.

Fixpoint strip_zeros (fuel : nat) (z : Z) (k : nat) : Z * nat :=
  match fuel, k with
  | S fuel', S k' => if (1 <? k)%nat && (z mod 10 =? 0)%Z then strip_zeros fuel' (z / 10)%Z k' else (z, k)
  | _, _ => (z, k)
  end.

(** The exact decimal expansion of a double (CPython prints the shortest
    expansion that reads back as the same double). *)
Definition ref_float_repr (f : float) : string :=
  match Prim2SF f with
  | S754_zero s => if s then "-0.0" else "0.0"
  | S754_infinity s => if s then "-inf" else "inf"
  | S754_nan => "nan"
  | S754_finite s m e =>
      let sign := if s then "-" else "" in
      if (0 <=? e)%Z then sign ++ str_int (Z.pos m * 2 ^ e)%Z ++ ".0"
      else
        let k := Z.to_nat (- e) in
        let n := (Z.pos m * 5 ^ (- e))%Z in
        let '(frac, digits) := strip_zeros k (n mod 10 ^ (- e))%Z k in
        sign ++ str_int (n / 10 ^ (- e))%Z ++ "." ++ pad_left digits (str_int frac)
  end.

(** [c] occurs in [s]. *)
Fixpoint char_in (c : ascii) (s : string) : bool :=
  match s with
  | EmptyString => false
  | String a s' => Ascii.eqb a c || char_in c s'
  end.

(** The parts of [s] between the occurrences of [c]. *)
Fixpoint split_on (c : ascii) (s : string) : list string :=
  match s with
  | EmptyString => [EmptyString]
  | String a s' =>
      if Ascii.eqb a c then EmptyString :: split_on c s'
      else match split_on c s' with
           | x :: xs => String a x :: xs
           | [] => [String a EmptyString]
           end
  end.

(** [s] without the carriage return it ends with, if it does. *)
Fixpoint strip_cr (s : string) : string :=
  match s with
  | EmptyString => EmptyString
  | String a EmptyString => if Ascii.eqb a "013" then EmptyString else s
  | String a s' => String a (strip_cr s')
  end.

(** [s] without the byte order mark of UTF-8 it begins with, if it does. *)
Definition strip_bom (s : string) : string :=
  match s with
  | String "239" (String "187" (String "191" s')) => s'
  | _ => s
  end.

(** A small tokenizer: the text is cut into lines at the line feeds, blank
    lines are skipped, the first line gives the labels and each later line
    the cells of one row, cut at the commas; a text without any line is an
    [EmptyDataError].  It gives up, with [ParserError], on what is beyond
    it: a quoted cell, an empty or repeated label, a row with more cells
    than there are labels. *)
Definition ref_csv_tokens (b : list Byte.byte) : result csv :=
  let text := strip_bom (string_of_list_byte b) in
  let lines := List.filter (fun l => negb (String.eqb l "")) (strip_cr <$> split_on "010" text) in
  match lines with
  | [] => Raise EmptyDataError
  | header :: data =>
      let keys := split_on "," header in
      if char_in "034" text || negb (bool_decide (NoDup keys)) || bool_decide ("" ∈ keys)
         || existsb (fun l => (length keys <? length (split_on "," l))%nat) data
      then Raise ParserError
      else Ok {| csv_columns := list_to_set keys;
                 csv_rows := (fun l => list_to_map (zip keys (split_on "," l))) <$> data |}
  end.

(** A small test for images: the bytes begin as a PNG or a JPEG file does. *)
Definition ref_image_error (p : string) (c : content) : option exn :=
  match c with
  | Bytes (Byte.x89 :: Byte.x50 :: Byte.x4e :: Byte.x47 :: _) => None
  | Bytes (Byte.xff :: Byte.xd8 :: Byte.xff :: _) => None
  | _ => Some UnidentifiedImageError
  end.

Definition ref_libs : Libs := {|
  py_float_str := fun s => astype_float <$> dec_int s;
  float_repr := ref_float_repr;
  pd_numeric_str := fun s => NInt <$> dec_int s;
  numericise := fun s => match dec_int s with Some z => VInt z | None => VStr s end;
  csv_int := dec_int;
  csv_float := fun s => astype_float <$> dec_int s;
  csv_bool := ref_bool;
  csv_tokens := ref_csv_tokens;
  image_error := ref_image_error
|}.

(** ** Data frames *)

Inductive dtype :=
| DInt
| DFloat
| DBool
| DObject.

(** A frame has a set of column labels and one row per record; every row
    binds every column. *)
Record frame := {
  columns : gset string;
  rows : list (gmap string value)
}.

Definition is_int (v : value) : bool :=
  match v with
  | VInt _ => true
  | _ => false
  end.

Definition is_bool (v : value) : bool :=
  match v with
  | VBool _ => true
  | _ => false
  end.

Definition is_number (v : value) : bool :=
  match v with
  | VInt _ | VFloat _ => true
  | _ => false
  end.

(** [pd.isna] *)
Definition isna (v : value) : bool :=
  match v with
  | VFloat f => PrimFloat.is_nan f
  | _ => false
  end.

(** The dtype pandas gives a column built from Python objects. *)
Definition infer_dtype (col : list value) : dtype :=
  if forallb is_bool col then DBool
  else if forallb is_int col then DInt
  else if forallb is_number col then DFloat
  else DObject.

(** Storing a value in a column of the given dtype: an [int] in a [float64]
    column becomes a float. *)
Definition astype (d : dtype) (v : value) : value :=
  match d, v with
  | DFloat, VInt z => VFloat (astype_float z)
  | _, _ => v
  end.

(** The column [c] of a list of records, NaN where a record has no [c]. *)
Definition column_of (records : list record) (c : string) : list value :=
  (fun r => default NaN (r !! c)) <$> records.

(** [pd.DataFrame(records)] *)
Definition DataFrame (records : list record) : frame :=
  let cols : gset string := ⋃ (dom <$> records) in
  {| columns := cols;
     rows := (fun r => map_imap (fun c v => Some (astype (infer_dtype (column_of records c)) v))
                         (r ∪ gset_to_gmap NaN cols)) <$> records |}.

(** [df.fillna(x)] *)
Definition fillna (x : value) (df : frame) : frame :=
  {| columns := columns df;
     rows := (fun r : record => (fun v => if isna v then x else v) <$> r) <$> rows df |}.

(** [df.to_dict('records')] *)
Definition to_dict_records (df : frame) : list record := rows df.

(** [df[c]] *)
Definition df_column (df : frame) (c : string) : list value := column_of (rows df) c.

(** [df[c] = vals] *)
Definition df_assign (c : string) (vals : list value) (df : frame) : frame :=
  {| columns := {[c]} ∪ columns df;
     rows := zip_with (fun r v => <[c := v]> r) (rows df) vals |}.

(** *** [pd.to_numeric(col, errors='coerce').fillna(0)] *)

(** One element: numbers stay, a string is parsed, a string that does not
    parse becomes NaN. *)
Definition to_numeric_elem `{Libs} (v : value) : num :=
  match v with
  | VInt z => NInt z
  | VFloat f => NFloat f
  | VBool b => NInt (Z.b2z b)
  | VStr s => default (NFloat nan) (pd_numeric_str s)
  end.

Definition num_is_int (n : num) : bool :=
  match n with
  | NInt _ => true
  | NFloat _ => false
  end.

Definition num_to_float (n : num) : float :=
  match n with
  | NInt z => astype_float z
  | NFloat f => f
  end.

(** The result is an [int64] column when every element is an [int], and a
    [float64] column otherwise. *)
Definition to_numeric_coerce `{Libs} (col : list value) : list num :=
  let parsed := to_numeric_elem <$> col in
  if forallb num_is_int parsed then parsed else (fun n => NFloat (num_to_float n)) <$> parsed.

(** [.fillna(0)] on a numeric column *)
Definition fillna_zero (col : list num) : list num :=
  (fun n => match n with
            | NFloat f => if PrimFloat.is_nan f then NFloat 0%float else n
            | NInt _ => n
            end) <$> col.

(** ** The backup file *)

(** [str(v)] *)
Definition py_str `{Libs} (v : value) : string :=
  match v with
  | VInt z => str_int z
  | VFloat f => if PrimFloat.is_nan f then "nan" else float_repr f
  | VBool b => if b then "True" else "False"
  | VStr s => s
  end.

(** The text [to_csv] writes for a cell: a missing value is left empty. *)
Definition csv_text `{Libs} (v : value) : string := if isna v then "" else py_str v.

(** [df.to_csv(path, index=False)], as the table written *)
Definition to_csv `{Libs} (df : frame) : csv :=
  {| csv_columns := columns df;
     csv_rows := (fun r : record => csv_text <$> r) <$> rows df |}.

(** The texts [pd.read_csv] reads as a missing value by default. *)
Definition STR_NA_VALUES : list string :=
  [""; "#N/A"; "#N/A N/A"; "#NA"; "-1.#IND"; "-1.#QNAN"; "-NaN"; "-nan"; "1.#IND";
   "1.#QNAN"; "<NA>"; "N/A"; "NA"; "NULL"; "NaN"; "None"; "n/a"; "nan"; "null"].

Definition is_na_text (s : string) : bool := bool_decide (s ∈ STR_NA_VALUES).

(** The reader tries, on a whole column, [int64], then [float64] (missing
    cells read as NaN), then [bool], and keeps the texts otherwise. *)
Definition csv_dtype `{Libs} (cells : list string) : dtype :=
  let present := filter (fun s => is_na_text s = false) cells in
  if forallb is_na_text cells then DFloat
  else if forallb (fun s => negb (is_na_text s) && bool_decide (is_Some (csv_int s))) cells then DInt
  else if forallb (fun s => bool_decide (is_Some (csv_float s))) present then DFloat
  else if forallb (fun s => bool_decide (is_Some (csv_bool s))) present then DBool
  else DObject.

Definition csv_convert `{Libs} (d : dtype) (s : string) : value :=
  if is_na_text s then NaN
  else match d with
       | DInt => default (VStr s) (VInt <$> csv_int s)
       | DFloat => default (VStr s) (VFloat <$> csv_float s)
       | DBool => default (VStr s) (VBool <$> csv_bool s)
       | DObject => VStr s
       end.

Definition csv_column (t : csv) (c : string) : list string :=
  (fun r => default "" (r !! c)) <$> csv_rows t.

(** [pd.read_csv(path)] on the table a file holds; a file with no column
    raises [EmptyDataError]. *)
Definition read_csv `{Libs} (t : csv) : result frame :=
  if bool_decide (csv_columns t = ∅) then Raise EmptyDataError
  else Ok {| columns := csv_columns t;
             rows := (fun r : gmap string string =>
                        map_imap (fun c s => Some (csv_convert (csv_dtype (csv_column t c)) s))
                          (r ∪ gset_to_gmap "" (csv_columns t))) <$> csv_rows t |}.

(** ** The world the script runs in *)

Inductive node :=
| Dir
| File (c : content).

(** The calls the script makes on the worksheet. *)
Inductive remote_call :=
| GetAllRecords
| GetAllValues
| AppendRow (cells : list string)
| DeleteRows (n : nat).

(** A map marker: where it stands, its popup and tooltip, its colour. *)
Record marker := {
  m_location : float * float;
  m_popup : string;
  m_tooltip : value;
  m_color : string
}.

(** A point of a scatter plot: x, y and its text label. *)
Record point := {
  p_x : value;
  p_y : value;
  p_text : value
}.

(** One record of the vector view: the arrow from the hard point to the
    soft point and the hover texts of the two points. *)
Record vector := {
  v_hard : float * float;
  v_soft : float * float;
  v_hover_hard : string;
  v_hover_soft : string;
  v_text : value
}.

Inductive view :=
| Map (ms : list marker)
| Scatter (title : string) (ps : list point)
| Vectors (vs : list vector)
| Expander (title : string)
| Image (p : string)
| InfoBox (msg : string).

(** What a run does, in the order it does it. *)
Inductive event :=
| Remote (c : remote_call)
| Makedirs (p : string)
| WriteFile (p : string)
| RemoveFile (p : string)
| ReadCsv (p : string)
| ToCsv (p : string)
| LogsSet
| LogsAppend
| LogsPop (i : nat)
| Show (v : view)
| Success (msg : string)
| Rerun.

Record world := {
  (** [gsheet_worksheet]: [None], or the rows of the connected worksheet,
      each a list of cell texts; [GSHEET_ENABLED] is set with it *)
  gsheet_worksheet : option (list (list string));
  (** what the coming calls on the worksheet meet: an error, or none *)
  remote_faults : list (option exn);
  (** the local files *)
  fs : gmap string node;
  (** what the coming writes, reads and removals of local files meet *)
  local_faults : list (option exn);
  (** [st.session_state.logs]; [None] while the key is not set *)
  session_logs : option (list record);
  (** the events so far, oldest first *)
  trace : list event;
  (** how far the coming writes that meet an error get: [None] when the
      error comes before the target is opened, and otherwise the bytes that
      had been written into the target, which opening it had emptied *)
  torn : list (option (list Byte.byte))
}.

Definition set_worksheet (g : option (list (list string))) (w : world) : world :=
  {| gsheet_worksheet := g; remote_faults := remote_faults w; fs := fs w;
     local_faults := local_faults w; session_logs := session_logs w; trace := trace w; torn := torn w |}.

Definition set_remote_faults (f : list (option exn)) (w : world) : world :=
  {| gsheet_worksheet := gsheet_worksheet w; remote_faults := f; fs := fs w;
     local_faults := local_faults w; session_logs := session_logs w; trace := trace w; torn := torn w |}.

Definition set_fs (m : gmap string node) (w : world) : world :=
  {| gsheet_worksheet := gsheet_worksheet w; remote_faults := remote_faults w; fs := m;
     local_faults := local_faults w; session_logs := session_logs w; trace := trace w; torn := torn w |}.

Definition set_local_faults (f : list (option exn)) (w : world) : world :=
  {| gsheet_worksheet := gsheet_worksheet w; remote_faults := remote_faults w; fs := fs w;
     local_faults := f; session_logs := session_logs w; trace := trace w; torn := torn w |}.

Definition set_logs (l : option (list record)) (w : world) : world :=
  {| gsheet_worksheet := gsheet_worksheet w; remote_faults := remote_faults w; fs := fs w;
     local_faults := local_faults w; session_logs := l; trace := trace w; torn := torn w |}.

Definition set_torn (t : list (option (list Byte.byte))) (w : world) : world :=
  {| gsheet_worksheet := gsheet_worksheet w; remote_faults := remote_faults w; fs := fs w;
     local_faults := local_faults w; session_logs := session_logs w; trace := trace w; torn := t |}.

Definition emit (e : event) (w : world) : world :=
  {| gsheet_worksheet := gsheet_worksheet w; remote_faults := remote_faults w; fs := fs w;
     local_faults := local_faults w; session_logs := session_logs w; trace := (trace w ++ [e])%list;
     torn := torn w |}.

(** [GSHEET_ENABLED] *)
Definition GSHEET_ENABLED (w : world) : bool := bool_decide (is_Some (gsheet_worksheet w)).

(** ** Computations that change the world and may raise *)

(** What a computation changed before it raised stays changed. *)
Definition M (A : Type) : Type := world -> result A * world.

Definition ret {A} (a : A) : M A := fun w => (Ok a, w).

Definition raise {A} (e : exn) : M A := fun w => (Raise e, w).

Definition bind {A B} (m : M A) (k : A -> M B) : M B :=
  fun w => match m w with
           | (Ok a, w') => k a w'
           | (Raise e, w') => (Raise e, w')
           end.

Notation "x <- m ;; k" := (bind m (fun x => k))
  (at level 100, m at next level, right associativity).
Notation "m ;;; k" := (bind m (fun _ => k))
  (at level 100, right associativity).

(** [try: m except Exception: h] *)
Definition try_except {A} (m : M A) (h : M A) : M A :=
  fun w => match m w with
           | (Ok a, w') => (Ok a, w')
           | (Raise _, w') => h w'
           end.

(** [try: m except cls: h] for one exception class *)
Definition try_except_class {A} (cls : exn -> bool) (m : M A) (h : M A) : M A :=
  fun w => match m w with
           | (Ok a, w') => (Ok a, w')
           | (Raise e, w') => if cls e then h w' else (Raise e, w')
           end.

Definition lift {A} (r : result A) : M A := fun w => (r, w).

Definition get {A} (f : world -> A) : M A := fun w => (Ok (f w), w).

Definition modify (f : world -> world) : M unit := fun w => (Ok tt, f w).

Definition next_fault (faults : list (option exn)) : option exn * list (option exn) :=
  match faults with
  | [] => (None, [])
  | f :: rest => (f, rest)
  end.

(** Computations that only may raise. *)
Definition rbind {A B} (r : result A) (k : A -> result B) : result B :=
  match r with
  | Ok a => k a
  | Raise e => Raise e
  end.

Notation "x <~ r ;; k" := (rbind r (fun x => k))
  (at level 100, r at next level, right associativity).

(** A loop that builds a list and stops at the first exception. *)
Fixpoint collect {A B} (f : A -> result B) (l : list A) : result (list B) :=
  match l with
  | [] => Ok []
  | a :: l' => b <~ f a ;; bs <~ collect f l' ;; Ok (b :: bs)
  end.

(** *** The worksheet, as gspread presents it *)

(** A call on [gsheet_worksheet]: on [None] it is an [AttributeError];
    otherwise it meets the next fault, or it runs [op] on the rows. *)
Definition worksheet_call {A} (c : remote_call)
    (op : list (list string) -> result A * list (list string)) : M A :=
  fun w =>
    match gsheet_worksheet w with
    | None => (Raise AttributeError, w)
    | Some g =>
        let '(fault, rest) := next_fault (remote_faults w) in
        let w1 := emit (Remote c) (set_remote_faults rest w) in
        match fault with
        | Some e => (Raise e, w1)
        | None => let '(r, g') := op g in (r, set_worksheet (Some g') w1)
        end
    end.

(** A row with fewer cells than there are keys is filled up with empty
    cells. *)
Definition fill_row (n : nat) (row : list string) : list string :=
  (row ++ replicate (n - length row) "")%list.

(** The record of a row: its cells, numericised, under the keys. *)
Definition sheet_record `{Libs} (keys row : list string) : record :=
  list_to_map (zip keys (numericise <$> fill_row (length keys) row)).

(** The records of a worksheet: the first row gives the keys, every later
    row one record.  A header with a repeated label is refused. *)
Definition sheet_records `{Libs} (g : list (list string)) : result (list record) :=
  match g with
  | [] => Ok []
  | keys :: data =>
      if bool_decide (NoDup keys)
      then Ok (sheet_record keys <$> data)
      else Raise GSpreadException
  end.

Definition get_all_records `{Libs} : M (list record) :=
  worksheet_call GetAllRecords (fun g => (sheet_records g, g)).

(** [get_all_values()]: the rows; for a worksheet that holds no value
    gspread answers [[[]]], one row without cells. *)
Definition get_all_values : M (list (list string)) :=
  worksheet_call GetAllValues
    (fun g => (Ok (match g with [] => [[]] | _ :: _ => g end), g)).

(** The text a cell shows for a value written into it. *)
Definition cell_text `{Libs} (v : value) : string :=
  match v with
  | VBool b => if b then "TRUE" else "FALSE"
  | _ => py_str v
  end.

(** [append_row(values)]: a new last row *)
Definition append_row `{Libs} (values : list value) : M unit :=
  worksheet_call (AppendRow (cell_text <$> values)) (fun g => (Ok tt, (g ++ [cell_text <$> values])%list)).

(** [delete_rows(n)]: rows are numbered from 1 *)
Definition delete_rows (n : nat) : M unit :=
  worksheet_call (DeleteRows n)
    (fun g => match n with
              | O => (Raise APIError, g)
              | S k => (Ok tt, delete k g)
              end).

(** *** Local files *)

(** A read, a removal or the making of a directory: it meets the next
    fault, which leaves the files as they are, or it runs [op] on them. *)
Definition file_call {A} (ev : event) (op : gmap string node -> result A * gmap string node) : M A :=
  fun w =>
    let '(fault, rest) := next_fault (local_faults w) in
    let w1 := emit ev (set_local_faults rest w) in
    match fault with
    | Some e => (Raise e, w1)
    | None => let '(r, m') := op (fs w) in (r, set_fs m' w1)
    end.

(** [s.rfind(c)] *)
Fixpoint rfind (c : ascii) (s : string) : option nat :=
  match s with
  | EmptyString => None
  | String a s' =>
      match rfind c s' with
      | Some i => Some (S i)
      | None => if Ascii.eqb a c then Some O else None
      end
  end.

Fixpoint all_slashes (s : string) : bool :=
  match s with
  | EmptyString => true
  | String a s' => Ascii.eqb a "/" && all_slashes s'
  end.

(** [s.rstrip('/')] *)
Fixpoint rstrip_slashes (s : string) : string :=
  match s with
  | EmptyString => EmptyString
  | String a s' =>
      match rstrip_slashes s' with
      | EmptyString => if Ascii.eqb a "/" then EmptyString else String a EmptyString
      | t => String a t
      end
  end.

(** [os.path.dirname(p)] *)
Definition os_path_dirname (p : string) : string :=
  match rfind "/" p with
  | Some i =>
      let head := substring 0 (S i) p in
      if all_slashes head then head else rstrip_slashes head
  | None => ""
  end.

(** [os.path.isdir(p)] *)
Definition is_dir (m : gmap string node) (p : string) : bool :=
  match m !! p with
  | Some Dir => true
  | _ => false
  end.

(** [p] can be opened for writing: it is not a directory, and it lies in
    one (a path without a directory part lies in the working directory). *)
Definition writable (m : gmap string node) (p : string) : bool :=
  negb (is_dir m p) &&
  (let d := os_path_dirname p in String.eqb d "" || all_slashes d || is_dir m d).

(** What a write to [p] that met an error leaves behind: nothing has
    changed when the error came before [p] was opened, or [p] could not be
    opened; otherwise [p] holds the bytes that had been written. *)
Definition tear (p : string) (w : world) : world :=
  match torn w with
  | [] => w
  | None :: rest => set_torn rest w
  | Some b :: rest =>
      if writable (fs w) p then set_fs (<[p := File (Bytes b)]> (fs w)) (set_torn rest w)
      else set_torn rest w
  end.

(** The writing of a whole file: [p] is opened, which creates or empties
    it, [c] is written and the file is closed.  The write meets the next
    fault, which may leave [p] torn, or it leaves [p] holding [c]. *)
Definition file_write (ev : event) (p : string) (c : content) : M unit :=
  fun w =>
    let '(fault, rest) := next_fault (local_faults w) in
    let w1 := emit ev (set_local_faults rest w) in
    match fault with
    | Some e => (Raise e, tear p w1)
    | None =>
        if writable (fs w) p then (Ok tt, set_fs (<[p := File c]> (fs w)) w1)
        else (Raise OSError, w1)
    end.

(** [os.path.exists(p)] *)
Definition os_path_exists (p : string) : M bool :=
  get (fun w => bool_decide (is_Some (fs w !! p))).

(** [os.makedirs(p)] *)
Definition os_makedirs (p : string) : M unit :=
  file_call (Makedirs p)
    (fun m => match m !! p with
              | Some _ => (Raise OSError, m)
              | None => (Ok tt, <[p := Dir]> m)
              end).

(** [with open(p, "wb") as f: f.write(b)] *)
Definition write_bytes (p : string) (b : list Byte.byte) : M unit :=
  file_write (WriteFile p) p (Bytes b).

(** [os.remove(p)] *)
Definition os_remove (p : string) : M unit :=
  file_call (RemoveFile p)
    (fun m => match m !! p with
              | Some (File _) => (Ok tt, delete p m)
              | _ => (Raise OSError, m)
              end).

(** [df.to_csv(p, index=False, encoding="utf-8-sig")] *)
Definition df_to_csv `{Libs} (df : frame) (p : string) : M unit :=
  file_write (ToCsv p) p (Table (to_csv df)).

(** [pd.read_csv(p)]: a file that holds the text of a table gives that
    table, an empty file is an [EmptyDataError], and so is a text without
    labels; other bytes are for the tokenizer to read. *)
Definition pd_read_csv `{Libs} (p : string) : M frame :=
  file_call (ReadCsv p)
    (fun m => match m !! p with
              | Some (File (Table t)) => (read_csv t, m)
              | Some (File (Bytes [])) => (Raise EmptyDataError, m)
              | Some (File (Bytes b)) => (t <~ csv_tokens b ;; read_csv t, m)
              | _ => (Raise OSError, m)
              end).

(** [os.path.splitext(p)[1]] *)
Fixpoint all_dots (s : string) : bool :=
  match s with
  | EmptyString => true
  | String a s' => Ascii.eqb a "." && all_dots s'
  end.

Definition splitext_ext (p : string) : string :=
  let start := match rfind "/" p with Some i => S i | None => O end in
  match rfind "." p with
  | Some d =>
      if (start <=? d)%nat && negb (all_dots (substring start (d - start) p))
      then substring d (String.length p - d) p
      else ""
  | None => ""
  end.

(** [os.path.join(a, b)] *)
Definition os_path_join (a b : string) : string :=
  match b with
  | String "/" _ => b
  | _ => if String.eqb a "" then b
         else match rfind "/" a with
              | Some i => if (S i =? String.length a)%nat then a ++ b else a ++ "/" ++ b
              | None => a ++ "/" ++ b
              end
  end.

(** ** app.py *)

Section App.
Context `{L : Libs}.

(** *** Google Sheets (lines 35-84) *)

Definition load_from_gsheet : M (list record) :=
  try_except
    (records <- get_all_records ;;
     match records with
     | _ :: _ =>
         let df := DataFrame records in
         let df := fillna (VStr "") df in
         ret (to_dict_records df)
     | [] => ret []
     end)
    (ret []).

Definition headers : list string :=
  ["Location"; "Hard_Y_Authenticity"; "Hard_X_Affect"; "Soft_Y_Correctness"; "Soft_X_Affect";
   "Comment"; "Image_Path"; "Timestamp"].

Definition gsheet_row (log_entry : record) : list value :=
  [dict_get log_entry "Location" (VStr "");
   dict_get log_entry "Hard_Y_Authenticity" (VInt 0);
   dict_get log_entry "Hard_X_Affect" (VInt 0);
   dict_get log_entry "Soft_Y_Correctness" (VInt 0);
   dict_get log_entry "Soft_X_Affect" (VInt 0);
   dict_get log_entry "Comment" (VStr "");
   dict_get log_entry "Image_Path" (VStr "");
   dict_get log_entry "Timestamp" (VStr "")].

Definition save_to_gsheet (log_entry : record) : M bool :=
  try_except
    (existing <- get_all_values ;;
     match existing with
     | [] => append_row (VStr <$> headers)
     | _ :: _ => ret tt
     end ;;;
     let row := gsheet_row log_entry in
     append_row row ;;;
     ret true)
    (ret false).

(** [row_index] counts the data rows from 0; the header is the first row of
    the worksheet and gspread counts from 1, hence [+ 2]. *)
Definition delete_from_gsheet (row_index : nat) : M bool :=
  try_except
    (delete_rows (row_index + 2) ;;;
     ret true)
    (ret false).

(** *** The coordinate registry (lines 99-107) *)

Definition LAT_LON_items : list (string * (float * float)) :=
  [("アメリカンビレッジ (北谷)", (26.316, 127.756)%float);
   ("ピザハウス (夕食)", (26.262, 127.733)%float);
   ("むら咲むら (読谷)", (26.406, 127.718)%float);
   ("ホテル日航アリビラ (ランチ)", (26.413, 127.715)%float);
   ("座喜味城跡 (読谷)", (26.408, 127.742)%float);
   ("佐喜眞美術館 (宜野湾)", (26.273, 127.754)%float);
   ("那覇港・フェリー (海上)", (26.216, 127.674)%float)].

Definition LAT_LON : gmap string (float * float) := list_to_map LAT_LON_items.

(** [LAT_LON[v]] when [v in LAT_LON]: only a string can be one of the keys. *)
Definition lat_lon_lookup (v : value) : option (float * float) :=
  match v with
  | VStr s => LAT_LON !! s
  | _ => None
  end.

(** *** Session state (lines 110-125) *)

Definition CSV_PATH : string := "okinawa_survey_data.csv".

Definition set_session_logs (l : list record) : M unit :=
  modify (fun w => emit LogsSet (set_logs (Some l) w)).

Definition init_session : M unit :=
  logs <- get session_logs ;;
  enabled <- get GSHEET_ENABLED ;;
  match logs with
  | None =>
      if enabled then
        l <- load_from_gsheet ;; set_session_logs l
      else
        there <- os_path_exists CSV_PATH ;;
        if there then
          try_except_class (fun e => match e with EmptyDataError => true | _ => false end)
            (df_load <- pd_read_csv CSV_PATH ;;
             let df_load := fillna (VStr "") df_load in
             set_session_logs (to_dict_records df_load))
            (set_session_logs [])
        else set_session_logs []
  | Some _ => ret tt
  end ;;;
  if enabled then
    l <- load_from_gsheet ;; set_session_logs l
  else ret tt.

(** [st.session_state.logs] once the key is set *)
Definition the_logs : M (list record) :=
  logs <- get session_logs ;;
  match logs with
  | Some l => ret l
  | None => raise AttributeError
  end.

(** [pd.DataFrame(st.session_state.logs).to_csv("okinawa_survey_data.csv", ...)] *)
Definition write_backup : M unit :=
  logs <- the_logs ;;
  df_to_csv (DataFrame logs) CSV_PATH.

(** *** The entry form (lines 128-184) *)

Record datetime := {
  year : nat;
  month : nat;
  day : nat;
  hour : nat;
  minute : nat;
  second : nat
}.

Definition digits (width n : nat) : string := pad_left width (str_int (Z.of_nat n)).

(** [strftime('%Y%m%d_%H%M%S')] *)
Definition strftime_file (t : datetime) : string :=
  digits 4 (year t) ++ digits 2 (month t) ++ digits 2 (day t) ++ "_"
  ++ digits 2 (hour t) ++ digits 2 (minute t) ++ digits 2 (second t).

(** [strftime("%Y-%m-%d %H:%M:%S")] *)
Definition strftime_log (t : datetime) : string :=
  digits 4 (year t) ++ "-" ++ digits 2 (month t) ++ "-" ++ digits 2 (day t) ++ " "
  ++ digits 2 (hour t) ++ ":" ++ digits 2 (minute t) ++ ":" ++ digits 2 (second t).

(** What the widgets of the sidebar hold when the button is pressed, and
    what the clock shows at the two readings of it. *)
Record form := {
  option_ : string;
  text_input : string;
  h_y_val : Z;
  h_x_val : Z;
  s_y_val : Z;
  s_x_val : Z;
  uploaded_file : option (string * list Byte.byte);
  comment : string;
  now_file : datetime;
  now_log : datetime
}.

Definition OTHER : string := "その他 (自由入力)".

Definition location (f : form) : string :=
  if String.eqb (option_ f) OTHER then text_input f else option_ f.

Definition new_log (f : form) (saved_photo_path : string) : record :=
  list_to_map
    [("Location", VStr (location f));
     ("Hard_Y_Authenticity", VInt (h_y_val f));
     ("Hard_X_Affect", VInt (h_x_val f));
     ("Soft_Y_Correctness", VInt (s_y_val f));
     ("Soft_X_Affect", VInt (s_x_val f));
     ("Comment", VStr (comment f));
     ("Image_Path", VStr saved_photo_path);
     ("Timestamp", VStr (strftime_log (now_log f)))].

Definition SUCCESS : string := "記録完了！".

(** Lines 154-164: the photo directory and the uploaded photo; the result is
    [saved_photo_path]. *)
Definition save_photo (f : form) : M string :=
  let save_dir := "photos" in
  there <- os_path_exists save_dir ;;
  (if there then ret tt else os_makedirs save_dir) ;;;
  match uploaded_file f with
  | Some (name, buffer) =>
      let file_extension := splitext_ext name in
      let file_name := strftime_file (now_file f) ++ file_extension in
      let saved_photo_path := os_path_join save_dir file_name in
      write_bytes saved_photo_path buffer ;;;
      ret saved_photo_path
  | None => ret ""
  end.

(** Lines 176-184: the record is appended to the store, sent to the
    worksheet when the remote backend is on, and the backup is rewritten. *)
Definition persist (log : record) : M unit :=
  logs <- the_logs ;;
  modify (fun w => emit LogsAppend (set_logs (Some (logs ++ [log])%list) w)) ;;;
  enabled <- get GSHEET_ENABLED ;;
  (if enabled then save_to_gsheet log else ret true) ;;;
  write_backup ;;;
  modify (emit (Success SUCCESS)) ;;;
  modify (emit Rerun).

(** The body of [if st.button("記録する (Record)")]. *)
Definition on_record (f : form) : M unit :=
  saved_photo_path <- save_photo f ;;
  persist (new_log f saved_photo_path).

(** *** The map (lines 194-205) *)

Definition map_marker (log : record) : result (option marker) :=
  loc <~ dict_item log "Location" ;;
  match lat_lon_lookup loc with
  | Some pos =>
      nonneg <~ py_ge0 (dict_get log "Hard_Y_Authenticity" (VInt 0)) ;;
      let icon_color := if nonneg then "blue" else "red" in
      Ok (Some {| m_location := pos; m_popup := py_str loc; m_tooltip := loc;
                  m_color := icon_color |})
  | None => Ok None
  end.

Definition field_map (logs : list record) : result (list marker) :=
  ms <~ collect map_marker logs ;; Ok (omap id ms).

(** *** The two scatter plots (lines 209-245) *)

Definition RATINGS : list string :=
  ["Hard_Y_Authenticity"; "Hard_X_Affect"; "Soft_Y_Correctness"; "Soft_X_Affect"].

(** [pd.to_numeric(col, errors='coerce').fillna(0)], as a column of the
    frame again. *)
Definition coerced (col : list value) : list value :=
  value_of_num <$> fillna_zero (to_numeric_coerce col).

(** The body of the loop of lines 212-214, and the loop. *)
Definition coerce_rating (df : frame) (col : string) : frame :=
  if bool_decide (col ∈ columns df)
  then df_assign col (coerced (df_column df col)) df
  else df.

Definition coerce_ratings (df : frame) : frame := foldl coerce_rating df RATINGS.

(** [px.scatter(df, x=x, y=y, text=text)]: a column that the frame does not
    have is a [ValueError]. *)
Definition px_scatter (df : frame) (x y text : string) : result (list point) :=
  if bool_decide (x ∈ columns df) && bool_decide (y ∈ columns df) && bool_decide (text ∈ columns df)
  then Ok ((fun r : record =>
              {| p_x := default NaN (r !! x); p_y := default NaN (r !! y);
                 p_text := default NaN (r !! text) |}) <$> rows df)
  else Raise ValueError.

Definition chart_frame (logs : list record) : frame := coerce_ratings (DataFrame logs).

Definition hard_scatter (logs : list record) : result (list point) :=
  px_scatter (chart_frame logs) "Hard_X_Affect" "Hard_Y_Authenticity" "Location".

Definition soft_scatter (logs : list record) : result (list point) :=
  px_scatter (chart_frame logs) "Soft_X_Affect" "Soft_Y_Correctness" "Location".

(** *** The vector view (lines 262-289) *)

(** [float(v)] *)
Definition py_float (v : value) : result float :=
  match v with
  | VInt z => float_of_int z
  | VFloat f => Ok f
  | VBool b => Ok (if b then 1%float else 0%float)
  | VStr s =>
      match py_float_str s with
      | Some f => Ok f
      | None => Raise ValueError
      end
  end.

(** [float(log.get(k, 0) or 0)] *)
Definition rating (log : record) (k : string) : result float :=
  py_float (py_or (dict_get log k (VInt 0)) (VInt 0)).

Definition vector_of (log : record) : result vector :=
  h_x <~ rating log "Hard_X_Affect" ;;
  h_y <~ rating log "Hard_Y_Authenticity" ;;
  s_x <~ rating log "Soft_X_Affect" ;;
  s_y <~ rating log "Soft_Y_Correctness" ;;
  loc <~ dict_item log "Location" ;;
  Ok {| v_hard := (h_x, h_y); v_soft := (s_x, s_y);
        v_hover_hard := py_str loc ++ " (Hard)"; v_hover_soft := py_str loc ++ " (Soft)";
        v_text := loc |}.

Definition vector_view (logs : list record) : result (list vector) := collect vector_of logs.

(** *** The records list and its delete button (lines 296-324) *)

Definition expander_title (log : record) : result string :=
  loc <~ dict_item log "Location" ;;
  ts <~ dict_item log "Timestamp" ;;
  Ok ("【" ++ py_str loc ++ "】 (" ++ py_str ts ++ ")").

(** Lines 305-306: the photo of the record is removed if there is one. *)
Definition remove_photo (img_path : value) : M unit :=
  match img_path with
  | VStr p =>
      if truthy img_path then
        there <- os_path_exists p ;;
        if there then os_remove p else ret tt
      else ret tt
  | _ => ret tt
  end.

(** Lines 308-313: the row is deleted from the worksheet when the remote
    backend is on, the record leaves the store ([pop] raises [IndexError]
    out of range) and the backup is rewritten. *)
Definition drop_record (i : nat) : M unit :=
  enabled <- get GSHEET_ENABLED ;;
  (if enabled then delete_from_gsheet i else ret true) ;;;
  logs <- the_logs ;;
  match logs !! i with
  | Some _ => modify (fun w => emit (LogsPop i) (set_logs (Some (delete i logs)) w))
  | None => raise IndexError
  end ;;;
  write_backup ;;;
  modify (emit Rerun).

(** The body of [if st.button(...)] for the record at position [i]. *)
Definition on_delete (i : nat) : M unit :=
  logs <- the_logs ;;
  log <- lift (match logs !! i with Some log => Ok log | None => Raise IndexError end) ;;
  let img_path := dict_get log "Image_Path" (VStr "") in
  remove_photo img_path ;;;
  drop_record i.

(** *** The main area (lines 187-326) *)

Definition show (v : view) : M unit := modify (emit (Show v)).

(** [st.image(p)]: the file is opened and shown, unless the library finds
    fault with it; a directory cannot be opened. *)
Definition st_image (p : string) : M unit :=
  m <- get fs ;;
  match m !! p with
  | Some (File c) =>
      match image_error p c with
      | Some e => raise e
      | None => show (Image p)
      end
  | _ => raise OSError
  end.

(** Lines 302-303: the photo of the record is shown if there is one. *)
Definition show_photo (img_path : value) : M unit :=
  match img_path with
  | VStr p =>
      if truthy img_path then
        there <- os_path_exists p ;;
        if there then st_image p else ret tt
      else ret tt
  | _ => ret tt
  end.

Definition render_charts : M unit :=
  logs <- the_logs ;;
  ms <- lift (field_map logs) ;;
  show (Map ms) ;;;
  hs <- lift (hard_scatter logs) ;;
  show (Scatter "Hard" hs) ;;;
  ss <- lift (soft_scatter logs) ;;
  show (Scatter "Soft" ss) ;;;
  vs <- lift (vector_view logs) ;;
  show (Vectors vs).

(** The records list, newest first: the first [n] records of the store are
    still to be shown; [clicked] says which delete button, if any, is the
    one pressed. *)
Fixpoint render_list (logs : list record) (n : nat) (clicked : option nat) : M unit :=
  match n with
  | O => ret tt
  | S i =>
      log <- lift (match logs !! i with Some log => Ok log | None => Raise IndexError end) ;;
      title <- lift (expander_title log) ;;
      show (Expander title) ;;;
      let img_path := dict_get log "Image_Path" (VStr "") in
      show_photo img_path ;;;
      if bool_decide (clicked = Some i) then on_delete i
      else
        c <- lift (dict_item log "Comment") ;;
        show (InfoBox (py_str c)) ;;;
        render_list logs i clicked
  end.

Definition EMPTY_HINT : string := "← 左側のサイドバーから、最初の調査記録を追加してください。".

Definition render_main (clicked : option nat) : M unit :=
  logs <- the_logs ;;
  match logs with
  | _ :: _ => render_charts ;;; render_list logs (length logs) clicked
  | [] => show (InfoBox EMPTY_HINT)
  end.

(** What the user did to start the run. *)
Inductive interaction :=
| Visit
| Record_ (f : form)
| Delete (i : nat).

(** One run of the script. *)
Definition script (act : interaction) : M unit :=
  init_session ;;;
  match act with
  | Record_ f => on_record f
  | Delete i => render_main (Some i)
  | Visit => render_main None
  end.

(** *** What the statements below speak of *)

(** What a reload from the worksheet [g] yields when the call meets [fault]:
    every stored record in stored order, and nothing when the call fails. *)
Definition reloaded (g : list (list string)) (fault : option exn) : list record :=
  match fault with
  | Some _ => []
  | None =>
      match sheet_records g with
      | Ok records => to_dict_records (fillna (VStr "") (DataFrame records))
      | Raise _ => []
      end
  end.

(** The first [n] of the coming calls meet no error. *)
Definition no_fault (n : nat) (faults : list (option exn)) : bool :=
  forallb (fun f => match f with None => true | Some _ => false end) (take n faults).

(** The photo the delete handler removes for [log]: the file its
    [Image_Path] names, when that is a non-empty string and the file is
    there. *)
Definition photo_of (w : world) (log : record) : option string :=
  match dict_get log "Image_Path" (VStr "") with
  | VStr p => if truthy (VStr p) && bool_decide (is_Some (fs w !! p)) then Some p else None
  | _ => None
  end.

(** The map in the spec's words: a record is on the map when its Location
    is a key of the registry; its marker stands at the registered
    coordinates and is blue when Hard_Y_Authenticity is non-negative, red
    when it is negative. *)
Definition location_of (log : record) : value := dict_get log "Location" (VStr "").

Definition on_map (log : record) : bool :=
  match location_of log with
  | VStr s => bool_decide (s ∈ LAT_LON_items.*1)
  | _ => false
  end.

Definition non_negative (v : value) : bool :=
  match v with
  | VInt z => (0 <=? z)%Z
  | VFloat f => PrimFloat.leb 0%float f
  | VBool _ => true
  | VStr _ => false
  end.

Definition spec_marker (log : record) : marker :=
  {| m_location := default (0%float, 0%float) (lat_lon_lookup (location_of log));
     m_popup := py_str (location_of log);
     m_tooltip := location_of log;
     m_color := if non_negative (dict_get log "Hard_Y_Authenticity" (VInt 0))
                then "blue" else "red" |}.

(** A record the map can draw: it has a Location and, when that is a key
    of the registry, its Hard_Y_Authenticity, if it has one, is a number. *)
Definition drawable (log : record) : Prop :=
  is_Some (log !! "Location") /\
  (on_map log = true -> is_str (dict_get log "Hard_Y_Authenticity" (VInt 0)) = false).

(** The round trip through the backup file.  The fields of a record that
    hold text: *)
Definition TEXTS : list string := ["Location"; "Comment"; "Image_Path"; "Timestamp"].

(** A text that the reader of the backup gives back as it was written: the
    empty text, or one that it takes neither for a missing value nor for a
    number nor for a boolean. *)
Definition plain_text (s : string) : Prop :=
  s = "" \/
  (is_na_text s = false /\ csv_int s = None /\ csv_float s = None /\ csv_bool s = None).

(** A record as the form builds it: the eight fields, the four ratings
    integers, the four others texts. *)
Definition submitted (log : record) : Prop :=
  dom log = list_to_set headers /\
  (forall k, k ∈ RATINGS -> exists z, log !! k = Some (VInt z)) /\
  (forall k, k ∈ TEXTS -> exists s, log !! k = Some (VStr s) /\ plain_text s).

(** The reader of the backup reads the integers that the writer prints. *)
Definition reads_back_ints : Prop := forall z, csv_int (str_int z) = Some z.

(** *** Worlds and records to run the script on *)

Definition ex_time : datetime :=
  {| year := 2026; month := 1; day := 2; hour := 3; minute := 4; second := 5 |}.

(** The submission of the spec's scenario. *)
Definition ex_form : form :=
  {| option_ := "座喜味城跡 (読谷)"; text_input := "名もなきグスク";
     h_y_val := 20; h_x_val := -10; s_y_val := 30; s_x_val := 40;
     uploaded_file := None; comment := "stone walls";
     now_file := ex_time; now_log := ex_time |}.

Definition ex_log : record := new_log ex_form "".

(** The same submission with the comment "NA". *)
Definition ex_form_na : form :=
  {| option_ := "座喜味城跡 (読谷)"; text_input := "名もなきグスク";
     h_y_val := 20; h_x_val := -10; s_y_val := 30; s_x_val := 40;
     uploaded_file := None; comment := "NA";
     now_file := ex_time; now_log := ex_time |}.

Definition ex_log_na : record := new_log ex_form_na "".

(** The record of the scenario as a worksheet returns it when the cell of
    Hard_X_Affect holds the text "abc". *)
Definition ex_log_abc : record := <["Hard_X_Affect" := VStr "abc"]> ex_log.

(** A record with a photo. *)
Definition ex_log_photo : record := <["Image_Path" := VStr "photos/20260102_030405.jpg"]> ex_log.

(** The row of [ex_log] in the worksheet. *)
Definition ex_row : list string :=
  ["座喜味城跡 (読谷)"; "20"; "-10"; "30"; "40"; "stone walls"; ""; "2026-01-02 03:04:05"].

(** Local mode: no worksheet, the photo directory and one photo. *)
Definition ex_local (logs : list record) (faults : list (option exn)) : world :=
  {| gsheet_worksheet := None; remote_faults := [];
     fs := {["photos" := Dir; "photos/20260102_030405.jpg" := File (Bytes [])]};
     local_faults := faults; session_logs := Some logs; trace := []; torn := [] |}.

(** Remote mode: the worksheet holds the rows [g]. *)
Definition ex_remote (g : list (list string)) (logs : list record)
    (remote local : list (option exn)) : world :=
  {| gsheet_worksheet := Some g; remote_faults := remote;
     fs := {["photos" := Dir; "photos/20260102_030405.jpg" := File (Bytes [])]};
     local_faults := local; session_logs := Some logs; trace := []; torn := [] |}.

(** A submission with a location typed in by hand. *)
Definition ex_form_free : form :=
  {| option_ := OTHER; text_input := "名もなきグスク";
     h_y_val := -5; h_x_val := 0; s_y_val := 10; s_x_val := 0;
     uploaded_file := None; comment := "";
     now_file := ex_time; now_log := ex_time |}.

Definition ex_log_free : record := new_log ex_form_free "".

Definition ex_row_free : list string :=
  ["名もなきグスク"; "-5"; "0"; "10"; "0"; ""; ""; "2026-01-02 03:04:05"].

(** A rating that the charts cannot read: the record has no such field, or
    the field holds a text that [pd.to_numeric] does not parse. *)
Definition unreadable (log : record) (k : string) : Prop :=
  log !! k = None \/ exists s, log !! k = Some (VStr s) /\ pd_numeric_str s = None.

(** The record of the scenario without its Hard_X_Affect, as a worksheet
    whose header lacks that label returns it. *)
Definition ex_log_short : record := delete "Hard_X_Affect" ex_log.

(** *** What the further statements speak of *)

(** A computation keeps [R] when [R] relates the world it starts in to the
    world it leaves, whether it returns or raises. *)
Definition keeps (R : world -> world -> Prop) {A} (m : M A) : Prop :=
  forall w, R w (snd (m w)).

Definition is_show (e : event) : bool :=
  match e with
  | Show _ => true
  | _ => false
  end.

Definition is_remote (e : event) : bool :=
  match e with
  | Remote _ => true
  | _ => false
  end.

(** [w'] is [w] with some views shown, and nothing else changed. *)
Definition only_shows (w w' : world) : Prop :=
  gsheet_worksheet w' = gsheet_worksheet w /\ remote_faults w' = remote_faults w /\
  fs w' = fs w /\ local_faults w' = local_faults w /\ session_logs w' = session_logs w /\
  torn w' = torn w /\
  exists evs, trace w' = (trace w ++ evs)%list /\ forallb is_show evs = true.


(** What the records list shows of one record when no button is pressed:
    the expander, the photo if the record has one that is there, and the
    comment. *)
Definition entry_views (w : world) (log : record) : list event :=
  ([Show (Expander ("【" ++ py_str (dict_get log "Location" (VStr "")) ++ "】 ("
                    ++ py_str (dict_get log "Timestamp" (VStr "")) ++ ")"))]
   ++ match photo_of w log with
      | Some p => [Show (Image p)]
      | None => []
      end
   ++ [Show (InfoBox (py_str (dict_get log "Comment" (VStr ""))))])%list.

(** A record the records list can show: it has the three fields that the
    list reads without a default. *)
Definition listed (log : record) : Prop :=
  is_Some (log !! "Location") /\ is_Some (log !! "Timestamp") /\ is_Some (log !! "Comment").

(** The photo of the record, if it has one that is there, is a file in
    which [st.image] finds no fault. *)
Definition showable (w : world) (log : record) : Prop :=
  forall p, photo_of w log = Some p ->
    exists c, fs w !! p = Some (File c) /\ image_error p c = None.

(** A record as the entry form builds it: the eight fields, the four
    ratings integers in the range of the sliders, the four others texts. *)
Definition form_built (log : record) : Prop :=
  dom log = list_to_set headers /\
  (forall k, k ∈ RATINGS -> exists z, log !! k = Some (VInt z) /\ (-50 <= z <= 50)%Z) /\
  (forall k, k ∈ TEXTS -> exists s, log !! k = Some (VStr s)).

(** The sliders of the form hold values of their range. *)
Definition in_range (f : form) : Prop :=
  (-50 <= h_y_val f <= 50)%Z /\ (-50 <= h_x_val f <= 50)%Z /\
  (-50 <= s_y_val f <= 50)%Z /\ (-50 <= s_x_val f <= 50)%Z.

(** The integer a rating holds, 0 when it is missing or not an integer. *)
Definition int_field (log : record) (k : string) : Z :=
  match log !! k with
  | Some (VInt z) => z
  | _ => 0%Z
  end.

(** The points and the vector of a record, read off its fields. *)
Definition hard_point (log : record) : point :=
  {| p_x := dict_get log "Hard_X_Affect" (VInt 0);
     p_y := dict_get log "Hard_Y_Authenticity" (VInt 0);
     p_text := location_of log |}.

Definition soft_point (log : record) : point :=
  {| p_x := dict_get log "Soft_X_Affect" (VInt 0);
     p_y := dict_get log "Soft_Y_Correctness" (VInt 0);
     p_text := location_of log |}.

Definition form_vector (log : record) : vector :=
  {| v_hard := (astype_float (int_field log "Hard_X_Affect"),
                astype_float (int_field log "Hard_Y_Authenticity"));
     v_soft := (astype_float (int_field log "Soft_X_Affect"),
                astype_float (int_field log "Soft_Y_Correctness"));
     v_hover_hard := py_str (location_of log) ++ " (Hard)";
     v_hover_soft := py_str (location_of log) ++ " (Soft)";
     v_text := location_of log |}.

(** A record the vector view can draw: it has a Location, and each rating
    is missing, or the empty text, or an integer in the range of the
    sliders. *)
Definition vector_ready (log : record) : Prop :=
  is_Some (log !! "Location") /\
  forall k, k ∈ RATINGS ->
    log !! k = None \/ log !! k = Some (VStr "") \/
    exists z, log !! k = Some (VInt z) /\ (-50 <= z <= 50)%Z.

(** gspread reads back as integers the integers that the worksheet shows. *)
Definition numericise_ints : Prop := forall z, numericise (str_int z) = VInt z.

(** A record built by the form whose texts the worksheet gives back as
    they are: gspread takes none of them for a number. *)
Definition sheet_safe (log : record) : Prop :=
  form_built log /\ forall k s, log !! k = Some (VStr s) -> numericise s = VStr s.

(** The row of a record in the worksheet. *)
Definition sheet_row (log : record) : list string := cell_text <$> gsheet_row log.

(** The worksheet that holds the header row and the rows of the records
    [logs]. *)
Definition sheet_of (logs : list record) : list (list string) :=
  headers :: (sheet_row <$> logs).

(** The appends of the records [logs], one submission after the other. *)
Definition append_all (logs : list record) (w : world) : world :=
  foldl (fun w log => snd (save_to_gsheet log w)) w logs.

(** A time of the calendar, in the years that [strftime] prints with four
    digits. *)
Definition valid_time (t : datetime) : Prop :=
  (1000 <= Z.of_nat (year t) < 10000)%Z /\ (month t < 100)%nat /\ (day t < 100)%nat /\
  (hour t < 100)%nat /\ (minute t < 100)%nat /\ (second t < 100)%nat.

(** [digits width n] has [width] characters and reads back as [n]. *)
Definition digits_ok (width n : nat) : bool :=
  (String.length (digits width n) =? width)%nat
  && bool_decide (dec_int (digits width n) = Some (Z.of_nat n)).

(** No value of the records is a NaN. *)
Definition no_nan (logs : list record) : Prop :=
  Forall (map_Forall (fun (_ : string) v => isna v = false)) logs.

(** From [w] to [w'] only calls on the worksheet were made. *)
Definition remote_only (w w' : world) : Prop :=
  fs w' = fs w /\ local_faults w' = local_faults w /\ session_logs w' = session_logs w /\
  torn w' = torn w /\
  exists evs, trace w' = (trace w ++ evs)%list /\ forallb is_remote evs = true.

(** The store is the same in [w'] as in [w]. *)
Definition same_store (w w' : world) : Prop := session_logs w' = session_logs w.

(** *** Further worlds and records to run the script on *)

(** A submission with an uploaded photo, and a second one made in the same
    second. *)
Definition ex_form_upload : form :=
  {| option_ := "座喜味城跡 (読谷)"; text_input := "名もなきグスク";
     h_y_val := 20; h_x_val := -10; s_y_val := 30; s_x_val := 40;
     uploaded_file := Some ("IMG_0001.jpg", [Byte.x78]); comment := "stone walls";
     now_file := ex_time; now_log := ex_time |}.

Definition ex_form_upload2 : form :=
  {| option_ := "座喜味城跡 (読谷)"; text_input := "名もなきグスク";
     h_y_val := 5; h_x_val := 5; s_y_val := 5; s_x_val := 5;
     uploaded_file := Some ("wall.jpg", [Byte.x79; Byte.x7a]); comment := "";
     now_file := ex_time; now_log := ex_time |}.

(** A world in which the next write fails after it has opened its target,
    with nothing written; the photo directory holds a photo of the second
    of [ex_time]. *)
Definition ex_torn : world :=
  {| gsheet_worksheet := None; remote_faults := [];
     fs := {["photos" := Dir; "photos/20260102_030405.jpg" := File (Bytes [Byte.x79; Byte.x7a])]};
     local_faults := [Some OSError]; session_logs := Some []; trace := []; torn := [Some []] |}.

(** The start of a session in local mode: the store is not set, and the
    backup file, if any, is the only file. *)
Definition ex_start (backup : option node) : world :=
  {| gsheet_worksheet := None; remote_faults := [];
     fs := from_option (fun n => {[CSV_PATH := n]}) ∅ backup;
     local_faults := []; session_logs := None; trace := []; torn := [] |}.

(** The record of the scenario as a worksheet returns it when the cell of
    Hard_Y_Authenticity is empty. *)
Definition ex_log_blank : record := <["Hard_Y_Authenticity" := VStr ""]> ex_log.

(** ** Properties *)

(** *** Writing a file *)

Lemma tear_frame (p : string) (w : world) :
  gsheet_worksheet (tear p w) = gsheet_worksheet w /\
  remote_faults (tear p w) = remote_faults w /\
  local_faults (tear p w) = local_faults w /\
  session_logs (tear p w) = session_logs w /\
  trace (tear p w) = trace w /\
  (forall q, q <> p -> fs (tear p w) !! q = fs w !! q).
Proof.
  unfold tear. destruct (torn w) as [| [b |] rest]; [repeat split; reflexivity | |
    repeat split; reflexivity].
  destruct (writable (fs w) p); repeat split; try reflexivity.
  intros q Hq. simpl. apply lookup_insert_ne. congruence.
Qed.

(** What is left of the target: the bytes that had been written, when the
    target was opened; the file as it was, when it was not. *)
Lemma tear_torn (p : string) (w : world) (b : list Byte.byte)
    (rest : list (option (list Byte.byte))) :
  torn w = Some b :: rest -> writable (fs w) p = true ->
  fs (tear p w) !! p = Some (File (Bytes b)).
Proof. intros Ht Hw. unfold tear. rewrite Ht, Hw. apply lookup_insert_eq. Qed.

Lemma tear_whole (p : string) (w : world) :
  torn w = [] \/ (exists rest, torn w = None :: rest) -> fs (tear p w) = fs w.
Proof. intros [Ht | [rest Ht]]; unfold tear; rewrite Ht; reflexivity. Qed.

(** A write that meets no error leaves its target holding what was
    written. *)
Lemma file_write_ok (ev : event) (p : string) (c : content) (w : world) :
  fst (next_fault (local_faults w)) = None ->
  writable (fs w) p = true ->
  file_write ev p c w =
    (Ok tt, set_fs (<[p := File c]> (fs w))
              (emit ev (set_local_faults (snd (next_fault (local_faults w))) w))).
Proof.
  intros Hf Hw. unfold file_write.
  destruct (next_fault (local_faults w)) as [fault rest]. simpl in Hf. subst fault.
  rewrite Hw. reflexivity.
Qed.

(** A write that meets an error raises it; what it leaves of its target is
    not what was to be written. *)
Lemma file_write_fault (ev : event) (p : string) (c : content) (w : world) (e : exn)
    (rest : list (option exn)) :
  local_faults w = Some e :: rest ->
  file_write ev p c w = (Raise e, tear p (emit ev (set_local_faults rest w))).
Proof. intros Hf. unfold file_write. rewrite Hf. reflexivity. Qed.

Lemma file_write_frame (ev : event) (p : string) (c : content) (w : world) :
  gsheet_worksheet (snd (file_write ev p c w)) = gsheet_worksheet w /\
  remote_faults (snd (file_write ev p c w)) = remote_faults w /\
  session_logs (snd (file_write ev p c w)) = session_logs w /\
  trace (snd (file_write ev p c w)) = (trace w ++ [ev])%list /\
  (forall q, q <> p -> fs (snd (file_write ev p c w)) !! q = fs w !! q).
Proof.
  unfold file_write. destruct (next_fault (local_faults w)) as [[e |] rest]; cbn [snd].
  - destruct (tear_frame p (emit ev (set_local_faults rest w))) as (-> & -> & _ & -> & -> & Hfs).
    repeat split; try reflexivity. exact Hfs.
  - destruct (writable (fs w) p); cbn [snd]; repeat split; try reflexivity.
    intros q Hq. simpl. apply lookup_insert_ne. congruence.
Qed.

Lemma writable_backup (m : gmap string node) :
  m !! CSV_PATH <> Some Dir -> writable m CSV_PATH = true.
Proof.
  intros Hd. unfold writable, is_dir.
  replace (os_path_dirname CSV_PATH) with "" by (vm_compute; reflexivity).
  destruct (m !! CSV_PATH) as [[| c] |]; [congruence | reflexivity | reflexivity].
Qed.

(** *** The worksheet calls *)

Lemma load_from_gsheet_spec (w : world) g :
  gsheet_worksheet w = Some g ->
  load_from_gsheet w =
    (Ok (reloaded g (fst (next_fault (remote_faults w)))),
     emit (Remote GetAllRecords) (set_remote_faults (snd (next_fault (remote_faults w))) w)).
Proof.
  intros Hg. destruct w as [ws rf m lf sl tr]. simpl in Hg. subst ws.
  unfold load_from_gsheet, try_except, bind, get_all_records, worksheet_call, reloaded.
  simpl. destruct rf as [| [e |] rest]; simpl; try reflexivity.
  - destruct (sheet_records g) as [[| r recs] | e]; reflexivity.
  - destruct (sheet_records g) as [[| r recs] | e]; reflexivity.
Qed.

Lemma try_except_total {A} (m h : M A) (w : world) :
  (forall w', exists a, fst (h w') = Ok a) -> exists a, fst (try_except m h w) = Ok a.
Proof.
  intros Hh. unfold try_except.
  destruct (m w) as [[a | e] w']; simpl; eauto.
Qed.

Lemma load_from_gsheet_total (w : world) : exists records, fst (load_from_gsheet w) = Ok records.
Proof. apply try_except_total. intros w'. exists []. reflexivity. Qed.

Lemma save_to_gsheet_total (log_entry : record) (w : world) :
  exists b, fst (save_to_gsheet log_entry w) = Ok b.
Proof. apply try_except_total. intros w'. exists false. reflexivity. Qed.

Lemma delete_from_gsheet_total (row_index : nat) (w : world) :
  exists b, fst (delete_from_gsheet row_index w) = Ok b.
Proof. apply try_except_total. intros w'. exists false. reflexivity. Qed.

(** A call that meets an error changes nothing on the worksheet. *)
Lemma worksheet_call_fault {A} c (op : list (list string) -> result A * list (list string)) w g e rest :
  gsheet_worksheet w = Some g -> remote_faults w = Some e :: rest ->
  worksheet_call c op w = (Raise e, emit (Remote c) (set_remote_faults rest w)).
Proof.
  intros Hg Hf. unfold worksheet_call. rewrite Hg, Hf. reflexivity.
Qed.

Lemma save_to_gsheet_fault (log_entry : record) w g e rest :
  gsheet_worksheet w = Some g -> remote_faults w = Some e :: rest ->
  save_to_gsheet log_entry w = (Ok false, emit (Remote GetAllValues) (set_remote_faults rest w)).
Proof.
  intros Hg Hf. unfold save_to_gsheet, try_except, bind, get_all_values.
  rewrite (worksheet_call_fault _ _ _ _ _ _ Hg Hf). reflexivity.
Qed.

Lemma delete_from_gsheet_fault (i : nat) w g e rest :
  gsheet_worksheet w = Some g -> remote_faults w = Some e :: rest ->
  delete_from_gsheet i w = (Ok false, emit (Remote (DeleteRows (i + 2))) (set_remote_faults rest w)).
Proof.
  intros Hg Hf. unfold delete_from_gsheet, try_except, bind, delete_rows.
  rewrite (worksheet_call_fault _ _ _ _ _ _ Hg Hf). reflexivity.
Qed.

Lemma write_backup_fault w logs e rest :
  session_logs w = Some logs -> local_faults w = Some e :: rest ->
  fst (write_backup w) = Raise e.
Proof.
  intros Hl Hf. unfold write_backup, the_logs, bind, get. rewrite Hl. cbn [ret].
  unfold df_to_csv. rewrite (file_write_fault _ _ _ w e rest Hf). reflexivity.
Qed.

(** C2 (amended): the three worksheet operations catch every exception
    raised inside them and return a value instead: [load_from_gsheet] a list,
    empty when the call met an error, [save_to_gsheet] and
    [delete_from_gsheet] a boolean, [False] when the call met an error.  The
    rewrite of the backup file is not guarded: an error it meets is raised to
    the caller. *)
Theorem C2_remote_calls_degrade_backup_write_raises (w : world) :
  (exists records, fst (load_from_gsheet w) = Ok records) /\
  (forall log_entry, exists b, fst (save_to_gsheet log_entry w) = Ok b) /\
  (forall row_index, exists b, fst (delete_from_gsheet row_index w) = Ok b) /\
  (forall g e rest,
     gsheet_worksheet w = Some g -> remote_faults w = Some e :: rest ->
     fst (load_from_gsheet w) = Ok [] /\
     (forall log_entry, fst (save_to_gsheet log_entry w) = Ok false) /\
     (forall row_index, fst (delete_from_gsheet row_index w) = Ok false)) /\
  (forall logs e rest,
     session_logs w = Some logs -> local_faults w = Some e :: rest ->
     fst (write_backup w) = Raise e).
Proof.
  split; [apply load_from_gsheet_total |].
  split; [intros; apply save_to_gsheet_total |].
  split; [intros; apply delete_from_gsheet_total |].
  split.
  - intros g e rest Hg Hf. repeat split.
    + rewrite (load_from_gsheet_spec _ _ Hg), Hf. reflexivity.
    + intros log_entry. rewrite (save_to_gsheet_fault _ _ _ _ _ Hg Hf). reflexivity.
    + intros i. rewrite (delete_from_gsheet_fault _ _ _ _ _ Hg Hf). reflexivity.
  - intros logs e rest. apply write_backup_fault.
Qed.

(** *** Appending to the worksheet *)

(** An append that meets no error: the worksheet is asked for its values
    and the row is put after the rows there are.  Nothing is put before
    it: the values of a worksheet are never the empty list. *)
Lemma save_to_gsheet_spec (log_entry : record) w g :
  gsheet_worksheet w = Some g ->
  no_fault 2 (remote_faults w) = true ->
  save_to_gsheet log_entry w =
    (Ok true,
     set_worksheet (Some (g ++ [cell_text <$> gsheet_row log_entry])%list)
       (emit (Remote (AppendRow (cell_text <$> gsheet_row log_entry)))
          (emit (Remote GetAllValues) (set_remote_faults (drop 2 (remote_faults w)) w)))).
Proof.
  intros Hg Hf. destruct w as [ws rf m lf sl tr tn]. simpl in Hg, Hf. subst ws.
  unfold save_to_gsheet, try_except, bind, get_all_values, append_row, worksheet_call.
  destruct g as [| header data];
    destruct rf as [| [e1 |] [| [e2 |] rest]]; try discriminate Hf; reflexivity.
Qed.


(** *** Deleting from the worksheet *)

Lemma delete_from_gsheet_spec (i : nat) w g :
  gsheet_worksheet w = Some g ->
  no_fault 1 (remote_faults w) = true ->
  delete_from_gsheet i w =
    (Ok true,
     set_worksheet (Some (delete (S i) g))
       (emit (Remote (DeleteRows (i + 2))) (set_remote_faults (snd (next_fault (remote_faults w))) w))).
Proof.
  intros Hg Hf. destruct w as [ws rf m lf sl tr]. simpl in Hg, Hf. subst ws.
  unfold delete_from_gsheet, try_except, bind, delete_rows, worksheet_call.
  replace (i + 2)%nat with (S (S i)) by lia.
  destruct rf as [| [e |] rest]; try discriminate Hf; reflexivity.
Qed.

Lemma sheet_records_delete keys data i records :
  sheet_records (keys :: data) = Ok records ->
  sheet_records (keys :: delete i data) = Ok (delete i records).
Proof.
  unfold sheet_records. case_bool_decide; [| discriminate].
  intros [= <-]. f_equal. revert i. induction data as [| row data IH]; intros [| i]; simpl; auto.
  f_equal. apply IH.
Qed.

Lemma sheet_records_lookup keys data i records :
  sheet_records (keys :: data) = Ok records ->
  records !! i = sheet_record keys <$> data !! i.
Proof.
  unfold sheet_records. case_bool_decide; [| discriminate].
  intros [= <-]. apply list_lookup_fmap.
Qed.

(** C7: the position [i] of a record counts the data rows from 0, the
    header being the worksheet's first row; [delete_from_gsheet i] asks for
    the removal of row [i + 2] in the worksheet's numbering from 1, which is
    the data row the record at position [i] was read from: the worksheet
    keeps its header and loses exactly that data row, and its records are
    the former ones without the one at position [i]. *)
Theorem C7_remote_delete_addresses_row_of_record (i : nat) (w : world)
    (keys : list string) (data : list (list string)) :
  gsheet_worksheet w = Some (keys :: data) ->
  (i < length data)%nat ->
  no_fault 1 (remote_faults w) = true ->
  fst (delete_from_gsheet i w) = Ok true /\
  trace (snd (delete_from_gsheet i w)) = (trace w ++ [Remote (DeleteRows (i + 2))])%list /\
  (keys :: data) !! (i + 2 - 1)%nat = data !! i /\
  gsheet_worksheet (snd (delete_from_gsheet i w)) = Some (keys :: delete i data) /\
  (forall records,
     sheet_records (keys :: data) = Ok records ->
     records !! i = sheet_record keys <$> data !! i /\
     sheet_records (keys :: delete i data) = Ok (delete i records) /\
     length (delete i records) = (length records - 1)%nat).
Proof.
  intros Hg Hi Hf. rewrite (delete_from_gsheet_spec _ _ _ Hg Hf). simpl.
  split; [reflexivity |]. split; [reflexivity |]. split; [| split; [reflexivity |]].
  - replace (i + 2 - 1)%nat with (S i) by lia. reflexivity.
  - intros records Hrec. split; [| split].
    + apply sheet_records_lookup, Hrec.
    + apply sheet_records_delete, Hrec.
    + assert (Hlen : length records = length data).
      { unfold sheet_records in Hrec. case_bool_decide; [| discriminate].
        injection Hrec as <-. apply length_fmap. }
      rewrite length_delete; [lia |]. apply lookup_lt_is_Some. lia.
Qed.

(** *** The store at the start of a run *)

Lemma init_session_enabled (w : world) g :
  gsheet_worksheet w = Some g ->
  let k := match session_logs w with Some _ => 0%nat | None => 1%nat end in
  fst (init_session w) = Ok tt /\
  session_logs (snd (init_session w)) = Some (reloaded g (fst (next_fault (drop k (remote_faults w))))) /\
  gsheet_worksheet (snd (init_session w)) = Some g /\
  fs (snd (init_session w)) = fs w /\
  local_faults (snd (init_session w)) = local_faults w /\
  remote_faults (snd (init_session w)) = drop (S k) (remote_faults w).
Proof.
  intros Hg. destruct w as [ws rf m lf sl tr]. simpl in Hg. subst ws.
  unfold init_session, bind, get, GSHEET_ENABLED. simpl.
  destruct sl as [prev |]; simpl.
  - rewrite load_from_gsheet_spec with (g := g) by reflexivity. simpl.
    destruct rf; repeat split.
  - rewrite load_from_gsheet_spec with (g := g) by reflexivity. simpl.
    rewrite load_from_gsheet_spec with (g := g) by reflexivity. simpl.
    destruct rf as [| f [| f' rest]]; repeat split.
Qed.

(** C9: with the remote backend on, the store a run starts from is what
    the reload of that run returns: the records of the worksheet, in its
    order, or no record when the call meets an error.  Nothing of the store
    of the run before enters it: two runs that differ only in that store
    start from the same one. *)
Theorem C9_store_is_the_reload (w : world) (g : list (list string)) :
  gsheet_worksheet w = Some g ->
  session_logs (snd (init_session w)) =
    Some (reloaded g (fst (next_fault
            (drop (match session_logs w with Some _ => 0 | None => 1 end) (remote_faults w))))) /\
  (forall e rest, session_logs w <> None -> remote_faults w = Some e :: rest ->
     session_logs (snd (init_session w)) = Some []) /\
  (forall prev prev',
     session_logs (snd (init_session (set_logs (Some prev) w))) =
     session_logs (snd (init_session (set_logs (Some prev') w)))).
Proof.
  intros Hg. split; [| split].
  - apply (init_session_enabled w g Hg).
  - intros e rest Hs Hf.
    destruct (init_session_enabled w g Hg) as (_ & -> & _).
    destruct (session_logs w); [| congruence]. rewrite Hf. reflexivity.
  - intros prev prev'.
    destruct (init_session_enabled (set_logs (Some prev) w) g Hg) as (_ & -> & _).
    destruct (init_session_enabled (set_logs (Some prev') w) g Hg) as (_ & -> & _).
    reflexivity.
Qed.

(** *** Recording *)

(** The worksheet calls read and change the worksheet only. *)
Lemma save_to_gsheet_frame (log_entry : record) (w : world) :
  exists b w',
    save_to_gsheet log_entry w = (Ok b, w') /\
    fs w' = fs w /\ local_faults w' = local_faults w /\ session_logs w' = session_logs w /\
    (exists evs, trace w' = (trace w ++ evs)%list) /\
    (gsheet_worksheet w = None -> gsheet_worksheet w' = None).
Proof.
  destruct w as [[g |] rf m lf sl tr tn];
    unfold save_to_gsheet, try_except, bind, get_all_values, append_row, worksheet_call; simpl.
  - destruct g as [| header data];
      destruct rf as [| [e1 |] [| [e2 |] rest]]; simpl;
        eexists _, _; (split; [reflexivity |]); simpl; repeat split;
        try discriminate; rewrite <- ?app_assoc; eauto.
  - eexists _, _. split; [reflexivity |]. simpl. repeat split; eauto. exists []. symmetry. apply app_nil_r.
Qed.

(** What they return and do to the worksheet depends on the worksheet and on
    the errors to come only. *)
Lemma save_to_gsheet_remote (log_entry : record) (w w1 : world) :
  gsheet_worksheet w1 = gsheet_worksheet w -> remote_faults w1 = remote_faults w ->
  fst (save_to_gsheet log_entry w1) = fst (save_to_gsheet log_entry w) /\
  gsheet_worksheet (snd (save_to_gsheet log_entry w1)) =
    gsheet_worksheet (snd (save_to_gsheet log_entry w)).
Proof.
  destruct w as [ws rf m lf sl tr tn], w1 as [ws1 rf1 m1 lf1 sl1 tr1 tn1]. simpl. intros -> ->.
  unfold save_to_gsheet, try_except, bind, get_all_values, append_row, worksheet_call; simpl.
  destruct ws as [[| header data] |]; [| | auto];
    destruct rf as [| [e1 |] [| [e2 |] rest]]; simpl; auto.
Qed.

(** *** The backup file *)

Lemma write_backup_spec (w : world) logs :
  session_logs w = Some logs ->
  fst (next_fault (local_faults w)) = None ->
  fs w !! CSV_PATH <> Some Dir ->
  write_backup w =
    (Ok tt,
     set_fs (<[CSV_PATH := File (Table (to_csv (DataFrame logs)))]> (fs w))
       (emit (ToCsv CSV_PATH) (set_local_faults (snd (next_fault (local_faults w))) w))).
Proof.
  intros Hl Hf Hd. unfold write_backup, the_logs, bind, get. rewrite Hl. cbn [ret].
  unfold df_to_csv. apply file_write_ok; [exact Hf | apply writable_backup, Hd].
Qed.

(** Whatever the rewrite of the backup meets, the store stays as it is. *)
Lemma write_backup_logs (w : world) : session_logs (snd (write_backup w)) = session_logs w.
Proof.
  unfold write_backup, the_logs, bind, get.
  destruct (session_logs w) as [logs |] eqn:Hs; cbn [ret raise]; [| exact Hs].
  unfold df_to_csv. rewrite (proj1 (proj2 (proj2 (file_write_frame _ _ _ w)))). exact Hs.
Qed.




(** Saving the photo touches the local files only. *)
Lemma file_call_frame {A} (ev : event) (op : gmap string node -> result A * gmap string node)
    (w : world) :
  gsheet_worksheet (snd (file_call ev op w)) = gsheet_worksheet w /\
  remote_faults (snd (file_call ev op w)) = remote_faults w /\
  session_logs (snd (file_call ev op w)) = session_logs w /\
  exists evs, trace (snd (file_call ev op w)) = (trace w ++ evs)%list.
Proof.
  unfold file_call. destruct (next_fault (local_faults w)) as [[e |] rest]; simpl.
  - repeat split; eauto.
  - destruct (op (fs w)) as [r m']; simpl. repeat split; eauto.
Qed.

Lemma save_photo_frame (f : form) (w : world) :
  gsheet_worksheet (snd (save_photo f w)) = gsheet_worksheet w /\
  remote_faults (snd (save_photo f w)) = remote_faults w /\
  session_logs (snd (save_photo f w)) = session_logs w /\
  exists evs, trace (snd (save_photo f w)) = (trace w ++ evs)%list.
Proof.
  assert (Hnil : exists evs, trace w = (trace w ++ evs)%list)
    by (exists []; rewrite app_nil_r; reflexivity).
  assert (Hwrite : forall w0 p b,
            gsheet_worksheet (snd (write_bytes p b w0)) = gsheet_worksheet w0 /\
            remote_faults (snd (write_bytes p b w0)) = remote_faults w0 /\
            session_logs (snd (write_bytes p b w0)) = session_logs w0 /\
            exists evs, trace (snd (write_bytes p b w0)) = (trace w0 ++ evs)%list).
  { intros w0 p b. unfold write_bytes.
    destruct (file_write_frame (WriteFile p) p (Bytes b) w0) as (Hg & Hr & Hs & Ht & _).
    repeat split; eauto. }
  unfold save_photo, os_path_exists, os_makedirs, get, ret, bind.
  destruct (bool_decide (is_Some (fs w !! "photos"))).
  - destruct (uploaded_file f) as [[name buffer] |]; [| simpl; auto].
    match goal with |- context [write_bytes ?p ?b w] =>
      pose proof (Hwrite w p b) as Hw;
      destruct (write_bytes p b w) as [[[] | e] w1] end; exact Hw.
  - match goal with |- context [file_call ?ev ?op w] =>
      pose proof (file_call_frame ev op w) as (Hg & Hr & Hs & evs & Ht);
      destruct (file_call ev op w) as [[[] | e] w1] end; simpl in *; [| eauto].
    destruct (uploaded_file f) as [[name buffer] |]; [| simpl; eauto].
    match goal with |- context [write_bytes ?p ?b w1] =>
      pose proof (Hwrite w1 p b) as (Hg1 & Hr1 & Hs1 & evs1 & Ht1);
      destruct (write_bytes p b w1) as [[[] | e] w2] end; simpl in *;
      rewrite Hg1, Hr1, Hs1, Ht1, Ht, <- app_assoc; eauto.
Qed.

(** *** Deleting *)

Lemma delete_from_gsheet_frame (i : nat) (w : world) :
  exists b w',
    delete_from_gsheet i w = (Ok b, w') /\
    fs w' = fs w /\ local_faults w' = local_faults w /\ session_logs w' = session_logs w.
Proof.
  destruct w as [[g |] rf m lf sl tr];
    unfold delete_from_gsheet, try_except, bind, delete_rows, worksheet_call; simpl.
  - replace (i + 2)%nat with (S (S i)) by lia.
    destruct rf as [| [e1 |] rest]; simpl; eexists _, _; (split; [reflexivity |]); auto.
  - eexists _, _. split; [reflexivity |]. auto.
Qed.

(** The photo: if there is one and its removal succeeds, it is gone, and
    nothing else has changed. *)
Lemma remove_photo_spec (w : world) log :
  (forall p, photo_of w log = Some p ->
     fst (next_fault (local_faults w)) = None /\ exists c, fs w !! p = Some (File c)) ->
  remove_photo (dict_get log "Image_Path" (VStr "")) w =
    (Ok tt,
     match photo_of w log with
     | Some p => set_fs (delete p (fs w))
                   (emit (RemoveFile p) (set_local_faults (snd (next_fault (local_faults w))) w))
     | None => w
     end).
Proof.
  unfold remove_photo, photo_of.
  destruct (dict_get log "Image_Path" (VStr "")) as [z | f | b | p]; try reflexivity.
  destruct (truthy (VStr p)); [| reflexivity]. simpl.
  unfold bind, os_path_exists, get. simpl.
  case_bool_decide as Hex; [| reflexivity].
  intros Hp. destruct (Hp p eq_refl) as [Hf [c Hc]].
  unfold os_remove, file_call.
  destruct (next_fault (local_faults w)) as [fault rest]. simpl in Hf. subst fault.
  rewrite Hc. reflexivity.
Qed.

Lemma drop_record_unfold (i : nat) (w : world) logs :
  session_logs w = Some logs ->
  is_Some (logs !! i) ->
  exists b w2,
    (if GSHEET_ENABLED w then delete_from_gsheet i else ret true) w = (Ok b, w2) /\
    fs w2 = fs w /\ local_faults w2 = local_faults w /\ session_logs w2 = Some logs /\
    drop_record i w =
      match write_backup (emit (LogsPop i) (set_logs (Some (delete i logs)) w2)) with
      | (Ok _, w3) => (Ok tt, emit Rerun w3)
      | (Raise e, w3) => (Raise e, w3)
      end.
Proof.
  intros Hs [log Hi].
  assert (Hstep : exists b w2,
    (if GSHEET_ENABLED w then delete_from_gsheet i else ret true) w = (Ok b, w2) /\
    fs w2 = fs w /\ local_faults w2 = local_faults w /\ session_logs w2 = session_logs w).
  { destruct (GSHEET_ENABLED w).
    - apply delete_from_gsheet_frame.
    - exists true, w. auto. }
  destruct Hstep as (b & w2 & Hstep & Hfs & Hlf & Hsl).
  exists b, w2. rewrite Hsl, Hs. repeat split; auto.
  unfold drop_record, bind, get. cbn beta iota. rewrite Hstep.
  unfold the_logs, bind, get. rewrite Hsl, Hs. simpl. rewrite Hi. simpl.
  destruct (write_backup _) as [[[] | e] w3]; reflexivity.
Qed.

Lemma on_delete_unfold (i : nat) (w : world) logs log :
  session_logs w = Some logs ->
  logs !! i = Some log ->
  on_delete i w =
    match remove_photo (dict_get log "Image_Path" (VStr "")) w with
    | (Ok _, w1) => drop_record i w1
    | (Raise e, w1) => (Raise e, w1)
    end.
Proof.
  intros Hs Hi. destruct w as [ws rf m lf sl tr]. simpl in Hs. subst sl.
  unfold on_delete, the_logs, get, lift, bind, ret. simpl. rewrite Hi.
  destruct (remove_photo _ _) as [[[] | e] w1]; reflexivity.
Qed.

Lemma write_backup_fs_other (w : world) p :
  p <> CSV_PATH -> fs (snd (write_backup w)) !! p = fs w !! p.
Proof.
  intros Hp. unfold write_backup, the_logs, bind, get.
  destruct (session_logs w) as [logs |]; cbn [ret raise]; [| reflexivity].
  unfold df_to_csv. apply (file_write_frame _ _ _ w). exact Hp.
Qed.

(** The handler, step by step: [w1] is the world once the photo is dealt
    with, [w2] the world once the worksheet was asked to delete the row. *)
Lemma on_delete_spec (i : nat) (w : world) logs log :
  session_logs w = Some logs ->
  logs !! i = Some log ->
  (forall p, photo_of w log = Some p ->
     fst (next_fault (local_faults w)) = None /\ exists c, fs w !! p = Some (File c)) ->
  exists w1 b w2,
    w1 = match photo_of w log with
         | Some p => set_fs (delete p (fs w))
                       (emit (RemoveFile p) (set_local_faults (snd (next_fault (local_faults w))) w))
         | None => w
         end /\
    (if GSHEET_ENABLED w1 then delete_from_gsheet i else ret true) w1 = (Ok b, w2) /\
    fs w2 = fs w1 /\ local_faults w2 = local_faults w1 /\ session_logs w2 = Some logs /\
    on_delete i w =
      match write_backup (emit (LogsPop i) (set_logs (Some (delete i logs)) w2)) with
      | (Ok _, w3) => (Ok tt, emit Rerun w3)
      | (Raise e, w3) => (Raise e, w3)
      end.
Proof.
  intros Hs Hi Hphoto.
  rewrite (on_delete_unfold i w logs log Hs Hi), (remove_photo_spec w log Hphoto).
  set (w1 := match photo_of w log with Some p => _ | None => w end).
  assert (Hs1 : session_logs w1 = Some logs).
  { subst w1. destruct (photo_of w log); exact Hs. }
  destruct (drop_record_unfold i w1 logs Hs1 (ex_intro _ log Hi))
    as (b & w2 & Hstep & Hfs & Hlf & Hsl & Hdrop).
  exists w1, b, w2. repeat split; auto.
Qed.

(** C4: for a position [i] of the store, whose record is [log], and when
    the removal of the photo of [log], if it has one, succeeds (the path
    names a file and the removal meets no error), the delete handler leaves
    the store as it was without the record at position [i]: one record
    fewer, those before [i] in place, those after [i] one position down.
    A photo that [Image_Path] names (a non-empty path to an existing file,
    other than the backup file that the handler rewrites) is no longer there
    afterwards. *)
Theorem C4_delete_removes_record_and_photo (i : nat) (w : world) (logs : list record)
    (log : record) :
  session_logs w = Some logs ->
  logs !! i = Some log ->
  (forall p, photo_of w log = Some p ->
     fst (next_fault (local_faults w)) = None /\ exists c, fs w !! p = Some (File c)) ->
  session_logs (snd (on_delete i w)) = Some (delete i logs) /\
  length (delete i logs) = (length logs - 1)%nat /\
  (forall j, (j < i)%nat -> delete i logs !! j = logs !! j) /\
  (forall j, (i <= j)%nat -> delete i logs !! j = logs !! S j) /\
  (forall p c,
     log !! "Image_Path" = Some (VStr p) -> p <> "" -> fs w !! p = Some (File c) ->
     p <> CSV_PATH ->
     fs (snd (on_delete i w)) !! p = None).
Proof.
  intros Hs Hi Hphoto.
  destruct (on_delete_spec i w logs log Hs Hi Hphoto)
    as (w1 & b & w2 & Hw1 & _ & Hfs & _ & Hsl & Hrun).
  set (w2' := emit (LogsPop i) (set_logs (Some (delete i logs)) w2)) in Hrun.
  assert (Hfinal : session_logs (snd (on_delete i w)) = session_logs (snd (write_backup w2')) /\
                   fs (snd (on_delete i w)) = fs (snd (write_backup w2'))).
  { rewrite Hrun. destruct (write_backup w2') as [[[] | e] w3]; split; reflexivity. }
  destruct Hfinal as [Hlogs Hfiles].
  split; [| split; [| split; [| split]]].
  - rewrite Hlogs, write_backup_logs. reflexivity.
  - apply length_delete. eauto.
  - intros j. apply list_lookup_delete_lt.
  - intros j. apply list_lookup_delete_ge.
  - intros p c Himg Hne Hfile Hcsv.
    rewrite Hfiles, (write_backup_fs_other w2' p Hcsv). subst w2'. simpl. rewrite Hfs, Hw1.
    assert (Hp : photo_of w log = Some p).
    { unfold photo_of, dict_get. rewrite Himg. simpl.
      destruct (String.eqb_spec p ""); [congruence |]. simpl.
      rewrite bool_decide_eq_true_2; [reflexivity | rewrite Hfile; eauto]. }
    rewrite Hp. simpl. apply lookup_delete_eq.
Qed.

Lemma delete_from_gsheet_trace (i : nat) (w : world) g :
  gsheet_worksheet w = Some g ->
  trace (snd (delete_from_gsheet i w)) = (trace w ++ [Remote (DeleteRows (i + 2))])%list.
Proof.
  intros Hg. destruct w as [ws rf m lf sl tr]. simpl in Hg. subst ws.
  unfold delete_from_gsheet, try_except, delete_rows, worksheet_call, bind. simpl.
  replace (i + 2)%nat with (S (S i)) by lia.
  destruct rf as [| [e1 |] rest]; reflexivity.
Qed.

Lemma no_fault_next (n : nat) faults :
  no_fault (S n) faults = true ->
  fst (next_fault faults) = None /\ no_fault n (snd (next_fault faults)) = true.
Proof.
  unfold no_fault. destruct faults as [| [e |] rest]; simpl; try discriminate; auto.
  intros _. split; [reflexivity |]. destruct n; reflexivity.
Qed.

(** C10: whatever the worksheet answers, the delete handler removes the
    photo, then asks the worksheet to delete the row, then takes the record
    out of the store and rewrites the backup, in this order.  When the call
    on the worksheet meets an error, the worksheet keeps all its rows, and
    yet the record has left the store and the backup file, and its photo is
    gone.  (The removal of the photo and the rewrite of the backup are taken
    to succeed: the two local file operations meet no error, the photo is a
    file other than the backup, and the backup path is not a directory.) *)
Theorem C10_delete_goes_on_when_remote_delete_fails (i : nat) (w : world)
    (logs : list record) (log : record) (g : list (list string)) :
  session_logs w = Some logs ->
  logs !! i = Some log ->
  gsheet_worksheet w = Some g ->
  no_fault 2 (local_faults w) = true ->
  fs w !! CSV_PATH <> Some Dir ->
  (forall p, photo_of w log = Some p -> p <> CSV_PATH /\ exists c, fs w !! p = Some (File c)) ->
  fst (on_delete i w) = Ok tt /\
  trace (snd (on_delete i w)) =
    (trace w ++ match photo_of w log with Some p => [RemoveFile p] | None => [] end
       ++ [Remote (DeleteRows (i + 2)); LogsPop i; ToCsv CSV_PATH; Rerun])%list /\
  session_logs (snd (on_delete i w)) = Some (delete i logs) /\
  fs (snd (on_delete i w)) !! CSV_PATH = Some (File (Table (to_csv (DataFrame (delete i logs))))) /\
  (forall p, photo_of w log = Some p -> fs (snd (on_delete i w)) !! p = None) /\
  (forall e rest, remote_faults w = Some e :: rest ->
     gsheet_worksheet (snd (on_delete i w)) = Some g).
Proof.
  intros Hs Hi Hg Hlf Hcsv Hphoto.
  destruct (no_fault_next _ _ Hlf) as [Hf1 Hlf1].
  assert (Hphoto' : forall p, photo_of w log = Some p ->
            fst (next_fault (local_faults w)) = None /\ exists c, fs w !! p = Some (File c)).
  { intros p Hp. split; [exact Hf1 | apply (Hphoto p Hp)]. }
  destruct (on_delete_spec i w logs log Hs Hi Hphoto')
    as (w1 & b & w2 & Hw1 & Hstep & Hfs & Hlocal & Hsl & Hrun).
  assert (Hg1 : gsheet_worksheet w1 = Some g).
  { subst w1. destruct (photo_of w log); exact Hg. }
  assert (Hrf1 : remote_faults w1 = remote_faults w).
  { subst w1. destruct (photo_of w log); reflexivity. }
  assert (He : GSHEET_ENABLED w1 = true).
  { unfold GSHEET_ENABLED. rewrite Hg1. apply bool_decide_eq_true_2. eauto. }
  rewrite He in Hstep.
  assert (Htr2 : trace w2 = (trace w1 ++ [Remote (DeleteRows (i + 2))])%list).
  { rewrite <- (delete_from_gsheet_trace i w1 g Hg1), Hstep. reflexivity. }
  set (w2' := emit (LogsPop i) (set_logs (Some (delete i logs)) w2)) in Hrun.
  assert (Hnext : fst (next_fault (local_faults w2')) = None).
  { subst w2'. simpl. rewrite Hlocal, Hw1.
    destruct (photo_of w log); simpl.
    - apply (no_fault_next 0), Hlf1.
    - exact Hf1. }
  assert (Hdir : fs w2' !! CSV_PATH <> Some Dir).
  { subst w2'. simpl. rewrite Hfs, Hw1.
    destruct (photo_of w log) as [p |] eqn:Hp; simpl; [| exact Hcsv].
    destruct (Hphoto p eq_refl) as [Hne _].
    rewrite lookup_delete_ne by congruence. exact Hcsv. }
  rewrite (write_backup_spec w2' (delete i logs) eq_refl Hnext Hdir) in Hrun.
  rewrite Hrun. simpl.
  split; [reflexivity |]. split; [| split; [reflexivity |]]; [| split; [| split]].
  - rewrite Htr2, Hw1. destruct (photo_of w log); simpl; rewrite <- ?app_assoc; reflexivity.
  - apply lookup_insert_eq.
  - intros p Hp. destruct (Hphoto p Hp) as [Hne _].
    rewrite lookup_insert_ne by congruence. rewrite Hfs, Hw1, Hp. simpl. apply lookup_delete_eq.
  - intros e rest Hrf. rewrite <- Hrf1 in Hrf.
    rewrite (delete_from_gsheet_fault i w1 g e rest Hg1 Hrf) in Hstep.
    injection Hstep as _ <-. simpl. exact Hg1.
Qed.

(** *** The map *)

Lemma lat_lon_lookup_on_map (log : record) :
  is_Some (lat_lon_lookup (location_of log)) <-> on_map log = true.
Proof.
  unfold on_map, lat_lon_lookup. destruct (location_of log) as [z | f | b | s]; simpl;
    try (split; [intros [x Hx]; discriminate | discriminate]).
  unfold LAT_LON. rewrite bool_decide_eq_true.
  rewrite <- (elem_of_dom (M := gmap string)), dom_list_to_map_L, elem_of_list_to_set.
  reflexivity.
Qed.

Lemma map_marker_spec (log : record) :
  drawable log ->
  map_marker log = Ok (if on_map log then Some (spec_marker log) else None).
Proof.
  intros [[loc Hloc] Hy]. unfold map_marker, dict_item, rbind. rewrite Hloc.
  assert (Hl : location_of log = loc) by (unfold location_of, dict_get; rewrite Hloc; reflexivity).
  pose proof (lat_lon_lookup_on_map log) as Hon. rewrite Hl in Hon.
  destruct (lat_lon_lookup loc) as [pos |] eqn:Hpos.
  - rewrite (proj1 Hon) by eauto. specialize (Hy (proj1 Hon (ex_intro _ pos eq_refl))).
    unfold spec_marker. rewrite Hl, Hpos. simpl.
    destruct (dict_get log "Hard_Y_Authenticity" (VInt 0)); try discriminate Hy; reflexivity.
  - destruct (on_map log); [| reflexivity].
    destruct (proj2 Hon eq_refl) as [x Hx]. discriminate.
Qed.

(** C6: on a store the map can draw, the map shows, in the order of the
    store, one marker for each record whose Location is a key of the
    registry and none for the others; the marker stands at the registered
    coordinates, and it is blue when Hard_Y_Authenticity is non-negative
    and red when it is negative. *)
Theorem C6_markers_for_registered_locations (logs : list record) :
  Forall drawable logs ->
  field_map logs = Ok (spec_marker <$> List.filter on_map logs) /\
  (forall log, log ∈ logs -> on_map log = false -> map_marker log = Ok None) /\
  (forall log, log ∈ logs -> on_map log = true ->
     exists m, map_marker log = Ok (Some m) /\
       Some (m_location m) = lat_lon_lookup (location_of log) /\
       m_color m = if non_negative (dict_get log "Hard_Y_Authenticity" (VInt 0))
                   then "blue" else "red").
Proof.
  intros Hd. split; [| split].
  - unfold field_map.
    assert (Hc : collect map_marker logs =
                 Ok ((fun log => if on_map log then Some (spec_marker log) else None) <$> logs)).
    { induction Hd as [| log logs Hlog _ IH]; [reflexivity |].
      simpl. rewrite (map_marker_spec log Hlog), IH. reflexivity. }
    rewrite Hc. simpl. f_equal. clear Hc Hd.
    induction logs as [| log logs IH]; [reflexivity |].
    simpl. destruct (on_map log); simpl; [f_equal |]; exact IH.
  - intros log Hin Hoff. rewrite Forall_forall in Hd.
    rewrite (map_marker_spec log (Hd log Hin)), Hoff. reflexivity.
  - intros log Hin Hon. rewrite Forall_forall in Hd.
    exists (spec_marker log). rewrite (map_marker_spec log (Hd log Hin)), Hon.
    split; [reflexivity |]. split; [| reflexivity].
    apply lat_lon_lookup_on_map in Hon. destruct Hon as [pos Hpos].
    unfold spec_marker. simpl. rewrite Hpos. reflexivity.
Qed.

(** *** The round trip through the backup file *)

Lemma int_of_string_str_int (z : Z) :
  NilZero.int_of_string (str_int z) = Some (Z.to_int z).
Proof.
  unfold str_int. apply NilZero.isi; destruct z; simpl; try discriminate;
    intros [= H]; exact (DecimalPos.Unsigned.to_uint_nonnil _ H).
Qed.

Lemma str_int_not_na (z : Z) : is_na_text (str_int z) = false.
Proof.
  destruct (is_na_text (str_int z)) eqn:E; [| reflexivity].
  unfold is_na_text in E. apply bool_decide_eq_true in E.
  pose proof (int_of_string_str_int z) as Hparse.
  unfold STR_NA_VALUES in E.
  repeat (apply elem_of_cons in E as [E | E];
          [rewrite E in Hparse; vm_compute in Hparse; discriminate Hparse |]).
  apply elem_of_nil in E. destruct E.
Qed.

Lemma forallb_false_of {A} (f : A -> bool) (l : list A) (x : A) :
  x ∈ l -> f x = false -> forallb f l = false.
Proof.
  intros Hin Hx. destruct (forallb f l) eqn:E; [| reflexivity].
  rewrite forallb_forall in E. rewrite (E x) in Hx; [discriminate |].
  apply list_elem_of_In, Hin.
Qed.

Lemma forallb_true_of {A} (f : A -> bool) (l : list A) :
  (forall x, x ∈ l -> f x = true) -> forallb f l = true.
Proof.
  intros H. apply forallb_forall. intros x Hx. apply H, list_elem_of_In, Hx.
Qed.

(** A column of printed integers is read as integers. *)
Lemma csv_int_column (cells : list string) (s : string) :
  reads_back_ints ->
  (forall c, c ∈ cells -> exists z, c = str_int z) ->
  s ∈ cells ->
  forall z, s = str_int z ->
  csv_convert (csv_dtype cells) s = VInt z.
Proof.
  intros Hrb Hall Hin z ->.
  assert (Hd : csv_dtype cells = DInt).
  { unfold csv_dtype.
    rewrite (forallb_false_of _ _ _ Hin (str_int_not_na z)).
    rewrite forallb_true_of; [reflexivity |].
    intros c Hc. destruct (Hall c Hc) as [z' ->].
    rewrite str_int_not_na, Hrb. simpl.
      first [reflexivity | apply bool_decide_eq_true_2; eauto]. }
  rewrite Hd. unfold csv_convert. rewrite str_int_not_na, Hrb. reflexivity.
Qed.

(** A column of plain texts is read as texts, the empty ones as missing. *)
Lemma csv_text_column (cells : list string) (s : string) :
  (forall c, c ∈ cells -> plain_text c) ->
  s ∈ cells ->
  (let v := csv_convert (csv_dtype cells) s in if isna v then VStr "" else v) = VStr s.
Proof.
  intros Hall Hin. cbv zeta.
  destruct (Hall s Hin) as [-> | (Hna & Hi & Hf & Hb)].
  - unfold csv_convert. reflexivity.
  - assert (Hd : csv_dtype cells = DObject).
    { unfold csv_dtype.
      rewrite (forallb_false_of _ _ _ Hin Hna).
      rewrite (forallb_false_of _ cells s Hin)
        by (rewrite Hi; apply andb_false_intro2, bool_decide_eq_false_2; intros [x Hx]; discriminate).
      assert (Hp : s ∈ filter (fun s => is_na_text s = false) cells)
        by (apply list_elem_of_filter; auto).
      rewrite (forallb_false_of _ _ s Hp)
        by (rewrite Hf; apply bool_decide_eq_false_2; intros [x Hx]; discriminate).
      rewrite (forallb_false_of _ _ s Hp)
        by (rewrite Hb; apply bool_decide_eq_false_2; intros [x Hx]; discriminate).
      reflexivity. }
    rewrite Hd. unfold csv_convert. rewrite Hna. reflexivity.
Qed.

Lemma headers_split (k : string) : k ∈ headers -> k ∈ RATINGS \/ k ∈ TEXTS.
Proof.
  unfold headers, RATINGS, TEXTS. intros H.
  repeat (apply elem_of_cons in H as [-> | H]; [set_solver |]).
  apply elem_of_nil in H. destruct H.
Qed.

Lemma submitted_field (log : record) (k : string) :
  submitted log -> k ∈ headers ->
  (exists z, log !! k = Some (VInt z)) \/ (exists s, log !! k = Some (VStr s) /\ plain_text s).
Proof.
  intros (_ & Hr & Ht) Hk. destruct (headers_split k Hk); [left | right]; auto.
Qed.

Lemma submitted_no_field (log : record) (k : string) :
  submitted log -> k ∉ headers -> log !! k = None.
Proof.
  intros (Hdom & _ & _) Hk. apply (not_elem_of_dom (D := gset string)).
  rewrite Hdom, elem_of_list_to_set. exact Hk.
Qed.

Lemma submitted_columns (logs : list record) :
  Forall submitted logs -> logs <> [] -> ⋃ (dom <$> logs) = (list_to_set headers : gset string).
Proof.
  intros Hs Hne. induction Hs as [| log logs (Hdom & _ & _) Hs IH]; [congruence |].
  rewrite fmap_cons, union_list_cons, Hdom.
  destruct logs as [| log' logs'].
  - simpl. set_solver.
  - rewrite IH by discriminate. set_solver.
Qed.

Lemma fmap_id_on {A} (f : A -> A) (l : list A) :
  (forall x, x ∈ l -> f x = x) -> f <$> l = l.
Proof.
  intros H. induction l as [| a l IH]; [reflexivity |].
  rewrite fmap_cons, (H a) by left. f_equal. apply IH. intros x Hx. apply H. right. exact Hx.
Qed.

Lemma astype_infer_int (col : list value) (v : value) :
  forallb is_int col = true -> astype (infer_dtype col) v = v.
Proof.
  intros H. unfold infer_dtype. rewrite H.
  destruct (forallb is_bool col), v; reflexivity.
Qed.

Lemma astype_str (d : dtype) (s : string) : astype d (VStr s) = VStr s.
Proof. destruct d; reflexivity. Qed.

(** The frame of submitted records holds them as they are. *)
Lemma DataFrame_submitted (logs : list record) :
  Forall submitted logs -> logs <> [] ->
  DataFrame logs = {| columns := list_to_set headers; rows := logs |}.
Proof.
  intros Hs Hne. unfold DataFrame. rewrite (submitted_columns logs Hs Hne). f_equal.
  apply fmap_id_on. intros r Hr. rewrite Forall_forall in Hs.
  apply map_eq. intros c. rewrite map_lookup_imap.
  destruct (decide (c ∈ headers)) as [Hc | Hc].
  - destruct (submitted_field r c (Hs r Hr) Hc) as [[z Hz] | (s & Hv & _)].
    + rewrite lookup_union_l' by (rewrite Hz; eauto). rewrite Hz. simpl.
      rewrite astype_infer_int; [reflexivity |].
      apply forallb_true_of. intros x Hx. unfold column_of in Hx.
      apply list_elem_of_fmap in Hx as (r' & -> & Hr').
      destruct (Hs r' Hr') as (_ & Hrat & Htxt).
      destruct (headers_split c Hc) as [Hcr | Hct].
      * destruct (Hrat c Hcr) as [z' ->]. reflexivity.
      * destruct (Htxt c Hct) as (s' & Hs' & _).
        destruct (Hs r Hr) as (_ & _ & Htxt'). destruct (Htxt' c Hct) as (s2 & Hs2 & _).
        congruence.
    + rewrite lookup_union_l' by (rewrite Hv; eauto). rewrite Hv. simpl.
      rewrite astype_str. reflexivity.
  - rewrite lookup_union_l.
    + rewrite (submitted_no_field r c (Hs r Hr) Hc). reflexivity.
    + apply lookup_gset_to_gmap_None. rewrite elem_of_list_to_set. exact Hc.
Qed.

Lemma csv_column_elem (logs : list record) (c x : string) :
  x ∈ csv_column (to_csv {| columns := list_to_set headers; rows := logs |}) c ->
  exists r, r ∈ logs /\ x = default "" (csv_text <$> r !! c).
Proof.
  unfold csv_column, to_csv. simpl. intros Hx.
  apply list_elem_of_fmap in Hx as (r' & -> & Hr').
  apply list_elem_of_fmap in Hr' as (r & -> & Hr).
  exists r. split; [exact Hr |]. rewrite lookup_fmap. reflexivity.
Qed.

Lemma csv_column_has (logs : list record) (c : string) (r : record) (v : value) :
  r ∈ logs -> r !! c = Some v ->
  csv_text v ∈ csv_column (to_csv {| columns := list_to_set headers; rows := logs |}) c.
Proof.
  intros Hr Hv. unfold csv_column, to_csv. simpl.
  apply list_elem_of_fmap. exists (csv_text <$> r). split.
  - rewrite lookup_fmap, Hv. reflexivity.
  - apply list_elem_of_fmap. exists r. auto.
Qed.

(** What is read from the table written for submitted records, missing
    values filled with the empty text, is the records. *)
Lemma read_csv_to_csv (logs : list record) :
  reads_back_ints ->
  Forall submitted logs -> logs <> [] ->
  exists df, read_csv (to_csv (DataFrame logs)) = Ok df /\
             to_dict_records (fillna (VStr "") df) = logs.
Proof.
  intros Hrb Hs Hne. rewrite (DataFrame_submitted logs Hs Hne).
  set (t := to_csv {| columns := list_to_set headers; rows := logs |}).
  unfold read_csv. rewrite bool_decide_eq_false_2 by (subst t; simpl; set_solver).
  eexists. split; [reflexivity |].
  unfold to_dict_records, fillna. cbn [rows columns].
  replace (csv_rows t) with ((fun r : record => csv_text <$> r) <$> logs) by reflexivity.
  replace (csv_columns t) with (list_to_set headers : gset string) by reflexivity.
  rewrite <- !list_fmap_compose.
  apply fmap_id_on. intros r Hr. rewrite Forall_forall in Hs. unfold compose. cbn beta.
  apply map_eq. intros c. rewrite lookup_fmap, map_lookup_imap.
  destruct (decide (c ∈ headers)) as [Hc | Hc].
  - assert (Hcol : forall v, r !! c = Some v ->
              ((csv_text <$> r) ∪ gset_to_gmap "" (list_to_set headers)) !! c = Some (csv_text v)).
    { intros v Hv. rewrite lookup_union_l' by (rewrite lookup_fmap, Hv; eauto).
      rewrite lookup_fmap, Hv. reflexivity. }
    destruct (headers_split c Hc) as [Hcr | Hct].
    + destruct (Hs r Hr) as (_ & Hrat & _). destruct (Hrat c Hcr) as [z Hz].
      rewrite (Hcol _ Hz), Hz. simpl.
      rewrite (csv_int_column _ (csv_text (VInt z)) Hrb) with (z := z); try reflexivity.
      * intros x Hx. apply csv_column_elem in Hx as (r' & Hr' & ->).
        destruct (Hs r' Hr') as (_ & Hrat' & _). destruct (Hrat' c Hcr) as [z' ->].
        exists z'. reflexivity.
      * apply (csv_column_has logs c r (VInt z) Hr Hz).
    + destruct (Hs r Hr) as (_ & _ & Htxt). destruct (Htxt c Hct) as (s & Hv & Hp).
      rewrite (Hcol _ Hv), Hv. simpl. f_equal.
      apply (csv_text_column (csv_column t c) s).
      * intros x Hx. apply csv_column_elem in Hx as (r' & Hr' & ->).
        destruct (Hs r' Hr') as (_ & _ & Htxt'). destruct (Htxt' c Hct) as (s' & -> & Hp').
        exact Hp'.
      * apply (csv_column_has logs c r (VStr s) Hr Hv).
  - rewrite lookup_union_l.
    + rewrite lookup_fmap, (submitted_no_field r c (Hs r Hr) Hc). reflexivity.
    + apply lookup_gset_to_gmap_None. rewrite elem_of_list_to_set. exact Hc.
Qed.

Lemma read_csv_raises (t : csv) (e : exn) : read_csv t = Raise e -> e = EmptyDataError.
Proof. unfold read_csv. case_bool_decide; congruence. Qed.

(** Starting a session from a backup file that holds the table [t]. *)
Lemma init_session_from_backup (w : world) (t : csv) :
  session_logs w = None ->
  gsheet_worksheet w = None ->
  fst (next_fault (local_faults w)) = None ->
  fs w !! CSV_PATH = Some (File (Table t)) ->
  session_logs (snd (init_session w)) =
    Some (match read_csv t with
          | Ok df_load => to_dict_records (fillna (VStr "") df_load)
          | Raise _ => []
          end).
Proof.
  intros Hs Hg Hf Ht. destruct w as [ws rf m lf sl tr]. simpl in Hs, Hg, Hf, Ht. subst sl ws.
  unfold init_session, get, GSHEET_ENABLED, os_path_exists, try_except_class, pd_read_csv,
    file_call, set_session_logs, modify, bind, get. simpl.
  rewrite Ht. simpl.
  destruct (next_fault lf) as [fault rest]. simpl in Hf. subst fault. simpl.
  rewrite ?Ht.
  destruct (read_csv t) as [df | e] eqn:Hread; simpl; [reflexivity |].
  rewrite (read_csv_raises t e Hread). reflexivity.
Qed.

(** C5 (amended): for a store of submitted records whose texts are plain
    (each of Location, Comment, Image_Path and Timestamp is empty or a text
    that the reader of the backup takes neither for a missing value nor for
    a number nor for a boolean), writing the backup file and starting a new
    session from it, the remote backend off and the two file operations
    meeting no error, gives back the same records in the same order. *)
Theorem C5_backup_round_trip_of_plain_records (w : world) (logs : list record) :
  reads_back_ints ->
  Forall submitted logs ->
  session_logs w = Some logs ->
  gsheet_worksheet w = None ->
  no_fault 2 (local_faults w) = true ->
  fs w !! CSV_PATH <> Some Dir ->
  session_logs (snd (init_session (set_logs None (snd (write_backup w))))) = Some logs.
Proof.
  intros Hrb Hsub Hs Hg Hlf Hdir.
  destruct (no_fault_next _ _ Hlf) as [Hf1 Hlf1].
  rewrite (write_backup_spec w logs Hs Hf1 Hdir). simpl.
  set (w' := set_logs None _).
  rewrite (init_session_from_backup w' (to_csv (DataFrame logs))).
  - f_equal. destruct logs as [| log logs'].
    + reflexivity.
    + destruct (read_csv_to_csv (log :: logs') Hrb Hsub) as (df & -> & Hdf); [discriminate |].
      exact Hdf.
  - reflexivity.
  - exact Hg.
  - apply (no_fault_next 0), Hlf1.
  - apply lookup_insert_eq.
Qed.

(** *** The charts *)

(** The vector view shows 0 for a rating that is missing or empty. *)
Lemma rating_missing_or_empty (log : record) (k : string) :
  log !! k = None \/ log !! k = Some (VStr "") ->
  rating log k = Ok 0%float.
Proof.
  intros [H | H]; unfold rating, dict_get; rewrite H; reflexivity.
Qed.

(** It raises on a text that [float] does not parse. *)
Lemma rating_unparsable (log : record) (k s : string) :
  log !! k = Some (VStr s) -> s <> "" -> py_float_str s = None ->
  rating log k = Raise ValueError.
Proof.
  intros H Hs Hp. unfold rating, dict_get, py_or. rewrite H. simpl.
  destruct (String.eqb_spec s ""); [congruence |]. simpl. rewrite Hp. reflexivity.
Qed.

Lemma collect_raises {A B} (f : A -> result B) (l : list A) (a : A) (e : exn) :
  a ∈ l -> f a = Raise e -> exists e', collect f l = Raise e'.
Proof.
  intros Hin Hf. induction l as [| b l IH]; [apply elem_of_nil in Hin; destruct Hin |].
  simpl. destruct (f b) as [y | e1] eqn:Hb; [| eauto].
  apply elem_of_cons in Hin as [-> | Hin]; [congruence |].
  destruct (IH Hin) as [e' ->]. simpl. eauto.
Qed.

(** The vector view is not drawn when one record of the store holds, in one
    of its four ratings, a non-empty text that [float] does not parse. *)
Theorem vector_view_raises_on_unparsable_rating (logs : list record) (log : record)
    (k s : string) :
  log ∈ logs -> k ∈ RATINGS ->
  log !! k = Some (VStr s) -> s <> "" -> py_float_str s = None ->
  exists e, vector_view logs = Raise e.
Proof.
  intros Hin Hk Hv Hs Hp. pose proof (rating_unparsable log k s Hv Hs Hp) as Hr.
  assert (Hvec : exists e, vector_of log = Raise e).
  { unfold vector_of, rbind. unfold RATINGS in Hk.
    destruct (rating log "Hard_X_Affect") as [hx | e1] eqn:H1; [| eauto].
    destruct (rating log "Hard_Y_Authenticity") as [hy | e2] eqn:H2; [| eauto].
    destruct (rating log "Soft_X_Affect") as [sx | e3] eqn:H3; [| eauto].
    destruct (rating log "Soft_Y_Correctness") as [sy | e4] eqn:H4; [| eauto].
    repeat (apply elem_of_cons in Hk as [-> | Hk]; [congruence |]).
    apply elem_of_nil in Hk. destruct Hk. }
  destruct Hvec as [e He]. apply (collect_raises vector_of logs log e Hin He).
Qed.

(** *** The scatter plots *)

Lemma column_of_assign_same (rs : list record) (vals : list value) (c : string) :
  length vals = length rs ->
  column_of (zip_with (fun r v => <[c := v]> r) rs vals) c = vals.
Proof.
  revert vals. induction rs as [| r rs IH]; intros [| v vals] Hlen; try discriminate; [reflexivity |].
  simpl. rewrite lookup_insert_eq. simpl. f_equal. apply IH. simpl in Hlen. lia.
Qed.

Lemma column_of_assign_other (rs : list record) (vals : list value) (c k : string) :
  k <> c -> length vals = length rs ->
  column_of (zip_with (fun r v => <[c := v]> r) rs vals) k = column_of rs k.
Proof.
  intros Hk. revert vals.
  induction rs as [| r rs IH]; intros [| v vals] Hlen; try discriminate; [reflexivity |].
  simpl. rewrite lookup_insert_ne by congruence. f_equal. apply IH. simpl in Hlen. lia.
Qed.

Lemma length_coerced (col : list value) : length (coerced col) = length col.
Proof.
  unfold coerced, fillna_zero, to_numeric_coerce.
  destruct (forallb num_is_int (to_numeric_elem <$> col)); rewrite !length_fmap; reflexivity.
Qed.

Lemma coerce_rating_same (df : frame) (c : string) :
  c ∈ columns df -> df_column (coerce_rating df c) c = coerced (df_column df c).
Proof.
  intros Hc. unfold coerce_rating. rewrite bool_decide_eq_true_2 by exact Hc.
  unfold df_column at 1, df_assign. simpl. apply column_of_assign_same.
  rewrite length_coerced. unfold df_column, column_of. apply length_fmap.
Qed.

Lemma coerce_rating_other (df : frame) (c k : string) :
  k <> c -> df_column (coerce_rating df c) k = df_column df k.
Proof.
  intros Hk. unfold coerce_rating. case_bool_decide; [| reflexivity].
  unfold df_column at 1, df_assign. simpl. apply column_of_assign_other; [exact Hk |].
  rewrite length_coerced. unfold df_column, column_of. apply length_fmap.
Qed.

Lemma coerce_rating_columns (df : frame) (c : string) :
  columns (coerce_rating df c) = columns df.
Proof.
  unfold coerce_rating. case_bool_decide as Hc; [| reflexivity]. simpl.
  apply subseteq_union_1_L, singleton_subseteq_l, Hc.
Qed.

Lemma coerce_ratings_columns (df : frame) : columns (coerce_ratings df) = columns df.
Proof.
  unfold coerce_ratings, RATINGS. simpl. rewrite !coerce_rating_columns. reflexivity.
Qed.

(** After the loop, each rating column that the frame has is the coerced
    column. *)
Lemma coerce_ratings_column (df : frame) (k : string) :
  k ∈ RATINGS -> k ∈ columns df ->
  df_column (coerce_ratings df) k = coerced (df_column df k).
Proof.
  intros Hk Hc. unfold coerce_ratings, RATINGS in *. simpl.
  repeat (apply elem_of_cons in Hk as [-> | Hk];
          [repeat (rewrite coerce_rating_other by discriminate);
           rewrite coerce_rating_same by (rewrite ?coerce_rating_columns; exact Hc);
           repeat (rewrite coerce_rating_other by discriminate); reflexivity |]).
  apply elem_of_nil in Hk. destruct Hk.
Qed.

Lemma coerced_unreadable (col : list value) (i : nat) (v : value) :
  col !! i = Some v -> to_numeric_elem v = NFloat nan ->
  coerced col !! i = Some (VFloat 0).
Proof.
  intros Hi Hv. unfold coerced, fillna_zero, to_numeric_coerce.
  assert (Hint : forallb num_is_int (to_numeric_elem <$> col) = false).
  { apply (forallb_false_of _ _ (NFloat nan)); [| reflexivity].
    apply list_elem_of_lookup. exists i. rewrite list_lookup_fmap, Hi. simpl. rewrite Hv.
    reflexivity. }
  rewrite Hint, !list_lookup_fmap, Hi. simpl. rewrite Hv. reflexivity.
Qed.

(** The entry of a frame for a record and a column of the frame. *)
Lemma DataFrame_entry (logs : list record) (i : nat) (log : record) (k : string) :
  logs !! i = Some log -> k ∈ columns (DataFrame logs) ->
  df_column (DataFrame logs) k !! i =
    Some (astype (infer_dtype (column_of logs k)) (default NaN (log !! k))).
Proof.
  intros Hi Hk. unfold df_column, column_of, DataFrame in *. simpl in *.
  rewrite !list_lookup_fmap, Hi. simpl. f_equal.
  rewrite map_lookup_imap.
  destruct (log !! k) as [v |] eqn:Hv.
  - rewrite lookup_union_l' by (rewrite Hv; eauto). rewrite Hv. reflexivity.
  - rewrite lookup_union_r by exact Hv.
    rewrite (proj2 (lookup_gset_to_gmap_Some _ _ _ _) (conj Hk eq_refl)). reflexivity.
Qed.

Lemma unreadable_entry (log : record) (k : string) (d : dtype) :
  unreadable log k -> to_numeric_elem (astype d (default NaN (log !! k))) = NFloat nan.
Proof.
  intros [-> | (s & -> & Hs)]; simpl.
  - destruct d; reflexivity.
  - rewrite astype_str. simpl. rewrite Hs. reflexivity.
Qed.

Lemma px_scatter_columns (df : frame) (x y text : string) (ps : list point) :
  px_scatter df x y text = Ok ps ->
  p_x <$> ps = df_column df x /\ p_y <$> ps = df_column df y.
Proof.
  unfold px_scatter. destruct (_ && _); [| discriminate]. intros [= <-].
  unfold df_column, column_of. rewrite <- !list_fmap_compose. split; reflexivity.
Qed.

(** On the two scatter plots, a rating that is missing from a record, or
    that holds a text which does not parse as a number, is shown as 0
    (the frame having the column, that is, some record having the field). *)
Theorem scatter_shows_zero_for_unreadable_rating (logs : list record) (i : nat)
    (log : record) (k : string) :
  logs !! i = Some log -> k ∈ RATINGS -> k ∈ columns (DataFrame logs) -> unreadable log k ->
  df_column (chart_frame logs) k !! i = Some (VFloat 0) /\
  (forall ps, hard_scatter logs = Ok ps ->
     (k = "Hard_X_Affect" -> (p_x <$> ps) !! i = Some (VFloat 0)) /\
     (k = "Hard_Y_Authenticity" -> (p_y <$> ps) !! i = Some (VFloat 0))) /\
  (forall ps, soft_scatter logs = Ok ps ->
     (k = "Soft_X_Affect" -> (p_x <$> ps) !! i = Some (VFloat 0)) /\
     (k = "Soft_Y_Correctness" -> (p_y <$> ps) !! i = Some (VFloat 0))).
Proof.
  intros Hi Hk Hc Hu.
  assert (Hzero : df_column (chart_frame logs) k !! i = Some (VFloat 0)).
  { unfold chart_frame. rewrite (coerce_ratings_column _ k Hk Hc).
    apply (coerced_unreadable _ i _ (DataFrame_entry logs i log k Hi Hc)).
    apply unreadable_entry, Hu. }
  split; [exact Hzero |].
  split; intros ps Hps; apply px_scatter_columns in Hps as [Hx Hy];
    (split; intros ->; [rewrite Hx | rewrite Hy]; exact Hzero).
Qed.

(** ** Further properties of the script *)

Section Keeps.
Variable R : world -> world -> Prop.
Hypothesis R_refl : forall w, R w w.
Hypothesis R_trans : forall w1 w2 w3, R w1 w2 -> R w2 w3 -> R w1 w3.

Lemma keeps_ret {A} (a : A) : keeps R (ret a).
Proof. intros w. apply R_refl. Qed.

Lemma keeps_raise {A} (e : exn) : keeps R (raise (A := A) e).
Proof. intros w. apply R_refl. Qed.

Lemma keeps_lift {A} (r : result A) : keeps R (lift r).
Proof. intros w. apply R_refl. Qed.

Lemma keeps_get {A} (f : world -> A) : keeps R (get f).
Proof. intros w. apply R_refl. Qed.

Lemma keeps_bind {A B} (m : M A) (k : A -> M B) :
  keeps R m -> (forall a, keeps R (k a)) -> keeps R (bind m k).
Proof.
  intros Hm Hk w. unfold bind. specialize (Hm w).
  destruct (m w) as [[a | e] w']; simpl in *; [| exact Hm].
  exact (R_trans _ _ _ Hm (Hk a w')).
Qed.

Lemma keeps_try_except {A} (m h : M A) : keeps R m -> keeps R h -> keeps R (try_except m h).
Proof.
  intros Hm Hh w. unfold try_except. specialize (Hm w).
  destruct (m w) as [[a | e] w']; simpl in *; [exact Hm |].
  exact (R_trans _ _ _ Hm (Hh w')).
Qed.

Lemma keeps_try_except_class {A} (cls : exn -> bool) (m h : M A) :
  keeps R m -> keeps R h -> keeps R (try_except_class cls m h).
Proof.
  intros Hm Hh w. unfold try_except_class. specialize (Hm w).
  destruct (m w) as [[a | e] w']; simpl in *; [exact Hm |].
  destruct (cls e); [exact (R_trans _ _ _ Hm (Hh w')) | exact Hm].
Qed.

Lemma keeps_the_logs : keeps R the_logs.
Proof.
  apply keeps_bind; [apply keeps_get |]. intros [l |]; [apply keeps_ret | apply keeps_raise].
Qed.

End Keeps.

Ltac keeps_step Rrefl Rtrans :=
  first [ apply (keeps_ret _ Rrefl) | apply (keeps_raise _ Rrefl) | apply (keeps_lift _ Rrefl)
        | apply (keeps_get _ Rrefl) | apply (keeps_the_logs _ Rrefl Rtrans)
        | assumption
        | apply (keeps_try_except _ Rtrans)
        | apply (keeps_try_except_class _ Rtrans)
        | apply (keeps_bind _ Rtrans); [| intros ?] ].

(** *** Rendering only shows *)

Lemma only_shows_refl (w : world) : only_shows w w.
Proof.
  repeat (split; [reflexivity |]). exists []. rewrite app_nil_r. split; reflexivity.
Qed.

Lemma only_shows_trans (w1 w2 w3 : world) :
  only_shows w1 w2 -> only_shows w2 w3 -> only_shows w1 w3.
Proof.
  intros (Hg & Hr & Hf & Hl & Hs & Hn & evs & Ht & Hevs)
         (Hg' & Hr' & Hf' & Hl' & Hs' & Hn' & evs' & Ht' & Hevs').
  repeat (split; [congruence |]). exists (evs ++ evs')%list.
  rewrite Ht', Ht, <- app_assoc, forallb_app, Hevs, Hevs'. split; reflexivity.
Qed.

Lemma only_shows_show (v : view) : keeps only_shows (show v).
Proof.
  intros w. repeat (split; [reflexivity |]). exists [Show v]. split; reflexivity.
Qed.







(** *** Local mode makes no call on a worksheet *)






















(** *** Strings *)

Lemma string_app_assoc (a b c : string) : (a ++ b) ++ c = a ++ b ++ c.
Proof.
  induction a as [| x a IH]; [reflexivity |].
  change (String x ((a ++ b) ++ c) = String x (a ++ b ++ c)). f_equal. exact IH.
Qed.

Lemma string_length_app (a b : string) :
  String.length (a ++ b) = (String.length a + String.length b)%nat.
Proof.
  induction a as [| x a IH]; [reflexivity |].
  change (S (String.length (a ++ b)) = S (String.length a + String.length b)). rewrite IH. reflexivity.
Qed.

Lemma string_app_inj (a1 a2 b1 b2 : string) :
  String.length a1 = String.length a2 -> a1 ++ b1 = a2 ++ b2 -> a1 = a2 /\ b1 = b2.
Proof.
  revert a2. induction a1 as [| x a1 IH]; intros [| y a2] Hlen Heq; try discriminate Hlen.
  - split; [reflexivity | exact Heq].
  - change (String x (a1 ++ b1) = String y (a2 ++ b2)) in Heq. injection Heq as -> Heq.
    injection Hlen as Hlen. destruct (IH a2 Hlen Heq) as [-> ->]. split; reflexivity.
Qed.

(** *** The extension of an uploaded name *)

Lemma rfind_none (c : ascii) (s : string) : char_in c s = false -> rfind c s = None.
Proof.
  induction s as [| a s IH]; [reflexivity |].
  cbn [char_in rfind]. intros H. apply orb_false_elim in H as [Ha Hs].
  rewrite (IH Hs), Ha. reflexivity.
Qed.

Lemma char_in_app (c : ascii) (a b : string) : char_in c (a ++ b) = char_in c a || char_in c b.
Proof.
  induction a as [| x a IH]; [reflexivity |].
  change (char_in c (String x (a ++ b)) = char_in c (String x a) || char_in c b).
  cbn [char_in]. rewrite IH, orb_assoc. reflexivity.
Qed.

Lemma rfind_last (c : ascii) (a b : string) :
  char_in c b = false -> rfind c (a ++ String c b) = Some (String.length a).
Proof.
  intros Hb. induction a as [| x a IH].
  - change (rfind c (String c b) = Some 0%nat). cbn [rfind].
    rewrite (rfind_none c b Hb), Ascii.eqb_refl. reflexivity.
  - change (rfind c (String x (a ++ String c b)) = Some (S (String.length a))).
    cbn [rfind]. rewrite IH. reflexivity.
Qed.

Lemma substring_all (s : string) : substring 0 (String.length s) s = s.
Proof. induction s as [| a s IH]; [reflexivity |]. cbn [String.length substring]. rewrite IH. reflexivity. Qed.

Lemma substring_prefix (a b : string) : substring 0 (String.length a) (a ++ b) = a.
Proof.
  induction a as [| x a IH]; [destruct b; reflexivity |].
  change (substring 0 (S (String.length a)) (String x (a ++ b)) = String x a).
  cbn [substring]. rewrite IH. reflexivity.
Qed.

Lemma substring_suffix (a b : string) (n : nat) :
  substring (String.length a) n (a ++ b) = substring 0 n b.
Proof.
  induction a as [| x a IH]; [reflexivity |].
  change (substring (S (String.length a)) n (String x (a ++ b)) = substring 0 n b).
  cbn [substring]. exact IH.
Qed.

(** The extension that the record handler gives the saved photo: for an
    upload named [stem.ext], where neither part holds a slash, [stem] does
    not begin with a dot and [ext] holds no dot, it is [.ext]; for a name
    without a dot it is empty. *)
Theorem extension_of_an_uploaded_name (stem ext : string) (a : ascii) (s : string) :
  stem = String a s -> a <> "."%char ->
  char_in "/" stem = false -> char_in "/" ext = false -> char_in "." ext = false ->
  splitext_ext (stem ++ "." ++ ext) = "." ++ ext /\
  (char_in "." stem = false -> splitext_ext stem = "").
Proof.
  intros Hstem Ha Hs1 Hs2 Hdot. split.
  - change (stem ++ "." ++ ext) with (stem ++ String "." ext).
    assert (Hslash : rfind "/" (stem ++ String "." ext) = None).
    { apply rfind_none. rewrite char_in_app, Hs1. simpl. exact Hs2. }
    assert (Hnd : all_dots stem = false).
    { rewrite Hstem. cbn [all_dots]. destruct (Ascii.eqb_spec a "."); [contradiction | reflexivity]. }
    unfold splitext_ext.
    rewrite Hslash, (rfind_last "." stem ext Hdot), Nat.sub_0_r, substring_prefix, Hnd.
    cbn [Nat.leb andb negb].
    rewrite substring_suffix, string_length_app, Nat.add_comm, Nat.add_sub.
    apply substring_all.
  - intros Hnone. unfold splitext_ext. rewrite (rfind_none "." stem Hnone).
    destruct (rfind "/" stem); reflexivity.
Qed.

(** *** The photo of a submission *)

Lemma string_of_uint_head (d : Decimal.uint) :
  exists a s, NilZero.string_of_uint d = String a s /\ a <> "/"%char.
Proof. destruct d; simpl; eexists _, _; (split; [reflexivity | discriminate]). Qed.

Lemma str_int_nat_head (n : nat) :
  exists a s, str_int (Z.of_nat n) = String a s /\ a <> "/"%char.
Proof.
  unfold str_int. destruct (Z.of_nat n) as [| p | p] eqn:Hn; simpl.
  - eexists _, _. split; [reflexivity | discriminate].
  - apply string_of_uint_head.
  - lia.
Qed.

Lemma digits_head (width n : nat) (rest : string) :
  exists a s, digits width n ++ rest = String a s /\ a <> "/"%char.
Proof.
  unfold digits, pad_left. destruct (width - _)%nat as [| k]; simpl.
  - destruct (str_int_nat_head n) as (a & s & -> & Ha). simpl. eauto.
  - eexists _, _. split; [reflexivity | discriminate].
Qed.

Lemma strftime_file_head (t : datetime) (rest : string) :
  exists a s, strftime_file t ++ rest = String a s /\ a <> "/"%char.
Proof.
  unfold strftime_file.
  destruct (digits_head 4 (year t)
              ((digits 2 (month t) ++ digits 2 (day t) ++ "_" ++ digits 2 (hour t)
                ++ digits 2 (minute t) ++ digits 2 (second t)) ++ rest)) as (a & s & Hs & Ha).
  exists a, s. rewrite string_app_assoc. split; assumption.
Qed.

Lemma os_path_join_photos (b : string) (a : ascii) (s : string) :
  b = String a s -> a <> "/"%char -> os_path_join "photos" b = "photos/" ++ b.
Proof.
  intros -> Ha. unfold os_path_join.
  destruct a as [[] [] [] [] [] [] [] []]; try reflexivity. contradiction.
Qed.

Lemma photo_path_eq (t : datetime) (ext : string) :
  os_path_join "photos" (strftime_file t ++ ext) = "photos/" ++ strftime_file t ++ ext.
Proof.
  destruct (strftime_file_head t ext) as (a & s & Hs & Ha). exact (os_path_join_photos _ a s Hs Ha).
Qed.

Lemma photo_path_not_photos (s : string) : "photos/" ++ s <> "photos".
Proof. discriminate. Qed.

Lemma rfind_none_inv (c : ascii) (s : string) : rfind c s = None -> char_in c s = false.
Proof.
  induction s as [| a s IH]; [reflexivity |]. cbn [rfind char_in].
  destruct (rfind c s); [discriminate |]. destruct (Ascii.eqb a c); [discriminate |].
  intros _. apply IH. reflexivity.
Qed.

Lemma char_in_substring (c : ascii) (s : string) (d n : nat) :
  char_in c s = false -> char_in c (substring d n s) = false.
Proof.
  revert d n. induction s as [| a s IH]; intros d n Hs.
  - destruct d, n; reflexivity.
  - cbn [char_in] in Hs. apply orb_false_elim in Hs as [Ha Hs].
    destruct d as [| d]; [destruct n as [| n] |]; cbn [substring char_in];
      [reflexivity | rewrite Ha; apply IH, Hs | apply IH, Hs].
Qed.

Lemma rfind_some_after (c : ascii) (s : string) (i d n : nat) :
  rfind c s = Some i -> (i < d)%nat -> char_in c (substring d n s) = false.
Proof.
  revert i d. induction s as [| a s IH]; intros i d; [discriminate |].
  cbn [rfind]. destruct (rfind c s) as [j |] eqn:Hj.
  - intros [= <-] Hd. destruct d as [| d]; [lia |]. cbn [substring]. apply (IH j); [reflexivity | lia].
  - destruct (Ascii.eqb a c); [| discriminate]. intros [= <-] Hd.
    destruct d as [| d]; [lia |]. cbn [substring]. apply char_in_substring, rfind_none_inv, Hj.
Qed.

(** The extension of a name holds no slash. *)
Lemma splitext_ext_no_slash (p : string) : char_in "/" (splitext_ext p) = false.
Proof.
  unfold splitext_ext. destruct (rfind "." p) as [d |]; [| reflexivity].
  destruct (rfind "/" p) as [i |] eqn:Hi.
  - destruct (Nat.leb_spec (S i) d) as [Hle | Hlt]; [| reflexivity].
    destruct (negb _); [| reflexivity]. apply (rfind_some_after _ _ i); [exact Hi | lia].
  - destruct (_ && _); [| reflexivity]. apply char_in_substring, rfind_none_inv, Hi.
Qed.

Lemma string_of_uint_no_slash (d : Decimal.uint) :
  char_in "/" (NilEmpty.string_of_uint d) = false.
Proof. induction d; cbn [NilEmpty.string_of_uint char_in]; first [reflexivity | exact IHd]. Qed.

Lemma str_int_nat_no_slash (n : nat) : char_in "/" (str_int (Z.of_nat n)) = false.
Proof.
  unfold str_int. destruct (Z.of_nat n) as [| p | p] eqn:Hn; [reflexivity | | lia].
  cbn [Z.to_int NilZero.string_of_int]. unfold NilZero.string_of_uint.
  destruct (Pos.to_uint p); first [reflexivity | apply string_of_uint_no_slash].
Qed.

Lemma digits_no_slash (width n : nat) : char_in "/" (digits width n) = false.
Proof.
  unfold digits, pad_left. rewrite char_in_app, str_int_nat_no_slash, orb_false_r.
  induction (width - _)%nat as [| k IH]; [reflexivity |].
  change (char_in "/" (String "0" (zeros k)) = false). cbn [char_in]. exact IH.
Qed.

(** The name of a saved photo holds no slash, so the photo lies in
    [photos] itself. *)
Lemma strftime_file_no_slash (t : datetime) : char_in "/" (strftime_file t) = false.
Proof.
  unfold strftime_file. rewrite !char_in_app, !digits_no_slash. reflexivity.
Qed.

Lemma photo_dirname (s : string) :
  char_in "/" s = false -> os_path_dirname ("photos/" ++ s) = "photos".
Proof.
  intros Hs. unfold os_path_dirname.
  change ("photos/" ++ s) with ("photos" ++ String "/" s) at 1.
  rewrite (rfind_last "/" "photos" s Hs).
  change (S (String.length "photos")) with (String.length "photos/").
  rewrite substring_prefix. reflexivity.
Qed.

Lemma writable_photo (m : gmap string node) (t : datetime) (name : string) :
  m !! "photos" = Some Dir ->
  m !! ("photos/" ++ strftime_file t ++ splitext_ext name) <> Some Dir ->
  writable m ("photos/" ++ strftime_file t ++ splitext_ext name) = true.
Proof.
  intros Hdir Hp. unfold writable. rewrite photo_dirname.
  - unfold is_dir. rewrite Hdir.
    destruct (m !! ("photos/" ++ strftime_file t ++ splitext_ext name)) as [[| c] |];
      [congruence | reflexivity | reflexivity].
  - rewrite char_in_app, strftime_file_no_slash, splitext_ext_no_slash. reflexivity.
Qed.

Lemma next_fault_drop (faults : list (option exn)) : snd (next_fault faults) = drop 1 faults.
Proof. destruct faults; reflexivity. Qed.

(** What [save_photo] does with an upload when the local file operations
    meet no error. *)
Lemma save_photo_upload (f : form) (w : world) (name : string) (buffer : list Byte.byte) :
  uploaded_file f = Some (name, buffer) ->
  (forall c, fs w !! "photos" <> Some (File c)) ->
  no_fault (if bool_decide (is_Some (fs w !! "photos")) then 1 else 2) (local_faults w) = true ->
  fs w !! ("photos/" ++ strftime_file (now_file f) ++ splitext_ext name) <> Some Dir ->
  exists w',
    save_photo f w = (Ok ("photos/" ++ strftime_file (now_file f) ++ splitext_ext name), w') /\
    fs w' = <["photos/" ++ strftime_file (now_file f) ++ splitext_ext name := File (Bytes buffer)]>
              (<["photos" := Dir]> (fs w)) /\
    local_faults w' =
      drop (if bool_decide (is_Some (fs w !! "photos")) then 1 else 2) (local_faults w) /\
    trace w' = (trace w ++ (if bool_decide (is_Some (fs w !! "photos")) then [] else [Makedirs "photos"])
                  ++ [WriteFile ("photos/" ++ strftime_file (now_file f) ++ splitext_ext name)])%list.
Proof.
  intros Hup Hdir Hnf Hp. set (p := "photos/" ++ strftime_file (now_file f) ++ splitext_ext name) in *.
  unfold save_photo. rewrite Hup, photo_path_eq. fold p.
  unfold os_path_exists, bind at 1. unfold get at 1.
  destruct (fs w !! "photos") as [[| c] |] eqn:Hphotos; [| destruct (Hdir c); reflexivity |].
  - rewrite bool_decide_eq_true_2 in * by eauto.
    apply no_fault_next in Hnf as [Hnf _].
    unfold bind, ret, write_bytes.
    rewrite (file_write_ok (WriteFile p) p (Bytes buffer) w Hnf)
      by (apply writable_photo; assumption).
    eexists. split; [reflexivity |]. cbn [fs local_faults trace set_fs emit set_local_faults].
    rewrite (insert_id (fs w) "photos" Dir Hphotos), next_fault_drop.
    repeat split; reflexivity.
  - rewrite bool_decide_eq_false_2 in * by (intros [? ?]; congruence).
    apply no_fault_next in Hnf as [Hnf1 Hnf]. apply no_fault_next in Hnf as [Hnf2 _].
    set (w1 := set_fs (<["photos" := Dir]> (fs w))
                 (emit (Makedirs "photos") (set_local_faults (snd (next_fault (local_faults w))) w))).
    assert (Hmk : os_makedirs "photos" w = (Ok tt, w1)).
    { unfold os_makedirs, file_call.
      destruct (next_fault (local_faults w)) as [fault rest]. cbn [fst] in Hnf1. subst fault.
      rewrite Hphotos. reflexivity. }
    unfold bind, ret, write_bytes. rewrite Hmk.
    assert (Hq : fs w1 !! p = fs w !! p).
    { apply lookup_insert_ne. intros Heq. symmetry in Heq. revert Heq. apply photo_path_not_photos. }
    rewrite (file_write_ok (WriteFile p) p (Bytes buffer) w1 Hnf2)
      by (apply writable_photo;
          [apply lookup_insert_eq | intros Hbad; apply Hp; rewrite <- Hq; exact Hbad]).
    eexists. split; [reflexivity |].
    cbn [fs local_faults trace set_fs emit set_local_faults w1].
    rewrite !next_fault_drop, drop_drop, <- app_assoc. repeat split; reflexivity.
Qed.

(** An uploaded photo is written, whole, to
    [photos/<YYYYMMDD_HHMMSS><extension of the upload's name>]; the
    directory is made when it is missing, and no other file is touched.
    This holds when the file operations meet no error, [photos] is not a
    regular file and the target is not a directory. *)
Theorem photo_is_saved_under_timestamp_name (f : form) (w : world) (name : string)
    (buffer : list Byte.byte) :
  uploaded_file f = Some (name, buffer) ->
  (forall c, fs w !! "photos" <> Some (File c)) ->
  no_fault 2 (local_faults w) = true ->
  fs w !! ("photos/" ++ strftime_file (now_file f) ++ splitext_ext name) <> Some Dir ->
  fst (save_photo f w) = Ok ("photos/" ++ strftime_file (now_file f) ++ splitext_ext name) /\
  fs (snd (save_photo f w)) !! ("photos/" ++ strftime_file (now_file f) ++ splitext_ext name)
    = Some (File (Bytes buffer)) /\
  fs (snd (save_photo f w)) !! "photos" = Some Dir /\
  (forall q, q <> "photos" ->
     q <> "photos/" ++ strftime_file (now_file f) ++ splitext_ext name ->
     fs (snd (save_photo f w)) !! q = fs w !! q) /\
  session_logs (snd (save_photo f w)) = session_logs w /\
  gsheet_worksheet (snd (save_photo f w)) = gsheet_worksheet w.
Proof.
  intros Hup Hdir Hnf Hp.
  assert (Hnf' : no_fault (if bool_decide (is_Some (fs w !! "photos")) then 1 else 2)
                   (local_faults w) = true).
  { destruct (bool_decide _); [| exact Hnf]. apply (no_fault_next 1) in Hnf as [Hn _].
    unfold no_fault. destruct (local_faults w) as [| [e |] l]; simpl in *; congruence. }
  destruct (save_photo_upload f w name buffer Hup Hdir Hnf' Hp) as (w' & Hrun & Hfs & _ & _).
  destruct (save_photo_frame f w) as (Hg & _ & Hs & _).
  rewrite Hrun in *. simpl in *. rewrite Hfs.
  split; [reflexivity |]. split; [apply lookup_insert_eq |].
  split; [rewrite lookup_insert_ne by apply photo_path_not_photos; apply lookup_insert_eq |].
  split; [| split; [exact Hs | exact Hg]].
  intros q Hq1 Hq2. rewrite !lookup_insert_ne by congruence. reflexivity.
Qed.

(** Two uploads submitted within the same second, with names of the same
    extension, are saved under the same path: the second overwrites the
    first, and the two records name the one file that is left. *)
Theorem same_second_uploads_share_one_file (f1 f2 : form) (w : world) (n1 n2 : string)
    (b1 b2 : list Byte.byte) :
  uploaded_file f1 = Some (n1, b1) ->
  uploaded_file f2 = Some (n2, b2) ->
  now_file f1 = now_file f2 ->
  splitext_ext n1 = splitext_ext n2 ->
  (forall c, fs w !! "photos" <> Some (File c)) ->
  no_fault 3 (local_faults w) = true ->
  fs w !! ("photos/" ++ strftime_file (now_file f1) ++ splitext_ext n1) <> Some Dir ->
  exists p,
    fst (save_photo f1 w) = Ok p /\
    fst (save_photo f2 (snd (save_photo f1 w))) = Ok p /\
    fs (snd (save_photo f1 w)) !! p = Some (File (Bytes b1)) /\
    fs (snd (save_photo f2 (snd (save_photo f1 w)))) !! p = Some (File (Bytes b2)).
Proof.
  intros Hup1 Hup2 Ht Hext Hdir Hnf Hp.
  set (p := "photos/" ++ strftime_file (now_file f1) ++ splitext_ext n1) in *.
  assert (Hnf1 : no_fault (if bool_decide (is_Some (fs w !! "photos")) then 1 else 2)
                   (local_faults w) = true /\
                 no_fault 1 (drop (if bool_decide (is_Some (fs w !! "photos")) then 1 else 2)
                               (local_faults w)) = true).
  { destruct (local_faults w) as [| [e |] [| [e' |] [| [e'' |] l]]];
      destruct (bool_decide _); split; try reflexivity; discriminate Hnf. }
  destruct Hnf1 as [Hnf1 Hnf2].
  destruct (save_photo_upload f1 w n1 b1 Hup1 Hdir Hnf1 Hp) as (w1 & Hrun1 & Hfs1 & Hlf1 & _).
  fold p in Hrun1, Hfs1. rewrite Hrun1. simpl.
  assert (Hphotos : fs w1 !! "photos" = Some Dir).
  { rewrite Hfs1, lookup_insert_ne by apply photo_path_not_photos. apply lookup_insert_eq. }
  assert (Hp1 : fs w1 !! p = Some (File (Bytes b1))) by (rewrite Hfs1; apply lookup_insert_eq).
  destruct (save_photo_upload f2 w1 n2 b2 Hup2) as (w2 & Hrun2 & Hfs2 & _).
  - intros c. rewrite Hphotos. discriminate.
  - rewrite Hphotos, bool_decide_eq_true_2 by eauto. rewrite Hlf1. exact Hnf2.
  - rewrite <- Ht, <- Hext. fold p. rewrite Hp1. discriminate.
  - rewrite <- Ht, <- Hext in Hrun2, Hfs2. fold p in Hrun2, Hfs2. rewrite Hrun2. simpl.
    exists p. split; [reflexivity |]. split; [reflexivity |]. split; [exact Hp1 |].
    rewrite Hfs2. apply lookup_insert_eq.
Qed.

(** *** A submission, in either mode *)



(** *** The start of a session without a worksheet *)

Lemma init_session_local (w : world) :
  gsheet_worksheet w = None ->
  session_logs w = None ->
  init_session w =
    match fs w !! CSV_PATH with
    | Some _ =>
        try_except_class (fun e => match e with EmptyDataError => true | _ => false end)
          (df_load <- pd_read_csv CSV_PATH ;;
           set_session_logs (to_dict_records (fillna (VStr "") df_load)))
          (set_session_logs []) w
    | None => (Ok tt, emit LogsSet (set_logs (Some []) w))
    end.
Proof.
  intros Hg Hs. destruct w as [ws rf m lf sl tr]. simpl in *. subst ws sl.
  unfold init_session, os_path_exists, get, bind. simpl.
  destruct (m !! CSV_PATH) as [n |] eqn:Hn; simpl.
  - rewrite ?bool_decide_eq_true_2 by eauto.
    match goal with |- context [try_except_class ?c ?m' ?h ?w'] =>
      destruct (try_except_class c m' h w') as [[[] | e] w''] end; reflexivity.
  - rewrite ?bool_decide_eq_false_2 by (intros [? ?]; congruence). reflexivity.
Qed.

(** Without a worksheet the backup file is read at the start of a session
    only.  A store that is set is left as it is; with no backup file the
    store starts empty; so it does with a backup file that is empty or
    holds a table without columns. *)
Theorem local_session_start (w : world) :
  gsheet_worksheet w = None ->
  (forall logs, session_logs w = Some logs -> init_session w = (Ok tt, w)) /\
  (session_logs w = None -> fs w !! CSV_PATH = None ->
     init_session w = (Ok tt, emit LogsSet (set_logs (Some []) w))) /\
  (session_logs w = None -> fst (next_fault (local_faults w)) = None ->
     fs w !! CSV_PATH = Some (File (Bytes [])) \/
     (exists t, fs w !! CSV_PATH = Some (File (Table t)) /\ csv_columns t = ∅) ->
     fst (init_session w) = Ok tt /\ session_logs (snd (init_session w)) = Some []).
Proof.
  intros Hg. split; [| split].
  - intros logs Hs. destruct w as [ws rf m lf sl tr]. simpl in *. subst ws sl. reflexivity.
  - intros Hs Hn. rewrite (init_session_local w Hg Hs), Hn. reflexivity.
  - intros Hs Hnf Hfile. rewrite (init_session_local w Hg Hs).
    unfold try_except_class, bind, pd_read_csv, file_call.
    destruct (next_fault (local_faults w)) as [fault rest]. simpl in Hnf. subst fault.
    destruct Hfile as [Hn | (t & Hn & Ht)]; rewrite Hn; simpl.
    + split; reflexivity.
    + unfold read_csv. rewrite bool_decide_eq_true_2 by exact Ht. simpl. split; reflexivity.
Qed.

(** The errors of [pd.read_csv] other than [EmptyDataError] are not caught:
    when the session starts without a worksheet and the read of the backup
    file meets such an error (the read fails, the path is a directory, or
    the tokenizer refuses the bytes of the file), the run ends with it,
    whatever the user did, with the store not set and nothing shown. *)
Theorem unreadable_backup_ends_the_run (act : interaction) (w : world) :
  gsheet_worksheet w = None ->
  session_logs w = None ->
  is_Some (fs w !! CSV_PATH) ->
  (exists e rest, local_faults w = Some e :: rest /\ e <> EmptyDataError) \/
  (fst (next_fault (local_faults w)) = None /\
   (fs w !! CSV_PATH = Some Dir \/
    exists b e, fs w !! CSV_PATH = Some (File (Bytes b)) /\ b <> [] /\
                csv_tokens b = Raise e /\ e <> EmptyDataError)) ->
  exists e, fst (script act w) = Raise e /\ e <> EmptyDataError /\
    session_logs (snd (script act w)) = None /\
    trace (snd (script act w)) = (trace w ++ [ReadCsv CSV_PATH])%list.
Proof.
  intros Hg Hs [n Hn] Hread.
  assert (Hinit : exists e, e <> EmptyDataError /\
            init_session w =
              (Raise e, emit (ReadCsv CSV_PATH)
                          (set_local_faults (snd (next_fault (local_faults w))) w))).
  { rewrite (init_session_local w Hg Hs), Hn.
    unfold try_except_class, bind, pd_read_csv, file_call.
    destruct Hread as [(e & rest & Hlf & He) | [Hnf Hfile]].
    - rewrite Hlf. simpl. exists e. split; [exact He |]. destruct e; try reflexivity. congruence.
    - destruct (next_fault (local_faults w)) as [fault rest]. simpl in Hnf. subst fault.
      destruct Hfile as [Hd | (b & e & Hb & Hne & Htok & He)].
      + rewrite Hd. exists OSError. split; [discriminate | reflexivity].
      + rewrite Hb. destruct b as [| b0 bs]; [congruence |]. rewrite Htok. cbn [rbind].
        exists e. split; [exact He |]. destruct e; try reflexivity. congruence. }
  destruct Hinit as (e & He & Hinit). exists e.
  unfold script, bind. rewrite Hinit. simpl. repeat split; assumption.
Qed.

(** *** A worksheet without records *)

(** A reload yields no record from a worksheet that is empty, or holds its
    header row only, or has a header row in which a label occurs twice: in
    the last case the error of [get_all_records] is swallowed and the data
    rows are not seen. *)
Theorem reload_of_a_sheet_without_readable_records (w : world) (g : list (list string)) :
  gsheet_worksheet w = Some g ->
  g = [] \/ (exists keys, g = [keys]) \/ (exists keys data, g = keys :: data /\ ~ NoDup keys) ->
  fst (load_from_gsheet w) = Ok [].
Proof.
  intros Hg Hsheet. rewrite (load_from_gsheet_spec w g Hg). simpl.
  unfold reloaded. destruct (fst (next_fault (remote_faults w))); [reflexivity |].
  destruct Hsheet as [-> | [[keys ->] | (keys & data & -> & Hdup)]]; simpl.
  - reflexivity.
  - destruct (bool_decide (NoDup keys)); reflexivity.
  - rewrite bool_decide_eq_false_2 by exact Hdup. reflexivity.
Qed.

(** *** Appending a row and deleting it again *)

(** After an append that meets no error to a worksheet that has a first
    row, deleting the record at the last position (the number of rows there
    were after the first) removes the row just written and leaves the
    worksheet as it was.  A worksheet without values is not restored: the
    appended row is its first row, and the delete, which asks for row 2,
    leaves it there. *)
Theorem delete_undoes_the_append (log_entry : record) (w : world) (g : list (list string)) :
  gsheet_worksheet w = Some g ->
  no_fault 3 (remote_faults w) = true ->
  fst (save_to_gsheet log_entry w) = Ok true /\
  gsheet_worksheet (snd (save_to_gsheet log_entry w)) = Some (g ++ [sheet_row log_entry])%list /\
  (g <> [] ->
   fst (delete_from_gsheet (length (tail g)) (snd (save_to_gsheet log_entry w))) = Ok true) /\
  gsheet_worksheet (snd (delete_from_gsheet (length (tail g)) (snd (save_to_gsheet log_entry w))))
    = Some (match g with [] => [sheet_row log_entry] | _ :: _ => g end).
Proof.
  intros Hg Hnf.
  assert (Hnf2 : no_fault 2 (remote_faults w) = true /\
                 no_fault 1 (drop 2 (remote_faults w)) = true).
  { destruct (remote_faults w) as [| [e1 |] [| [e2 |] [| [e3 |] rest]]];
      try discriminate Hnf; split; reflexivity. }
  destruct Hnf2 as [Hnf2 Hnf1].
  assert (Hdel : forall (data : list (list string)) (row : list string),
            delete (length data) (data ++ [row])%list = data).
  { intros data row. induction data as [| d data IH]; simpl; [reflexivity |].
    f_equal. exact IH. }
  rewrite (save_to_gsheet_spec log_entry w g Hg Hnf2). cbn [fst snd].
  rewrite (delete_from_gsheet_spec (length (tail g)) _ (g ++ [sheet_row log_entry])%list)
    by (first [reflexivity | exact Hnf1]).
  cbn [fst snd gsheet_worksheet set_worksheet].
  split; [reflexivity |]. split; [reflexivity |]. split; [reflexivity |].
  destruct g as [| keys data]; [reflexivity |]. cbn [tail]. f_equal.
  change (keys :: delete (length data) (data ++ [sheet_row log_entry])%list = keys :: data).
  rewrite Hdel. reflexivity.
Qed.

(** *** Records the map cannot draw *)

Lemma collect_raise_inv {A B} (f : A -> result B) (l : list A) (e : exn) :
  collect f l = Raise e -> exists a, a ∈ l /\ f a = Raise e.
Proof.
  induction l as [| a l IH]; simpl; [discriminate |].
  destruct (f a) as [b | e'] eqn:Hfa; simpl.
  - destruct (collect f l) as [bs | e'']; simpl; [discriminate |].
    intros [= <-]. destruct IH as (a' & Hin & Ha'); [reflexivity |].
    exists a'. split; [right; exact Hin | exact Ha'].
  - intros [= <-]. exists a. split; [left | exact Hfa].
Qed.

Lemma map_marker_raises (log : record) :
  ~ drawable log -> exists e, map_marker log = Raise e.
Proof.
  intros Hnot. unfold map_marker, dict_item, rbind.
  destruct (log !! "Location") as [loc |] eqn:Hloc; [| eauto].
  destruct (on_map log) eqn:Hmap.
  - destruct (proj2 (lat_lon_lookup_on_map log) Hmap) as [pos Hpos].
    unfold location_of, dict_get in Hpos. rewrite Hloc in Hpos.
    change (lat_lon_lookup loc = Some pos) in Hpos. rewrite Hpos.
    destruct (dict_get log "Hard_Y_Authenticity" (VInt 0)) as [z | x | b | s] eqn:Hy;
      cbn [py_ge0]; [| | | eauto]; destruct Hnot; (split; [eauto |]); rewrite Hy; reflexivity.
  - destruct Hnot. split; [eauto |]. congruence.
Qed.

Lemma map_marker_raise_inv (log : record) (e : exn) :
  map_marker log = Raise e -> e = KeyError \/ e = TypeError.
Proof.
  unfold map_marker, dict_item, rbind. destruct (log !! "Location") as [loc |].
  - destruct (lat_lon_lookup loc); [| discriminate].
    destruct (dict_get log "Hard_Y_Authenticity" (VInt 0)); cbn [py_ge0]; try discriminate.
    intros [= <-]. right. reflexivity.
  - intros [= <-]. left. reflexivity.
Qed.

(** A record that the map cannot draw (it has no Location, or its Location
    is registered and its Hard_Y_Authenticity is a text, as a worksheet cell
    that is empty or not a number gives) ends the run before anything is
    shown, with [KeyError] or [TypeError]: the map is the first view drawn
    and it compares the rating with 0 without coercing it. *)
Theorem undrawable_record_ends_the_render (clicked : option nat) (w : world)
    (logs : list record) (log : record) :
  session_logs w = Some logs ->
  log ∈ logs ->
  ~ drawable log ->
  exists e, render_main clicked w = (Raise e, w) /\ (e = KeyError \/ e = TypeError).
Proof.
  intros Hs Hin Hnot.
  destruct (map_marker_raises log Hnot) as [e0 He0].
  destruct (collect_raises map_marker logs log e0 Hin He0) as [e He].
  destruct (collect_raise_inv map_marker logs e He) as (log' & _ & Hlog').
  exists e. split; [| exact (map_marker_raise_inv log' e Hlog')].
  assert (Hlogs : the_logs w = (Ok logs, w)).
  { unfold the_logs, bind, get. rewrite Hs. reflexivity. }
  destruct logs as [| l0 logs]; [apply elem_of_nil in Hin; destruct Hin |].
  unfold render_main, bind at 1. rewrite Hlogs.
  unfold bind at 1. unfold render_charts, bind at 1. rewrite Hlogs.
  unfold bind at 1. unfold lift at 1. unfold field_map. rewrite He. reflexivity.
Qed.

(** *** The records list *)

Lemma photo_of_fs (w w' : world) (log : record) : fs w' = fs w -> photo_of w' log = photo_of w log.
Proof. intros Hfs. unfold photo_of. rewrite Hfs. reflexivity. Qed.

(** The photo of a record that can be shown is shown, if there is one. *)
Lemma show_photo_spec (w : world) (log : record) :
  showable w log ->
  show_photo (dict_get log "Image_Path" (VStr "")) w =
    (Ok tt, match photo_of w log with
            | Some p => emit (Show (Image p)) w
            | None => w
            end).
Proof.
  intros Hshow. unfold showable, photo_of in *. unfold show_photo.
  destruct (dict_get log "Image_Path" (VStr "")) as [z | x | b | p]; try reflexivity.
  destruct (truthy (VStr p)); [| reflexivity]. cbn [andb] in *.
  unfold bind, os_path_exists, get.
  destruct (bool_decide (is_Some (fs w !! p))); [| reflexivity].
  destruct (Hshow p eq_refl) as (c & Hc & Himg).
  unfold st_image, bind, get. rewrite Hc, Himg. reflexivity.
Qed.

(** A photo in which [st.image] finds fault ends the run there. *)
Lemma show_photo_raises (w : world) (log : record) (p : string) (c : content) (e : exn) :
  photo_of w log = Some p -> fs w !! p = Some (File c) -> image_error p c = Some e ->
  show_photo (dict_get log "Image_Path" (VStr "")) w = (Raise e, w).
Proof.
  intros Hp Hc Himg. unfold photo_of in Hp. unfold show_photo.
  destruct (dict_get log "Image_Path" (VStr "")) as [z | x | b | q]; try discriminate Hp.
  destruct (truthy (VStr q)); [| discriminate Hp]. cbn [andb] in Hp.
  unfold bind, os_path_exists, get.
  destruct (bool_decide (is_Some (fs w !! q))); [| discriminate Hp].
  injection Hp as ->. unfold st_image, bind, get. rewrite Hc, Himg. reflexivity.
Qed.

Lemma only_shows_emit (v : view) (w : world) : only_shows w (emit (Show v) w).
Proof. exact (only_shows_show v w). Qed.

(** One record of the list, when its delete button is not the one
    pressed. *)
Lemma render_list_step (logs : list record) (i : nat) (clicked : option nat) (w0 w : world)
    (log : record) :
  logs !! i = Some log -> listed log -> showable w0 log -> fs w = fs w0 ->
  clicked <> Some i ->
  exists w',
    render_list logs (S i) clicked w = render_list logs i clicked w' /\
    fs w' = fs w0 /\ only_shows w w' /\
    trace w' = (trace w ++ entry_views w0 log)%list.
Proof.
  intros Hlog ([loc Hloc] & [ts Hts] & [c Hc]) Hshow Hfs Hclick.
  set (w1 := emit (Show (Expander ("【" ++ py_str loc ++ "】 (" ++ py_str ts ++ ")"))) w).
  assert (Hshow1 : showable w1 log).
  { intros p Hp. rewrite (photo_of_fs w0 w1 log Hfs) in Hp.
    destruct (Hshow p Hp) as (c0 & Hc0 & Himg).
    exists c0. split; [| exact Himg]. cbn [fs w1 emit]. rewrite Hfs. exact Hc0. }
  set (w2 := match photo_of w0 log with
             | Some p => emit (Show (Image p)) w1
             | None => w1
             end).
  exists (emit (Show (InfoBox (py_str c))) w2).
  assert (Hviews : entry_views w0 log =
            ([Show (Expander ("【" ++ py_str loc ++ "】 (" ++ py_str ts ++ ")"))]
             ++ match photo_of w0 log with Some p => [Show (Image p)] | None => [] end
             ++ [Show (InfoBox (py_str c))])%list).
  { unfold entry_views, dict_get. rewrite Hloc, Hts, Hc. reflexivity. }
  split; [| split; [| split]].
  - cbn [render_list]. rewrite bool_decide_eq_false_2 by exact Hclick.
    unfold bind at 1. unfold lift at 1. rewrite Hlog.
    unfold bind at 1. unfold lift at 1. unfold expander_title, dict_item, rbind.
    rewrite Hloc, Hts. unfold bind at 1. unfold show at 1. unfold modify at 1. fold w1.
    unfold bind at 1. rewrite (show_photo_spec w1 log Hshow1), (photo_of_fs w0 w1 log Hfs).
    fold w2. unfold bind at 1. unfold lift at 1. rewrite Hc.
    unfold bind at 1. reflexivity.
  - subst w2. destruct (photo_of w0 log); exact Hfs.
  - apply (only_shows_trans w w2); [| apply only_shows_emit].
    subst w2. destruct (photo_of w0 log);
      [apply (only_shows_trans w w1); apply only_shows_emit | apply only_shows_emit].
  - rewrite Hviews. subst w2 w1.
    destruct (photo_of w0 log); cbn [trace emit app]; rewrite <- !app_assoc; reflexivity.
Qed.

(** The list from position [n] down to position [m], when the button
    pressed, if any, is below [m]. *)
Lemma render_list_down (logs : list record) (clicked : option nat) (w0 : world) (m n : nat)
    (w : world) :
  (m <= n <= length logs)%nat ->
  Forall listed (drop m logs) ->
  Forall (showable w0) (drop m logs) ->
  (forall j, clicked = Some j -> (j < m)%nat) ->
  fs w = fs w0 ->
  exists w',
    render_list logs n clicked w = render_list logs m clicked w' /\
    fs w' = fs w0 /\ only_shows w w' /\
    trace w' = (trace w ++ concat (entry_views w0 <$> reverse (take (n - m) (drop m logs))))%list.
Proof.
  intros Hmn Hall Hshow Hclick. revert w. induction n as [| n IH]; intros w Hfs.
  - assert (m = 0)%nat as -> by lia. exists w. cbn [Nat.sub take reverse fmap list_fmap concat].
    rewrite app_nil_r. repeat split; [exact Hfs | apply only_shows_refl].
  - destruct (decide (m = S n)) as [-> | Hne].
    + exists w. rewrite Nat.sub_diag. cbn [take reverse fmap list_fmap concat].
      rewrite app_nil_r. repeat split; [exact Hfs | apply only_shows_refl].
    + destruct (lookup_lt_is_Some_2 logs n) as [log Hlog]; [lia |].
      assert (Hat : drop m logs !! (n - m)%nat = Some log).
      { rewrite lookup_drop. replace (m + (n - m))%nat with n by lia. exact Hlog. }
      assert (Hin : log ∈ drop m logs) by (eapply list_elem_of_lookup_2; exact Hat).
      destruct (render_list_step logs n clicked w0 w log Hlog
                  (proj1 (Forall_forall _ _) Hall log Hin)
                  (proj1 (Forall_forall _ _) Hshow log Hin) Hfs)
        as (w1 & Hstep & Hfs1 & Hshows1 & Htr1).
      { intros Heq. specialize (Hclick n Heq). lia. }
      destruct (IH ltac:(lia) w1 Hfs1) as (w' & Hrun & Hfs' & Hshows' & Htr').
      exists w'. split; [rewrite Hstep; exact Hrun |]. split; [exact Hfs' |].
      split; [exact (only_shows_trans _ _ _ Hshows1 Hshows') |].
      replace (S n - m)%nat with (S (n - m)) by lia.
      rewrite (take_S_r _ _ log Hat), reverse_snoc, fmap_cons. cbn [concat].
      rewrite Htr', Htr1, <- app_assoc. reflexivity.
Qed.

Lemma render_list_trace (logs : list record) (n : nat) (w0 w : world) :
  (n <= length logs)%nat ->
  Forall listed logs ->
  Forall (showable w0) logs ->
  fs w = fs w0 ->
  fst (render_list logs n None w) = Ok tt /\
  trace (snd (render_list logs n None w)) =
    (trace w ++ concat (entry_views w0 <$> reverse (take n logs)))%list.
Proof.
  intros Hn Hall Hshow Hfs.
  destruct (render_list_down logs None w0 0 n w) as (w' & Hrun & _ & _ & Htr);
    [lia | exact Hall | exact Hshow | discriminate | exact Hfs |].
  rewrite Hrun. cbn [render_list ret fst snd]. rewrite Nat.sub_0_r in Htr.
  split; [reflexivity | exact Htr].
Qed.

(** The records list shows the records newest first: for each record, from
    the last of the store to the first, the expander titled with its
    Location and Timestamp, its photo if it has one that is there, and its
    comment.  Every record is taken to have the three fields that are read
    without a default (a record without one of them ends the run with
    [KeyError]), and every photo that is there to be one in which
    [st.image] finds no fault. *)
Theorem records_list_is_newest_first (logs : list record) (w : world) :
  Forall listed logs ->
  Forall (showable w) logs ->
  fst (render_list logs (length logs) None w) = Ok tt /\
  trace (snd (render_list logs (length logs) None w)) =
    (trace w ++ concat (entry_views w <$> reverse logs))%list.
Proof.
  intros Hall Hshow.
  destruct (render_list_trace logs (length logs) w w (le_n _) Hall Hshow eq_refl) as [Hok Htr].
  rewrite firstn_all in Htr. split; assumption.
Qed.

(** A photo in which [st.image] finds fault ends the run at its record,
    with the error of [st.image]: the newer records are listed, the
    expander of the record is opened, and that is all.  Neither the delete
    button of the record nor any older record is reached: whichever of
    these buttons is taken to be pressed, nothing but views happens, and
    the store, the worksheet and the files are left as they were. *)
Theorem unshowable_photo_ends_the_list (logs : list record) (w : world) (i : nat)
    (log : record) (p : string) (c : content) (e : exn) (clicked : option nat) :
  logs !! i = Some log ->
  photo_of w log = Some p ->
  fs w !! p = Some (File c) ->
  image_error p c = Some e ->
  is_Some (log !! "Location") -> is_Some (log !! "Timestamp") ->
  Forall listed (drop (S i) logs) ->
  Forall (showable w) (drop (S i) logs) ->
  (forall j, clicked = Some j -> (j <= i)%nat) ->
  fst (render_list logs (length logs) clicked w) = Raise e /\
  only_shows w (snd (render_list logs (length logs) clicked w)) /\
  trace (snd (render_list logs (length logs) clicked w)) =
    (trace w ++ concat (entry_views w <$> reverse (drop (S i) logs))
       ++ [Show (Expander ("【" ++ py_str (dict_get log "Location" (VStr "")) ++ "】 ("
                           ++ py_str (dict_get log "Timestamp" (VStr "")) ++ ")"))])%list.
Proof.
  intros Hlog Hp Hc Himg [loc Hloc] [ts Hts] Hall Hshow Hclick.
  assert (Hi : (i < length logs)%nat) by (apply lookup_lt_is_Some; eauto).
  destruct (render_list_down logs clicked w (S i) (length logs) w) as (w' & Hrun & Hfs & Hshows & Htr);
    [lia | exact Hall | exact Hshow | intros j Hj; specialize (Hclick j Hj); lia | reflexivity |].
  set (w1 := emit (Show (Expander ("【" ++ py_str loc ++ "】 (" ++ py_str ts ++ ")"))) w').
  assert (Hstep : render_list logs (S i) clicked w' = (Raise e, w1)).
  { cbn [render_list]. unfold bind at 1. unfold lift at 1. rewrite Hlog.
    unfold bind at 1. unfold lift at 1. unfold expander_title, dict_item, rbind.
    rewrite Hloc, Hts. unfold bind at 1. unfold show at 1. unfold modify at 1. fold w1.
    unfold bind at 1.
    rewrite (show_photo_raises w1 log p c e); [reflexivity | | | exact Himg].
    - rewrite (photo_of_fs w w1 log Hfs). exact Hp.
    - cbn [fs w1 emit]. rewrite Hfs. exact Hc. }
  rewrite Hrun, Hstep. cbn [fst snd].
  split; [reflexivity |]. split; [exact (only_shows_trans _ _ _ Hshows (only_shows_emit _ w')) |].
  cbn [trace w1 emit]. rewrite Htr, <- app_assoc.
  rewrite (take_ge (drop (S i) logs)) by (rewrite length_drop; lia).
  unfold dict_get. rewrite Hloc, Hts. reflexivity.
Qed.

(** *** Records built by the form *)

Lemma fmap_ext_on {A B} (f g : A -> B) (l : list A) :
  (forall x, x ∈ l -> f x = g x) -> f <$> l = g <$> l.
Proof.
  intros H. induction l as [| a l IH]; [reflexivity |].
  rewrite !fmap_cons, (H a) by left. f_equal. apply IH. intros x Hx. apply H. right. exact Hx.
Qed.

Lemma new_log_form_built (f : form) (p : string) : in_range f -> form_built (new_log f p).
Proof.
  intros (Hhy & Hhx & Hsy & Hsx). split; [| split].
  - unfold new_log. rewrite dom_list_to_map_L. reflexivity.
  - intros k Hk. unfold RATINGS in Hk.
    repeat (apply elem_of_cons in Hk as [-> | Hk]; [eexists; split; [reflexivity | assumption] |]).
    apply elem_of_nil in Hk. destruct Hk.
  - intros k Hk. unfold TEXTS in Hk.
    repeat (apply elem_of_cons in Hk as [-> | Hk]; [eexists; reflexivity |]).
    apply elem_of_nil in Hk. destruct Hk.
Qed.

Lemma form_built_field (log : record) (k : string) :
  form_built log -> k ∈ headers ->
  (exists z, log !! k = Some (VInt z)) \/ (exists s, log !! k = Some (VStr s)).
Proof.
  intros (_ & Hr & Ht) Hk. destruct (headers_split k Hk) as [H | H]; [left | right].
  - destruct (Hr k H) as (z & Hz & _). eauto.
  - auto.
Qed.

Lemma form_built_no_field (log : record) (k : string) :
  form_built log -> k ∉ headers -> log !! k = None.
Proof.
  intros (Hdom & _ & _) Hk. apply (not_elem_of_dom (D := gset string)).
  rewrite Hdom, elem_of_list_to_set. exact Hk.
Qed.

Lemma form_built_columns (logs : list record) :
  Forall form_built logs -> logs <> [] -> ⋃ (dom <$> logs) = (list_to_set headers : gset string).
Proof.
  intros Hs Hne. induction Hs as [| log logs (Hdom & _ & _) Hs IH]; [congruence |].
  rewrite fmap_cons, union_list_cons, Hdom.
  destruct logs as [| log' logs'].
  - simpl. set_solver.
  - rewrite IH by discriminate. set_solver.
Qed.

Lemma form_built_column (logs : list record) (k : string) :
  Forall form_built logs -> k ∈ RATINGS -> forallb is_int (column_of logs k) = true.
Proof.
  intros Hs Hk. apply forallb_true_of. intros x Hx. unfold column_of in Hx.
  apply list_elem_of_fmap in Hx as (r & -> & Hr). rewrite Forall_forall in Hs.
  destruct (Hs r Hr) as (_ & Hrat & _). destruct (Hrat k Hk) as (z & -> & _). reflexivity.
Qed.

(** The frame of records built by the form holds them as they are. *)
Lemma DataFrame_form_built (logs : list record) :
  Forall form_built logs -> logs <> [] ->
  DataFrame logs = {| columns := list_to_set headers; rows := logs |}.
Proof.
  intros Hs Hne. unfold DataFrame. rewrite (form_built_columns logs Hs Hne). f_equal.
  apply fmap_id_on. intros r Hr. pose proof Hs as Hall. rewrite Forall_forall in Hall.
  apply map_eq. intros c. rewrite map_lookup_imap.
  destruct (decide (c ∈ headers)) as [Hc | Hc].
  - destruct (headers_split c Hc) as [Hcr | Hct].
    + destruct (Hall r Hr) as (_ & Hrat & _). destruct (Hrat c Hcr) as (z & Hz & _).
      rewrite lookup_union_l' by (rewrite Hz; eauto). rewrite Hz. simpl.
      rewrite astype_infer_int; [reflexivity |]. exact (form_built_column logs c Hs Hcr).
    + destruct (Hall r Hr) as (_ & _ & Htxt). destruct (Htxt c Hct) as (s & Hv).
      rewrite lookup_union_l' by (rewrite Hv; eauto). rewrite Hv. simpl.
      rewrite astype_str. reflexivity.
  - rewrite lookup_union_l.
    + rewrite (form_built_no_field r c (Hall r Hr) Hc). reflexivity.
    + apply lookup_gset_to_gmap_None. rewrite elem_of_list_to_set. exact Hc.
Qed.

(** *** The scatter plots of such records *)

Lemma coerced_ints (col : list value) : forallb is_int col = true -> coerced col = col.
Proof.
  intros Hcol. unfold coerced, to_numeric_coerce.
  assert (Hp : to_numeric_elem <$> col = (fun v => match v with VInt z => NInt z | _ => NInt 0 end) <$> col).
  { induction col as [| v col IH]; [reflexivity |]. simpl in Hcol.
    apply andb_prop in Hcol as [Hv Hcol]. rewrite !fmap_cons, (IH Hcol).
    destruct v; try discriminate Hv. reflexivity. }
  rewrite Hp.
  assert (Hi : forallb num_is_int
                 ((fun v => match v with VInt z => NInt z | _ => NInt 0 end) <$> col) = true).
  { apply forallb_true_of. intros n Hn. apply list_elem_of_fmap in Hn as (v & -> & _).
    destruct v; reflexivity. }
  rewrite Hi. unfold fillna_zero. rewrite <- !list_fmap_compose.
  apply fmap_id_on. intros v Hv.
  assert (Hint : is_int v = true).
  { rewrite forallb_forall in Hcol. apply Hcol. apply list_elem_of_In. exact Hv. }
  destruct v; try discriminate Hint. reflexivity.
Qed.

Lemma coerce_rating_form_built (logs : list record) (k : string) :
  Forall form_built logs -> k ∈ RATINGS ->
  coerce_rating {| columns := list_to_set headers; rows := logs |} k =
    {| columns := list_to_set headers; rows := logs |}.
Proof.
  intros Hs Hk. unfold coerce_rating.
  assert (Hh : k ∈ headers).
  { unfold RATINGS in Hk. unfold headers.
    repeat (apply elem_of_cons in Hk as [-> | Hk]; [repeat constructor |]).
    apply elem_of_nil in Hk. destruct Hk. }
  rewrite bool_decide_eq_true_2 by (cbn [columns]; rewrite elem_of_list_to_set; exact Hh).
  unfold df_assign, df_column. cbn [columns rows].
  rewrite (coerced_ints _ (form_built_column logs k Hs Hk)). f_equal.
  - apply set_eq. intros x. rewrite elem_of_union, elem_of_singleton, !elem_of_list_to_set.
    split; [intros [-> | Hx]; assumption | auto].
  - clear Hh. induction Hs as [| log logs Hlog Hs IH]; [reflexivity |].
    simpl. rewrite IH. f_equal. destruct Hlog as (_ & Hrat & _).
    destruct (Hrat k Hk) as (z & Hz & _). rewrite Hz. simpl. apply insert_id, Hz.
Qed.

Lemma chart_frame_form_built (logs : list record) :
  Forall form_built logs -> logs <> [] ->
  chart_frame logs = {| columns := list_to_set headers; rows := logs |}.
Proof.
  intros Hs Hne. unfold chart_frame, coerce_ratings. rewrite (DataFrame_form_built logs Hs Hne).
  unfold RATINGS. cbn [foldl].
  rewrite !(coerce_rating_form_built logs _ Hs) by (unfold RATINGS; repeat constructor). reflexivity.
Qed.

Lemma form_built_get (log : record) (k : string) (d : value) :
  form_built log -> k ∈ headers -> default NaN (log !! k) = dict_get log k d.
Proof.
  intros Hlog Hk. unfold dict_get.
  destruct (form_built_field log k Hlog Hk) as [[z ->] | [s ->]]; reflexivity.
Qed.

Lemma px_scatter_form_built (logs : list record) (x y : string) :
  Forall form_built logs -> x ∈ headers -> y ∈ headers ->
  px_scatter {| columns := list_to_set headers; rows := logs |} x y "Location" =
    Ok ((fun log => {| p_x := dict_get log x (VInt 0); p_y := dict_get log y (VInt 0);
                       p_text := location_of log |}) <$> logs).
Proof.
  intros Hs Hx Hy. unfold px_scatter. cbn [columns rows].
  rewrite !bool_decide_eq_true_2
    by (rewrite elem_of_list_to_set; first [assumption | unfold headers; repeat constructor]).
  simpl. f_equal. apply fmap_ext_on. intros log Hin.
  rewrite Forall_forall in Hs. pose proof (Hs log Hin) as Hlog.
  unfold location_of.
  rewrite (form_built_get log x (VInt 0) Hlog Hx), (form_built_get log y (VInt 0) Hlog Hy),
    (form_built_get log "Location" (VStr "") Hlog) by (unfold headers; repeat constructor).
  reflexivity.
Qed.

(** *** The vector view of records it can draw *)

Lemma float_of_int_slider (z : Z) :
  (-50 <= z <= 50)%Z -> float_of_int z = Ok (astype_float z).
Proof.
  intros Hz.
  assert (H : exists n, (n <= 100)%nat /\ z = (Z.of_nat n - 50)%Z)
    by (exists (Z.to_nat (z + 50)); lia).
  destruct H as (n & Hn & ->). clear Hz.
  do 101 (destruct n as [| n]; [vm_compute; reflexivity |]). lia.
Qed.

Lemma rating_ready (log : record) (k : string) :
  log !! k = None \/ log !! k = Some (VStr "") \/
  (exists z, log !! k = Some (VInt z) /\ (-50 <= z <= 50)%Z) ->
  rating log k = Ok (astype_float (int_field log k)).
Proof.
  intros [H | [H | (z & H & Hz)]].
  - rewrite (rating_missing_or_empty log k (or_introl H)). unfold int_field. rewrite H. reflexivity.
  - rewrite (rating_missing_or_empty log k (or_intror H)). unfold int_field. rewrite H. reflexivity.
  - unfold rating, dict_get, int_field, py_or. rewrite H. cbn [default from_option id truthy].
    destruct (Z.eqb_spec z 0) as [-> | Hne]; cbn [negb py_float].
    + reflexivity.
    + apply float_of_int_slider, Hz.
Qed.

Lemma vector_of_ready (log : record) : vector_ready log -> vector_of log = Ok (form_vector log).
Proof.
  intros [[loc Hloc] Hr]. unfold vector_of, form_vector, location_of, dict_get, dict_item.
  rewrite !rating_ready by (apply Hr; unfold RATINGS; repeat constructor).
  rewrite Hloc. reflexivity.
Qed.

Lemma collect_ok {A B} (f : A -> result B) (g : A -> B) (l : list A) :
  (forall a, a ∈ l -> f a = Ok (g a)) -> collect f l = Ok (g <$> l).
Proof.
  intros H. induction l as [| a l IH]; [reflexivity |].
  cbn [collect]. rewrite (H a) by left. rewrite IH by (intros x Hx; apply H; right; exact Hx).
  reflexivity.
Qed.

(** On a store whose records all have a Location and ratings that are
    missing, empty or integers of the sliders' range, the vector view is
    drawn: one arrow per record, in the order of the store, from the hard
    point to the soft point, a missing or empty rating standing at 0. *)
Theorem vector_view_of_ready_records (logs : list record) :
  Forall vector_ready logs -> vector_view logs = Ok (form_vector <$> logs).
Proof.
  intros Hall. rewrite Forall_forall in Hall. unfold vector_view.
  apply collect_ok. intros log Hin. apply vector_of_ready, Hall, Hin.
Qed.

(** *** The scatter plots *)

Lemma hard_scatter_form_built (logs : list record) :
  Forall form_built logs -> logs <> [] -> hard_scatter logs = Ok (hard_point <$> logs).
Proof.
  intros Hs Hne. unfold hard_scatter. rewrite (chart_frame_form_built logs Hs Hne).
  apply (px_scatter_form_built logs _ _ Hs); unfold headers; repeat constructor.
Qed.

Lemma soft_scatter_form_built (logs : list record) :
  Forall form_built logs -> logs <> [] -> soft_scatter logs = Ok (soft_point <$> logs).
Proof.
  intros Hs Hne. unfold soft_scatter. rewrite (chart_frame_form_built logs Hs Hne).
  apply (px_scatter_form_built logs _ _ Hs); unfold headers; repeat constructor.
Qed.

(** On a store of records built by the form the two scatter plots show one
    point per record, in the order of the store, at the integers the record
    holds and labelled with its Location: the conversion to numbers changes
    nothing. *)
Theorem scatter_plots_of_form_built_records (logs : list record) :
  Forall form_built logs -> logs <> [] ->
  hard_scatter logs = Ok (hard_point <$> logs) /\
  soft_scatter logs = Ok (soft_point <$> logs).
Proof.
  intros Hs Hne. split; [apply hard_scatter_form_built | apply soft_scatter_form_built]; assumption.
Qed.

Lemma coerce_rating_rows (df : frame) (c : string) :
  length (rows (coerce_rating df c)) = length (rows df).
Proof.
  unfold coerce_rating. destruct (bool_decide (c ∈ columns df)); [| reflexivity].
  unfold df_assign, df_column. cbn [rows].
  rewrite length_zip_with, length_coerced. unfold column_of. rewrite length_fmap. lia.
Qed.

Lemma chart_frame_rows (logs : list record) : length (rows (chart_frame logs)) = length logs.
Proof.
  unfold chart_frame, coerce_ratings, RATINGS. cbn [foldl].
  rewrite !coerce_rating_rows. unfold DataFrame. cbn [rows]. apply length_fmap.
Qed.

Lemma chart_frame_has (logs : list record) (k : string) :
  k ∈ columns (chart_frame logs) <-> exists log, log ∈ logs /\ is_Some (log !! k).
Proof.
  unfold chart_frame. rewrite coerce_ratings_columns. unfold DataFrame. cbn [columns].
  rewrite elem_of_union_list. split.
  - intros (X & HX & Hk). apply list_elem_of_fmap in HX as (log & -> & Hin).
    exists log. split; [exact Hin |]. apply elem_of_dom. exact Hk.
  - intros (log & Hin & Hk). exists (dom log). split.
    + apply list_elem_of_fmap. exists log. split; [reflexivity | exact Hin].
    + apply elem_of_dom. exact Hk.
Qed.

Lemma px_scatter_chart (logs : list record) (x y : string) :
  ((forall k, k ∈ [x; y; "Location"] -> exists log, log ∈ logs /\ is_Some (log !! k)) ->
   exists ps, px_scatter (chart_frame logs) x y "Location" = Ok ps /\ length ps = length logs) /\
  (forall k, k ∈ [x; y; "Location"] -> (forall log, log ∈ logs -> log !! k = None) ->
   px_scatter (chart_frame logs) x y "Location" = Raise ValueError).
Proof.
  split.
  - intros Hall. unfold px_scatter.
    rewrite !bool_decide_eq_true_2 by (apply chart_frame_has, Hall; repeat constructor).
    eexists. split; [reflexivity |]. rewrite length_fmap. apply chart_frame_rows.
  - intros k Hk Hnone. unfold px_scatter.
    assert (Hno : k ∉ columns (chart_frame logs)).
    { rewrite chart_frame_has. intros (log & Hin & [v Hv]). rewrite (Hnone log Hin) in Hv.
      discriminate. }
    apply elem_of_cons in Hk as [-> | Hk]; [| apply elem_of_cons in Hk as [-> | Hk]].
    + rewrite (bool_decide_eq_false_2 _ Hno). reflexivity.
    + rewrite (bool_decide_eq_false_2 _ Hno), andb_false_r. reflexivity.
    + apply list_elem_of_singleton in Hk as ->.
      rewrite (bool_decide_eq_false_2 _ Hno), andb_false_r. reflexivity.
Qed.

(** A scatter plot is drawn, with one point per record, when each of its
    three fields (x, y and Location) occurs in at least one record of the
    store; when no record has one of them, the frame lacks that column and
    the plot raises [ValueError]. *)
Theorem scatter_plot_needs_its_columns (logs : list record) :
  ((forall k, k ∈ ["Hard_X_Affect"; "Hard_Y_Authenticity"; "Location"] ->
      exists log, log ∈ logs /\ is_Some (log !! k)) ->
   exists ps, hard_scatter logs = Ok ps /\ length ps = length logs) /\
  (forall k, k ∈ ["Hard_X_Affect"; "Hard_Y_Authenticity"; "Location"] ->
     (forall log, log ∈ logs -> log !! k = None) -> hard_scatter logs = Raise ValueError) /\
  ((forall k, k ∈ ["Soft_X_Affect"; "Soft_Y_Correctness"; "Location"] ->
      exists log, log ∈ logs /\ is_Some (log !! k)) ->
   exists ps, soft_scatter logs = Ok ps /\ length ps = length logs) /\
  (forall k, k ∈ ["Soft_X_Affect"; "Soft_Y_Correctness"; "Location"] ->
     (forall log, log ∈ logs -> log !! k = None) -> soft_scatter logs = Raise ValueError).
Proof.
  destruct (px_scatter_chart logs "Hard_X_Affect" "Hard_Y_Authenticity") as [Hh1 Hh2].
  destruct (px_scatter_chart logs "Soft_X_Affect" "Soft_Y_Correctness") as [Hs1 Hs2].
  repeat split; assumption.
Qed.

(** *** A whole visit *)

Lemma field_map_drawable (logs : list record) :
  Forall drawable logs -> field_map logs = Ok (spec_marker <$> List.filter on_map logs).
Proof.
  intros Hd. unfold field_map.
  rewrite (collect_ok map_marker (fun log => if on_map log then Some (spec_marker log) else None)).
  - cbn [rbind]. f_equal. clear Hd. induction logs as [| log logs IH]; [reflexivity |].
    simpl. destruct (on_map log); simpl; [f_equal |]; exact IH.
  - intros log Hin. rewrite Forall_forall in Hd. apply map_marker_spec, Hd, Hin.
Qed.

Lemma form_built_text (log : record) (k : string) :
  form_built log -> k ∈ TEXTS -> exists s, log !! k = Some (VStr s).
Proof. intros (_ & _ & Ht). apply Ht. Qed.

Lemma form_built_drawable (log : record) : form_built log -> drawable log.
Proof.
  intros Hlog. split.
  - destruct (form_built_text log "Location" Hlog) as [s ->]; [unfold TEXTS; repeat constructor |].
    eauto.
  - intros _. destruct Hlog as (_ & Hr & _).
    destruct (Hr "Hard_Y_Authenticity") as (z & Hz & _); [unfold RATINGS; repeat constructor |].
    unfold dict_get. rewrite Hz. reflexivity.
Qed.

Lemma form_built_vector_ready (log : record) : form_built log -> vector_ready log.
Proof.
  intros Hlog. split.
  - destruct (form_built_text log "Location" Hlog) as [s ->]; [unfold TEXTS; repeat constructor |].
    eauto.
  - intros k Hk. right. right. destruct Hlog as (_ & Hr & _). exact (Hr k Hk).
Qed.

Lemma form_built_listed (log : record) : form_built log -> listed log.
Proof.
  intros Hlog. unfold listed.
  destruct (form_built_text log "Location" Hlog) as [s1 ->]; [unfold TEXTS; repeat constructor |].
  destruct (form_built_text log "Timestamp" Hlog) as [s2 ->]; [unfold TEXTS; repeat constructor |].
  destruct (form_built_text log "Comment" Hlog) as [s3 ->]; [unfold TEXTS; repeat constructor |].
  eauto.
Qed.

(** A run in which no button is pressed, on a store of records built by the
    form whose photos, where there are any, are files in which [st.image]
    finds no fault, ends normally.  It shows the map with the markers of
    the registered locations, the two scatter plots and the vector view,
    each with one entry per record in the order of the store, and then the
    records list, newest first. *)
Theorem visit_of_a_form_built_store (w : world) (logs : list record) :
  session_logs w = Some logs ->
  logs <> [] ->
  Forall form_built logs ->
  Forall (showable w) logs ->
  fst (render_main None w) = Ok tt /\
  trace (snd (render_main None w)) =
    (trace w ++ [Show (Map (spec_marker <$> List.filter on_map logs));
                 Show (Scatter "Hard" (hard_point <$> logs));
                 Show (Scatter "Soft" (soft_point <$> logs));
                 Show (Vectors (form_vector <$> logs))]
       ++ concat (entry_views w <$> reverse logs))%list.
Proof.
  intros Hs Hne Hall Hshow.
  assert (Hmap : field_map logs = Ok (spec_marker <$> List.filter on_map logs)).
  { apply field_map_drawable. eapply Forall_impl; [exact Hall |]. apply form_built_drawable. }
  assert (Hvec : vector_view logs = Ok (form_vector <$> logs)).
  { unfold vector_view. apply collect_ok. intros log Hin. rewrite Forall_forall in Hall.
    apply vector_of_ready, form_built_vector_ready, Hall, Hin. }
  assert (Hlist : Forall listed logs).
  { eapply Forall_impl; [exact Hall |]. apply form_built_listed. }
  assert (Hlogs : forall w', session_logs w' = Some logs -> the_logs w' = (Ok logs, w')).
  { intros w' Hw'. unfold the_logs, bind, get. rewrite Hw'. reflexivity. }
  set (w4 := emit (Show (Vectors (form_vector <$> logs)))
               (emit (Show (Scatter "Soft" (soft_point <$> logs)))
                  (emit (Show (Scatter "Hard" (hard_point <$> logs)))
                     (emit (Show (Map (spec_marker <$> List.filter on_map logs))) w)))).
  assert (Hcharts : render_charts w = (Ok tt, w4)).
  { unfold render_charts, bind at 1. rewrite (Hlogs w Hs).
    unfold bind, lift, show, modify.
    rewrite Hmap, (hard_scatter_form_built logs Hall Hne), (soft_scatter_form_built logs Hall Hne),
      Hvec. reflexivity. }
  assert (Hrun : render_main None w = render_list logs (length logs) None w4).
  { unfold render_main, bind at 1. rewrite (Hlogs w Hs).
    destruct logs as [| log logs']; [congruence |].
    unfold bind at 1. rewrite Hcharts. reflexivity. }
  rewrite Hrun.
  destruct (render_list_trace logs (length logs) w w4 (le_n _) Hlist Hshow eq_refl) as [Hok Htr].
  rewrite firstn_all in Htr. split; [exact Hok |]. rewrite Htr. unfold w4. cbn [trace emit].
  rewrite <- !app_assoc. reflexivity.
Qed.

(** *** The round trip through the worksheet *)

Lemma save_to_gsheet_quiet (log_entry : record) (w : world) (g : list (list string)) :
  gsheet_worksheet w = Some g -> remote_faults w = [] ->
  gsheet_worksheet (snd (save_to_gsheet log_entry w)) = Some (g ++ [sheet_row log_entry])%list /\
  remote_faults (snd (save_to_gsheet log_entry w)) = [].
Proof.
  intros Hg Hrf. rewrite (save_to_gsheet_spec log_entry w g Hg) by (rewrite Hrf; reflexivity).
  cbn [snd gsheet_worksheet remote_faults set_worksheet emit set_remote_faults].
  rewrite Hrf. split; reflexivity.
Qed.

Lemma append_all_rows (logs : list record) (w : world) (g : list (list string)) :
  gsheet_worksheet w = Some g -> remote_faults w = [] ->
  gsheet_worksheet (append_all logs w) = Some (g ++ (sheet_row <$> logs))%list /\
  remote_faults (append_all logs w) = [].
Proof.
  revert w g. induction logs as [| log logs IH]; intros w g Hg Hrf.
  - simpl. rewrite app_nil_r. split; assumption.
  - destruct (save_to_gsheet_quiet log w g Hg Hrf) as [Hg1 Hrf1].
    unfold append_all. cbn [foldl]. fold (append_all logs (snd (save_to_gsheet log w))).
    destruct (IH _ _ Hg1 Hrf1) as [Hg2 Hrf2].
    rewrite Hg2, fmap_cons, <- app_assoc. split; [reflexivity | exact Hrf2].
Qed.

Lemma form_built_fields (log : record) :
  form_built log ->
  exists s1 z1 z2 z3 z4 s2 s3 s4,
    log !! "Location" = Some (VStr s1) /\ log !! "Hard_Y_Authenticity" = Some (VInt z1) /\
    log !! "Hard_X_Affect" = Some (VInt z2) /\ log !! "Soft_Y_Correctness" = Some (VInt z3) /\
    log !! "Soft_X_Affect" = Some (VInt z4) /\ log !! "Comment" = Some (VStr s2) /\
    log !! "Image_Path" = Some (VStr s3) /\ log !! "Timestamp" = Some (VStr s4).
Proof.
  intros (_ & Hr & Ht).
  destruct (Ht "Location") as [s1 H1]; [unfold TEXTS; repeat constructor |].
  destruct (Hr "Hard_Y_Authenticity") as (z1 & H2 & _); [unfold RATINGS; repeat constructor |].
  destruct (Hr "Hard_X_Affect") as (z2 & H3 & _); [unfold RATINGS; repeat constructor |].
  destruct (Hr "Soft_Y_Correctness") as (z3 & H4 & _); [unfold RATINGS; repeat constructor |].
  destruct (Hr "Soft_X_Affect") as (z4 & H5 & _); [unfold RATINGS; repeat constructor |].
  destruct (Ht "Comment") as [s2 H6]; [unfold TEXTS; repeat constructor |].
  destruct (Ht "Image_Path") as [s3 H7]; [unfold TEXTS; repeat constructor |].
  destruct (Ht "Timestamp") as [s4 H8]; [unfold TEXTS; repeat constructor |].
  exists s1, z1, z2, z3, z4, s2, s3, s4. repeat split; assumption.
Qed.

(** The record that [get_all_records] builds from the row of a record. *)
Lemma sheet_row_read_back (log : record) :
  numericise_ints -> sheet_safe log -> sheet_record headers (sheet_row log) = log.
Proof.
  intros Hints [Hlog Hplain].
  destruct (form_built_fields log Hlog) as (s1 & z1 & z2 & z3 & z4 & s2 & s3 & s4 &
    H1 & H2 & H3 & H4 & H5 & H6 & H7 & H8).
  unfold sheet_record, fill_row, sheet_row, gsheet_row, dict_get.
  rewrite H1, H2, H3, H4, H5, H6, H7, H8.
  cbn [default from_option id fmap list_fmap cell_text py_str length headers Nat.sub replicate app].
  rewrite !Hints, (Hplain _ _ H1), (Hplain _ _ H6), (Hplain _ _ H7), (Hplain _ _ H8).
  apply map_eq. intros k. destruct (decide (k ∈ headers)) as [Hk | Hk].
  - unfold headers in Hk.
    repeat (apply elem_of_cons in Hk as [-> | Hk]; [symmetry; assumption |]).
    apply elem_of_nil in Hk. destruct Hk.
  - rewrite (form_built_no_field log k Hlog Hk).
    apply not_elem_of_list_to_map_1. rewrite fst_zip by (cbn; lia). exact Hk.
Qed.

Lemma sheet_records_sheet_of (logs : list record) :
  numericise_ints -> Forall sheet_safe logs -> sheet_records (sheet_of logs) = Ok logs.
Proof.
  intros Hints Hall. unfold sheet_of, sheet_records.
  rewrite bool_decide_eq_true_2 by (unfold headers; apply (bool_decide_unpack _); vm_compute; exact I).
  f_equal. rewrite <- list_fmap_compose. apply fmap_id_on. intros r Hr.
  rewrite Forall_forall in Hall. apply (sheet_row_read_back r Hints (Hall r Hr)).
Qed.

Lemma fillna_form_built (logs : list record) (x : value) :
  Forall form_built logs ->
  to_dict_records (fillna x {| columns := list_to_set headers; rows := logs |}) = logs.
Proof.
  intros Hall. unfold to_dict_records, fillna. cbn [rows]. apply fmap_id_on. intros r Hr.
  rewrite Forall_forall in Hall. apply map_eq. intros k. rewrite lookup_fmap.
  destruct (decide (k ∈ headers)) as [Hk | Hk].
  - destruct (form_built_field r k (Hall r Hr) Hk) as [[z ->] | [s ->]]; reflexivity.
  - rewrite (form_built_no_field r k (Hall r Hr) Hk). reflexivity.
Qed.

(** Records appended one after the other, by calls that meet no error, to
    a worksheet that holds the header row and the rows of earlier records
    are, after those, the records of the next reload, in the same order.
    The records are taken to be built by the form, with no text that
    gspread reads as a number; gspread is taken to read back the integers
    it is given. *)
Theorem worksheet_round_trip (before logs : list record) (w : world) :
  numericise_ints ->
  Forall sheet_safe before ->
  Forall sheet_safe logs ->
  gsheet_worksheet w = Some (sheet_of before) ->
  remote_faults w = [] ->
  gsheet_worksheet (append_all logs w) = Some (sheet_of (before ++ logs)) /\
  fst (load_from_gsheet (append_all logs w)) = Ok (before ++ logs)%list.
Proof.
  intros Hints Hbefore Hlogs Hg Hrf.
  destruct (append_all_rows logs w _ Hg Hrf) as [Hg1 Hrf1].
  assert (Hsheet : gsheet_worksheet (append_all logs w) = Some (sheet_of (before ++ logs))).
  { rewrite Hg1. unfold sheet_of. rewrite fmap_app. reflexivity. }
  assert (Hall : Forall sheet_safe (before ++ logs)) by (apply Forall_app; split; assumption).
  split; [exact Hsheet |]. rewrite (load_from_gsheet_spec _ _ Hsheet), Hrf1. cbn [fst next_fault].
  unfold reloaded. rewrite (sheet_records_sheet_of _ Hints Hall).
  assert (Hbuilt : Forall form_built (before ++ logs))
    by (eapply Forall_impl; [exact Hall |]; intros ? [? ?]; assumption).
  destruct (before ++ logs)%list as [| log rest] eqn:Heq; [reflexivity |].
  rewrite (DataFrame_form_built _ Hbuilt) by discriminate.
  apply f_equal, fillna_form_built, Hbuilt.
Qed.

(** Appended to a worksheet that holds no value, the rows stand without a
    header row: the next reload takes the first of them for the keys and
    returns fewer records than were appended, none at all when two cells of
    that row hold the same text. *)
Theorem append_to_an_empty_worksheet_loses_a_record (logs : list record) (w : world) :
  gsheet_worksheet w = Some [] ->
  remote_faults w = [] ->
  logs <> [] ->
  gsheet_worksheet (append_all logs w) = Some (sheet_row <$> logs) /\
  exists records,
    fst (load_from_gsheet (append_all logs w)) = Ok records /\
    (length records < length logs)%nat /\
    (forall log rest, logs = log :: rest -> ~ NoDup (sheet_row log) -> records = []).
Proof.
  intros Hg Hrf Hne.
  destruct (append_all_rows logs w [] Hg Hrf) as [Hg1 Hrf1]. cbn [app] in Hg1.
  split; [exact Hg1 |]. rewrite (load_from_gsheet_spec _ _ Hg1), Hrf1. cbn [fst next_fault].
  eexists. split; [reflexivity |]. unfold reloaded.
  destruct logs as [| log rest]; [congruence |]. rewrite fmap_cons. unfold sheet_records.
  case_bool_decide as Hdup.
  - split.
    + unfold to_dict_records, fillna, DataFrame. cbn [rows length].
      rewrite !length_fmap. lia.
    + intros log' rest' [= <- <-] Hnd. contradiction.
  - split; [cbn; lia | reflexivity].
Qed.

(** *** Time stamps *)

Lemma digits2_ok : forallb (digits_ok 2) (seq 0 100) = true.
Proof. vm_compute. reflexivity. Qed.

Lemma digits4_ok : forallb (digits_ok 4) (seq 0 (Z.to_nat 10000)) = true.
Proof. vm_compute. reflexivity. Qed.

Lemma digits_spec (width n : nat) :
  (width = 2 /\ n < 100)%nat \/ (width = 4%nat /\ Z.of_nat n < 10000)%Z ->
  String.length (digits width n) = width /\ dec_int (digits width n) = Some (Z.of_nat n).
Proof.
  intros H.
  assert (Hok : digits_ok width n = true).
  { destruct H as [[-> Hn] | [-> Hn]].
    - apply (proj1 (forallb_forall _ _) digits2_ok). apply in_seq. lia.
    - apply (proj1 (forallb_forall _ _) digits4_ok). apply in_seq. lia. }
  unfold digits_ok in Hok. apply andb_prop in Hok as [Hlen Hdec].
  split; [apply Nat.eqb_eq, Hlen | apply bool_decide_eq_true in Hdec; exact Hdec].
Qed.

Lemma digits_inj (width n1 n2 : nat) :
  (width = 2 /\ n1 < 100 /\ n2 < 100)%nat \/
  (width = 4%nat /\ Z.of_nat n1 < 10000 /\ Z.of_nat n2 < 10000)%Z ->
  digits width n1 = digits width n2 -> n1 = n2.
Proof.
  intros H Heq.
  assert (H1 : dec_int (digits width n1) = Some (Z.of_nat n1)) by (apply digits_spec; lia).
  assert (H2 : dec_int (digits width n2) = Some (Z.of_nat n2)) by (apply digits_spec; lia).
  rewrite Heq, H2 in H1. injection H1 as H1. lia.
Qed.

Ltac peel H w n1 n2 Hn :=
  let Hd := fresh "Hd" in
  apply string_app_inj in H as [Hd H];
  [ apply (digits_inj w n1 n2) in Hd; [| lia]
  | rewrite (proj1 (digits_spec w n1 ltac:(lia))), (proj1 (digits_spec w n2 ltac:(lia)));
    reflexivity ].

(** The name of a photo and the time stamp of a record have a fixed length
    and tell the second they were made in: two times of the calendar that
    differ give different names and different stamps.  Uploads of
    different seconds are therefore saved under different paths. *)
Theorem stamps_tell_the_second (t1 t2 : datetime) :
  valid_time t1 -> valid_time t2 ->
  String.length (strftime_file t1) = 15%nat /\
  String.length (strftime_log t1) = 19%nat /\
  (strftime_file t1 = strftime_file t2 -> t1 = t2) /\
  (strftime_log t1 = strftime_log t2 -> t1 = t2).
Proof.
  intros (Hy1 & Hm1 & Hd1 & Hh1 & Hmi1 & Hs1) (Hy2 & Hm2 & Hd2 & Hh2 & Hmi2 & Hs2).
  destruct t1 as [y1 mo1 d1 h1 mi1 s1], t2 as [y2 mo2 d2 h2 mi2 s2]. cbn [year month day hour minute second] in *.
  split; [| split; [| split]].
  - unfold strftime_file. cbn [year month day hour minute second].
    rewrite !string_length_app, (proj1 (digits_spec 4 y1 ltac:(lia))),
      (proj1 (digits_spec 2 mo1 ltac:(lia))), (proj1 (digits_spec 2 d1 ltac:(lia))),
      (proj1 (digits_spec 2 h1 ltac:(lia))), (proj1 (digits_spec 2 mi1 ltac:(lia))),
      (proj1 (digits_spec 2 s1 ltac:(lia))).
    reflexivity.
  - unfold strftime_log. cbn [year month day hour minute second].
    rewrite !string_length_app, (proj1 (digits_spec 4 y1 ltac:(lia))),
      (proj1 (digits_spec 2 mo1 ltac:(lia))), (proj1 (digits_spec 2 d1 ltac:(lia))),
      (proj1 (digits_spec 2 h1 ltac:(lia))), (proj1 (digits_spec 2 mi1 ltac:(lia))),
      (proj1 (digits_spec 2 s1 ltac:(lia))).
    reflexivity.
  - unfold strftime_file. cbn [year month day hour minute second]. intros H.
    peel H 4%nat y1 y2 Hy. peel H 2%nat mo1 mo2 Hmo. peel H 2%nat d1 d2 Hd.
    change (String "_" (digits 2 h1 ++ digits 2 mi1 ++ digits 2 s1) =
            String "_" (digits 2 h2 ++ digits 2 mi2 ++ digits 2 s2)) in H.
    injection H as H.
    peel H 2%nat h1 h2 Hh. peel H 2%nat mi1 mi2 Hmi.
    apply (digits_inj 2) in H; [| lia]. congruence.
  - unfold strftime_log. cbn [year month day hour minute second]. intros H.
    peel H 4%nat y1 y2 Hy.
    change (String "-" (digits 2 mo1 ++ "-" ++ digits 2 d1 ++ " " ++ digits 2 h1 ++ ":"
                        ++ digits 2 mi1 ++ ":" ++ digits 2 s1) =
            String "-" (digits 2 mo2 ++ "-" ++ digits 2 d2 ++ " " ++ digits 2 h2 ++ ":"
                        ++ digits 2 mi2 ++ ":" ++ digits 2 s2)) in H.
    injection H as H. peel H 2%nat mo1 mo2 Hmo.
    change (String "-" (digits 2 d1 ++ " " ++ digits 2 h1 ++ ":" ++ digits 2 mi1 ++ ":"
                        ++ digits 2 s1) =
            String "-" (digits 2 d2 ++ " " ++ digits 2 h2 ++ ":" ++ digits 2 mi2 ++ ":"
                        ++ digits 2 s2)) in H.
    injection H as H. peel H 2%nat d1 d2 Hd.
    change (String " " (digits 2 h1 ++ ":" ++ digits 2 mi1 ++ ":" ++ digits 2 s1) =
            String " " (digits 2 h2 ++ ":" ++ digits 2 mi2 ++ ":" ++ digits 2 s2)) in H.
    injection H as H. peel H 2%nat h1 h2 Hh.
    change (String ":" (digits 2 mi1 ++ ":" ++ digits 2 s1) =
            String ":" (digits 2 mi2 ++ ":" ++ digits 2 s2)) in H.
    injection H as H. peel H 2%nat mi1 mi2 Hmi.
    change (String ":" (digits 2 s1) = String ":" (digits 2 s2)) in H.
    injection H as H. apply (digits_inj 2) in H; [| lia]. congruence.
Qed.

(** *** What [fillna] leaves in the store *)

Lemma fillna_no_nan (x : value) (df : frame) :
  isna x = false -> no_nan (to_dict_records (fillna x df)).
Proof.
  intros Hx. unfold no_nan, to_dict_records, fillna. cbn [rows].
  apply Forall_fmap, Forall_forall. intros r _. apply map_Forall_lookup. intros k v.
  rewrite lookup_fmap. destruct (r !! k) as [v0 |]; [| discriminate].
  cbn. intros [= <-]. destruct (isna v0) eqn:Hv; [exact Hx | exact Hv].
Qed.

Lemma reloaded_no_nan (g : list (list string)) (fault : option exn) : no_nan (reloaded g fault).
Proof.
  unfold reloaded. destruct fault; [constructor |].
  destruct (sheet_records g); [| constructor]. apply fillna_no_nan. reflexivity.
Qed.

(** At the start of a session, and at every run with a worksheet, the store
    is set from a frame passed through [fillna("")]: whatever the worksheet
    or the backup file holds, no value of the store is a NaN afterwards. *)
Theorem store_holds_no_nan_after_start (w : world) (logs : list record) :
  session_logs w = None \/ GSHEET_ENABLED w = true ->
  session_logs (snd (init_session w)) = Some logs ->
  no_nan logs.
Proof.
  intros Hstart Hlogs. destruct (gsheet_worksheet w) as [g |] eqn:Hg.
  - destruct (init_session_enabled w g Hg) as (_ & Hs & _). cbv zeta in Hs.
    rewrite Hs in Hlogs. injection Hlogs as <-. apply reloaded_no_nan.
  - assert (Hs : session_logs w = None).
    { destruct Hstart as [H | H]; [exact H |]. unfold GSHEET_ENABLED in H. rewrite Hg in H.
      apply bool_decide_eq_true in H. destruct H as [? H]. discriminate. }
    rewrite (init_session_local w Hg Hs) in Hlogs.
    destruct (fs w !! CSV_PATH) as [n |].
    + unfold try_except_class, bind in Hlogs.
      assert (Hsl : session_logs (snd (pd_read_csv CSV_PATH w)) = session_logs w)
        by (unfold pd_read_csv; exact (proj1 (proj2 (proj2 (file_call_frame _ _ w))))).
      destruct (pd_read_csv CSV_PATH w) as [[df | e] w1]; cbn in Hlogs, Hsl.
      * injection Hlogs as <-. apply fillna_no_nan. reflexivity.
      * destruct e; cbn in Hlogs; try congruence. injection Hlogs as <-. constructor.
    + cbn in Hlogs. injection Hlogs as <-. constructor.
Qed.

(** *** Errors of the photo file *)

Lemma the_logs_some (w : world) (logs : list record) :
  session_logs w = Some logs -> the_logs w = (Ok logs, w).
Proof. intros Hs. unfold the_logs, bind, get. rewrite Hs. reflexivity. Qed.

(** The record handler writes the photo first: when that write meets an
    error the run ends with it, and the submission is neither in the store
    nor in the worksheet nor in the backup file.  No file but the target of
    the write has changed; the target is as it was when the error came
    before it was opened, and otherwise holds the bytes that had been
    written, whatever photo it held before. *)
Theorem failed_upload_loses_the_submission (f : form) (w : world) (name : string)
    (buffer : list Byte.byte) (e : exn) (rest : list (option exn)) :
  uploaded_file f = Some (name, buffer) ->
  fs w !! "photos" = Some Dir ->
  local_faults w = Some e :: rest ->
  fst (on_record f w) = Raise e /\
  session_logs (snd (on_record f w)) = session_logs w /\
  gsheet_worksheet (snd (on_record f w)) = gsheet_worksheet w /\
  trace (snd (on_record f w)) =
    (trace w ++ [WriteFile ("photos/" ++ strftime_file (now_file f) ++ splitext_ext name)])%list /\
  (forall q, q <> "photos/" ++ strftime_file (now_file f) ++ splitext_ext name ->
     fs (snd (on_record f w)) !! q = fs w !! q) /\
  (torn w = [] \/ (exists rest', torn w = None :: rest') -> fs (snd (on_record f w)) = fs w) /\
  (forall b rest',
     torn w = Some b :: rest' ->
     fs w !! ("photos/" ++ strftime_file (now_file f) ++ splitext_ext name) <> Some Dir ->
     fs (snd (on_record f w)) !! ("photos/" ++ strftime_file (now_file f) ++ splitext_ext name)
       = Some (File (Bytes b))).
Proof.
  intros Hup Hdir Hlf.
  set (p := "photos/" ++ strftime_file (now_file f) ++ splitext_ext name).
  set (w1 := emit (WriteFile p) (set_local_faults rest w)).
  assert (Hrun : on_record f w = (Raise e, tear p w1)).
  { unfold on_record, save_photo. rewrite Hup, photo_path_eq. fold p.
    unfold bind, os_path_exists, get, ret, write_bytes.
    rewrite Hdir, bool_decide_eq_true_2 by eauto.
    rewrite (file_write_fault (WriteFile p) p (Bytes buffer) w e rest Hlf). reflexivity. }
  rewrite Hrun. cbn [fst snd].
  destruct (tear_frame p w1) as (Hg & _ & _ & Hs & Ht & Hother).
  split; [reflexivity |]. split; [exact Hs |]. split; [exact Hg |]. split; [exact Ht |].
  split; [exact Hother |]. split.
  - intros Hnone. exact (tear_whole p w1 Hnone).
  - intros b rest' Htorn Hp. apply (tear_torn p w1 b rest' Htorn).
    apply writable_photo; assumption.
Qed.

(** The delete handler removes the photo first: when the removal meets an
    error (the call fails, or the path names a directory) the run ends with
    it and nothing is deleted: the store, the worksheet and the files are
    as they were. *)
Theorem failed_photo_removal_deletes_nothing (i : nat) (w : world) (logs : list record)
    (log : record) (p : string) :
  session_logs w = Some logs ->
  logs !! i = Some log ->
  log !! "Image_Path" = Some (VStr p) ->
  p <> "" ->
  (exists e rest, local_faults w = Some e :: rest /\ is_Some (fs w !! p)) \/
  (fst (next_fault (local_faults w)) = None /\ fs w !! p = Some Dir) ->
  exists e, fst (on_delete i w) = Raise e /\
    session_logs (snd (on_delete i w)) = Some logs /\
    gsheet_worksheet (snd (on_delete i w)) = gsheet_worksheet w /\
    fs (snd (on_delete i w)) = fs w /\
    trace (snd (on_delete i w)) = (trace w ++ [RemoveFile p])%list.
Proof.
  intros Hs Hi Himg Hp Herr.
  rewrite (on_delete_unfold i w logs log Hs Hi).
  unfold dict_get. rewrite Himg. cbn [default from_option id].
  unfold remove_photo. cbn [truthy].
  destruct (String.eqb_spec p "") as [-> | _]; [congruence |]. cbn [negb].
  unfold bind, os_path_exists, get, os_remove, file_call, ret.
  destruct Herr as [(e & rest & Hlf & Hthere) | [Hnf Hdir]].
  - rewrite bool_decide_eq_true_2 by exact Hthere. rewrite Hlf. cbn.
    exists e. rewrite Hs. repeat split; reflexivity.
  - rewrite bool_decide_eq_true_2 by (rewrite Hdir; eauto).
    destruct (next_fault (local_faults w)) as [fault rest]. cbn in Hnf. subst fault.
    rewrite Hdir. cbn. exists OSError. rewrite Hs. repeat split; reflexivity.
Qed.

(** *** An error of the backup file after the record is stored *)

Lemma remote_only_refl (w : world) : remote_only w w.
Proof.
  repeat (split; [reflexivity |]). exists []. rewrite app_nil_r. split; reflexivity.
Qed.

Lemma remote_only_trans (w1 w2 w3 : world) :
  remote_only w1 w2 -> remote_only w2 w3 -> remote_only w1 w3.
Proof.
  intros (Hf & Hl & Hs & Hn & evs & Ht & Hevs) (Hf' & Hl' & Hs' & Hn' & evs' & Ht' & Hevs').
  repeat (split; [congruence |]). exists (evs ++ evs')%list.
  rewrite Ht', Ht, <- app_assoc, forallb_app, Hevs, Hevs'. split; reflexivity.
Qed.

Lemma remote_only_worksheet_call {A} (c : remote_call)
    (op : list (list string) -> result A * list (list string)) :
  keeps remote_only (worksheet_call c op).
Proof.
  intros w. unfold worksheet_call. destruct (gsheet_worksheet w) as [g |]; [| apply remote_only_refl].
  destruct (next_fault (remote_faults w)) as [[e |] rest]; cbn.
  - repeat (split; [reflexivity |]). exists [Remote c]. split; reflexivity.
  - destruct (op g) as [r g']. cbn. repeat (split; [reflexivity |]).
    exists [Remote c]. split; reflexivity.
Qed.

Lemma remote_only_save_to_gsheet (log_entry : record) :
  keeps remote_only (save_to_gsheet log_entry).
Proof.
  unfold save_to_gsheet, get_all_values, append_row.
  repeat first [ apply remote_only_worksheet_call
               | keeps_step remote_only_refl remote_only_trans
               | match goal with |- keeps _ (match ?x with _ => _ end) => destruct x end ].
Qed.

(** The backup file is rewritten last and unguarded: when that write meets
    an error the run of the record handler ends with it, after the record
    was appended to the store and, with a worksheet, sent to it; no success
    message is shown.  No file but the backup has changed; the backup is as
    it was when the error came before it was opened, and otherwise holds
    the bytes that had been written, not the table it held before. *)
Theorem backup_error_leaves_the_record_stored (f : form) (w w1 : world)
    (logs : list record) (p : string) (e : exn) (rest : list (option exn)) :
  session_logs w = Some logs ->
  save_photo f w = (Ok p, w1) ->
  local_faults w1 = Some e :: rest ->
  fst (on_record f w) = Raise e /\
  session_logs (snd (on_record f w)) = Some (logs ++ [new_log f p])%list /\
  gsheet_worksheet (snd (on_record f w)) =
    gsheet_worksheet (snd (save_to_gsheet (new_log f p) w)) /\
  (exists evs, trace (snd (on_record f w)) = (trace w1 ++ LogsAppend :: evs ++ [ToCsv CSV_PATH])%list /\
               forallb is_remote evs = true) /\
  (forall q, q <> CSV_PATH -> fs (snd (on_record f w)) !! q = fs w1 !! q) /\
  (torn w1 = [] \/ (exists rest', torn w1 = None :: rest') -> fs (snd (on_record f w)) = fs w1) /\
  (forall b rest',
     torn w1 = Some b :: rest' -> fs w1 !! CSV_PATH <> Some Dir ->
     fs (snd (on_record f w)) !! CSV_PATH = Some (File (Bytes b))).
Proof.
  intros Hs Hphoto Hlf.
  destruct (save_photo_frame f w) as (Hg & Hrf & Hsl & _).
  rewrite Hphoto in Hg, Hrf, Hsl. cbn [snd] in Hg, Hrf, Hsl.
  assert (Hs1 : session_logs w1 = Some logs) by congruence.
  set (log := new_log f p).
  set (w2 := emit LogsAppend (set_logs (Some (logs ++ [log])%list) w1)).
  assert (Hsave : exists b w3,
            (if GSHEET_ENABLED w2 then save_to_gsheet log else ret true) w2 = (Ok b, w3) /\
            remote_only w2 w3 /\
            gsheet_worksheet w3 = gsheet_worksheet (snd (save_to_gsheet log w))).
  { destruct (save_to_gsheet_remote log w w2 Hg Hrf) as [_ Hsheet].
    unfold GSHEET_ENABLED. destruct (gsheet_worksheet w2) as [g |] eqn:Hg2.
    - rewrite bool_decide_eq_true_2 by eauto.
      pose proof (remote_only_save_to_gsheet log w2) as Hro.
      destruct (save_to_gsheet_frame log w2) as (b & w3 & Hrun & _).
      rewrite Hrun in Hro, Hsheet. cbn [snd] in Hro, Hsheet.
      exists b, w3. split; [exact Hrun |]. split; [exact Hro | exact Hsheet].
    - rewrite bool_decide_eq_false_2 by (intros [? ?]; congruence).
      exists true, w2. split; [reflexivity |]. split; [apply remote_only_refl |].
      destruct (save_to_gsheet_frame log w2) as (b & w3 & Hrun & _ & _ & _ & _ & Hnone).
      rewrite Hrun in Hsheet. cbn [snd] in Hsheet. rewrite <- Hsheet, (Hnone Hg2). exact Hg2. }
  destruct Hsave as (b & w3 & Hrun & (Hfs3 & Hlf3 & Hsl3 & Htn3 & evs & Htr3 & Hevs) & Hg3).
  set (w4 := emit (ToCsv CSV_PATH) (set_local_faults rest w3)).
  assert (Hwb : write_backup w3 = (Raise e, tear CSV_PATH w4)).
  { unfold write_backup, bind. rewrite (the_logs_some w3 (logs ++ [log])%list Hsl3).
    assert (Hlf3' : local_faults w3 = Some e :: rest) by (rewrite Hlf3; exact Hlf).
    unfold df_to_csv. rewrite (file_write_fault _ _ _ w3 e rest Hlf3'). reflexivity. }
  assert (Hp : on_record f w = (Raise e, tear CSV_PATH w4)).
  { unfold on_record, bind at 1. rewrite Hphoto. fold log.
    unfold persist, bind at 1. rewrite (the_logs_some w1 logs Hs1).
    unfold bind at 1. unfold modify at 1. fold w2.
    unfold bind at 1. unfold get at 1. unfold bind at 1. rewrite Hrun.
    unfold bind at 1. rewrite Hwb. reflexivity. }
  rewrite Hp. cbn [fst snd].
  destruct (tear_frame CSV_PATH w4) as (Hg4 & _ & _ & Hs4 & Ht4 & Hother).
  assert (Hfs4 : fs w4 = fs w1) by exact Hfs3.
  assert (Htn4 : torn w4 = torn w1) by exact Htn3.
  split; [reflexivity |]. split; [rewrite Hs4; exact Hsl3 |]. split; [rewrite Hg4; exact Hg3 |].
  split; [| split; [| split]].
  - exists evs. split; [| exact Hevs]. rewrite Ht4. cbn [w4 trace emit set_local_faults].
    rewrite Htr3. cbn [w2 trace emit set_logs]. rewrite <- !app_assoc. reflexivity.
  - intros q Hq. rewrite (Hother q Hq), Hfs4. reflexivity.
  - intros Hnone. rewrite <- Htn4 in Hnone. rewrite (tear_whole CSV_PATH w4 Hnone). exact Hfs4.
  - intros b0 rest' Htorn Hdir. rewrite <- Htn4 in Htorn.
    apply (tear_torn CSV_PATH w4 b0 rest' Htorn). apply writable_backup. rewrite Hfs4. exact Hdir.
Qed.

(** *** The store changes by one record at a time *)

Lemma same_store_refl (w : world) : same_store w w.
Proof. reflexivity. Qed.

Lemma same_store_trans (w1 w2 w3 : world) : same_store w1 w2 -> same_store w2 w3 -> same_store w1 w3.
Proof. unfold same_store. congruence. Qed.

Lemma same_store_emit (e : event) : keeps same_store (modify (emit e)).
Proof. intros w. reflexivity. Qed.

Lemma same_store_worksheet_call {A} (c : remote_call)
    (op : list (list string) -> result A * list (list string)) :
  keeps same_store (worksheet_call c op).
Proof.
  intros w. unfold worksheet_call. destruct (gsheet_worksheet w) as [g |]; [| reflexivity].
  destruct (next_fault (remote_faults w)) as [[e |] rest]; [reflexivity |].
  destruct (op g); reflexivity.
Qed.

Lemma same_store_file_call {A} (ev : event) (op : gmap string node -> result A * gmap string node) :
  keeps same_store (file_call ev op).
Proof. intros w. apply (file_call_frame ev op w). Qed.

Lemma same_store_file_write (ev : event) (p : string) (c : content) :
  keeps same_store (file_write ev p c).
Proof. intros w. apply (file_write_frame ev p c w). Qed.

Ltac store_go :=
  repeat first [ apply same_store_worksheet_call | apply same_store_file_call
               | apply same_store_file_write | apply same_store_emit
               | keeps_step same_store_refl same_store_trans
               | match goal with |- keeps _ (match ?x with _ => _ end) => destruct x end
               | match goal with |- keeps _ (if ?x then _ else _) => destruct x end ].

Lemma same_store_save_to_gsheet (log_entry : record) : keeps same_store (save_to_gsheet log_entry).
Proof. unfold save_to_gsheet, get_all_values, append_row. store_go. Qed.

Lemma same_store_delete_from_gsheet (i : nat) : keeps same_store (delete_from_gsheet i).
Proof. unfold delete_from_gsheet, delete_rows. store_go. Qed.

Lemma same_store_write_backup : keeps same_store write_backup.
Proof. unfold write_backup, df_to_csv. store_go. Qed.

Lemma same_store_save_photo (f : form) : keeps same_store (save_photo f).
Proof. unfold save_photo, os_path_exists, os_makedirs, write_bytes. store_go. Qed.

Lemma same_store_remove_photo (v : value) : keeps same_store (remove_photo v).
Proof. unfold remove_photo, os_path_exists, os_remove. store_go. Qed.

Lemma same_store_render_charts : keeps same_store render_charts.
Proof. unfold render_charts, show. store_go. Qed.

Lemma same_store_show_photo (v : value) : keeps same_store (show_photo v).
Proof. unfold show_photo, st_image, os_path_exists, show. store_go. Qed.

Lemma persist_store (log : record) (w : world) (logs : list record) :
  session_logs w = Some logs ->
  session_logs (snd (persist log w)) = Some (logs ++ [log])%list.
Proof.
  intros Hs.
  assert (Hrest : keeps same_store
            (enabled <- get GSHEET_ENABLED ;;
             (if enabled then save_to_gsheet log else ret true) ;;;
             write_backup ;;; modify (emit (Success SUCCESS)) ;;; modify (emit Rerun))).
  { pose proof (same_store_save_to_gsheet log) as Hsave.
    pose proof same_store_write_backup as Hbackup. store_go. }
  unfold persist, bind at 1. rewrite (the_logs_some w logs Hs).
  unfold bind at 1. unfold modify at 1.
  exact (Hrest (emit LogsAppend (set_logs (Some (logs ++ [log])%list) w))).
Qed.

Lemma on_record_store (f : form) (w : world) (logs : list record) :
  session_logs w = Some logs ->
  session_logs (snd (on_record f w)) = Some logs \/
  exists p, session_logs (snd (on_record f w)) = Some (logs ++ [new_log f p])%list.
Proof.
  intros Hs. unfold on_record, bind.
  pose proof (same_store_save_photo f w) as Hphoto. unfold same_store in Hphoto.
  destruct (save_photo f w) as [[p | e] w1]; cbn [snd] in *.
  - right. exists p. apply persist_store. congruence.
  - left. congruence.
Qed.

Lemma drop_record_store (i : nat) (w : world) (logs : list record) :
  session_logs w = Some logs ->
  session_logs (snd (drop_record i w)) = Some logs \/
  session_logs (snd (drop_record i w)) = Some (delete i logs).
Proof.
  intros Hs.
  assert (Hdel : keeps same_store (if GSHEET_ENABLED w then delete_from_gsheet i else ret true)).
  { destruct (GSHEET_ENABLED w); [apply same_store_delete_from_gsheet |].
    apply (keeps_ret _ same_store_refl). }
  assert (Hrest : keeps same_store (write_backup ;;; modify (emit Rerun))).
  { pose proof same_store_write_backup as Hbackup. store_go. }
  specialize (Hdel w). unfold same_store in Hdel.
  unfold drop_record, bind, get.
  destruct ((if GSHEET_ENABLED w then delete_from_gsheet i else ret true) w) as [[b | e] w1];
    cbn [snd] in *; [| left; congruence].
  rewrite (the_logs_some w1 logs) by congruence.
  destruct (logs !! i) as [log |]; [| left; cbn; congruence].
  unfold modify at 1. right.
  exact (Hrest (emit (LogsPop i) (set_logs (Some (delete i logs)) w1))).
Qed.

Lemma on_delete_store (i : nat) (w : world) (logs : list record) :
  session_logs w = Some logs ->
  session_logs (snd (on_delete i w)) = Some logs \/
  session_logs (snd (on_delete i w)) = Some (delete i logs).
Proof.
  intros Hs. unfold on_delete, bind, lift. rewrite (the_logs_some w logs Hs).
  destruct (logs !! i) as [log |]; [| left; exact Hs].
  pose proof (same_store_remove_photo (dict_get log "Image_Path" (VStr "")) w) as Hphoto.
  unfold same_store in Hphoto.
  destruct (remove_photo (dict_get log "Image_Path" (VStr "")) w) as [[[] | e] w1]; cbn [snd] in *.
  - apply drop_record_store. congruence.
  - left. congruence.
Qed.

Lemma render_list_store (logs : list record) (n : nat) (clicked : option nat) (w : world) :
  session_logs w = Some logs ->
  session_logs (snd (render_list logs n clicked w)) = Some logs \/
  exists i, clicked = Some i /\ session_logs (snd (render_list logs n clicked w)) = Some (delete i logs).
Proof.
  revert w. induction n as [| i IH]; intros w Hs; [left; exact Hs |].
  cbn [render_list]. unfold bind, lift, show, modify.
  destruct (logs !! i) as [log |]; [| left; exact Hs].
  destruct (expander_title log) as [title | e]; [| left; exact Hs].
  pose proof (same_store_show_photo (dict_get log "Image_Path" (VStr ""))
                (emit (Show (Expander title)) w)) as Hphoto.
  unfold same_store in Hphoto.
  destruct (show_photo (dict_get log "Image_Path" (VStr "")) (emit (Show (Expander title)) w))
    as [[[] | e] w1]; cbn [snd] in *;
    (assert (Hs1 : session_logs w1 = Some logs) by (rewrite Hphoto; exact Hs));
    [| left; exact Hs1].
  destruct (bool_decide (clicked = Some i)) eqn:Hc.
  - apply bool_decide_eq_true in Hc.
    destruct (on_delete_store i w1 logs Hs1) as [H | H];
      [left; exact H | right; exists i; split; assumption].
  - destruct (dict_item log "Comment") as [c | e]; [| left; exact Hs1].
    apply IH. exact Hs1.
Qed.

Lemma render_main_store (clicked : option nat) (w : world) (logs : list record) :
  session_logs w = Some logs ->
  session_logs (snd (render_main clicked w)) = Some logs \/
  exists i, clicked = Some i /\ session_logs (snd (render_main clicked w)) = Some (delete i logs).
Proof.
  intros Hs. unfold render_main, bind. rewrite (the_logs_some w logs Hs).
  destruct logs as [| log logs']; [left; exact Hs |].
  pose proof (same_store_render_charts w) as Hcharts. unfold same_store in Hcharts.
  destruct (render_charts w) as [[[] | e] w1]; cbn [snd] in *; [| left; congruence].
  apply render_list_store. congruence.
Qed.

(** Whatever a run meets (errors of the worksheet or of the files
    included), it changes the store by at most the one record that the
    user submitted or deleted: after the start of the session the store is
    left as it is by a visit, left as it is or extended by the new record
    at its end by a submission, and left as it is or without the record at
    the clicked position by a deletion.  On a store of records built by the
    form, with sliders in their range, the store is again one of such
    records. *)
Theorem a_run_changes_the_store_by_one_record (act : interaction) (w w0 : world)
    (logs : list record) :
  init_session w = (Ok tt, w0) ->
  session_logs w0 = Some logs ->
  match act with
  | Visit => session_logs (snd (script act w)) = Some logs
  | Record_ f =>
      session_logs (snd (script act w)) = Some logs \/
      exists p, session_logs (snd (script act w)) = Some (logs ++ [new_log f p])%list
  | Delete i =>
      session_logs (snd (script act w)) = Some logs \/
      session_logs (snd (script act w)) = Some (delete i logs)
  end /\
  (Forall form_built logs ->
   (forall f, act = Record_ f -> in_range f) ->
   exists logs', session_logs (snd (script act w)) = Some logs' /\ Forall form_built logs').
Proof.
  intros Hinit Hs.
  assert (Hrun : script act w =
            match act with
            | Record_ f => on_record f
            | Delete i => render_main (Some i)
            | Visit => render_main None
            end w0).
  { unfold script, bind. rewrite Hinit. reflexivity. }
  rewrite Hrun. destruct act as [| f | i].
  - destruct (render_main_store None w0 logs Hs) as [H | (i & Hi & _)]; [| discriminate].
    split; [exact H |]. intros Hall _. eauto.
  - pose proof (on_record_store f w0 logs Hs) as H. split; [exact H |].
    intros Hall Hf. destruct H as [H | [p H]]; [eauto |].
    exists (logs ++ [new_log f p])%list. split; [exact H |].
    apply Forall_app. split; [exact Hall |]. constructor; [| constructor].
    apply new_log_form_built, Hf. reflexivity.
  - assert (H : session_logs (snd (render_main (Some i) w0)) = Some logs \/
                session_logs (snd (render_main (Some i) w0)) = Some (delete i logs)).
    { destruct (render_main_store (Some i) w0 logs Hs) as [H | (j & [= <-] & H)]; auto. }
    split; [exact H |]. intros Hall _. destruct H as [H | H]; [eauto |].
    exists (delete i logs). split; [exact H |]. apply Forall_delete, Hall.
Qed.

End App.

(** ** The embedding at work *)

Lemma ref_reads_back_ints : @reads_back_ints ref_libs.
Proof.
  intros z. simpl. unfold dec_int. rewrite int_of_string_str_int. simpl.
  f_equal. apply DecimalZ.of_to.
Qed.

(** C1: on the record [ex_log_abc], whose Hard_X_Affect is the text "abc",
    the hard scatter plot shows the point at x = 0, as the claim says, but
    the vector view raises [ValueError] (it evaluates [float("abc")]): the
    run ends with that error, after the map and the two scatter plots and
    without the vector view.  The store is left as it was.  (When no record
    of the store has the field at all, the scatter plot is not drawn either:
    the frame has no such column.) *)
Theorem C1_vector_view_raises_where_scatter_shows_zero :
  hard_scatter (L := ref_libs) [ex_log_abc] =
    Ok [{| p_x := VFloat 0; p_y := VInt 20; p_text := VStr "座喜味城跡 (読谷)" |}] /\
  vector_view (L := ref_libs) [ex_log_abc] = Raise ValueError /\
  fst (script (L := ref_libs) Visit (ex_local [ex_log_abc] [])) = Raise ValueError /\
  session_logs (snd (script (L := ref_libs) Visit (ex_local [ex_log_abc] []))) = Some [ex_log_abc] /\
  hard_scatter (L := ref_libs) [ex_log_short] = Raise ValueError.
Proof. repeat split; vm_compute; reflexivity. Qed.

(** The scatter plots at work on [ex_log_abc]. *)
Lemma scatter_zero_witness :
  [ex_log_abc] !! 0%nat = Some ex_log_abc /\
  "Hard_X_Affect" ∈ RATINGS /\
  "Hard_X_Affect" ∈ columns (DataFrame [ex_log_abc]) /\
  @unreadable ref_libs ex_log_abc "Hard_X_Affect" /\
  df_column (chart_frame (L := ref_libs) [ex_log_abc]) "Hard_X_Affect" !! 0%nat = Some (VFloat 0).
Proof.
  assert (Hk : "Hard_X_Affect" ∈ RATINGS) by (unfold RATINGS; repeat constructor).
  assert (Hc : "Hard_X_Affect" ∈ columns (DataFrame [ex_log_abc])).
  { apply (bool_decide_unpack _). vm_compute. exact I. }
  assert (Hu : @unreadable ref_libs ex_log_abc "Hard_X_Affect").
  { right. exists "abc". split; reflexivity. }
  split; [reflexivity |]. split; [exact Hk |]. split; [exact Hc |]. split; [exact Hu |].
  exact (proj1 (scatter_shows_zero_for_unreadable_rating (L := ref_libs) [ex_log_abc] 0 ex_log_abc
                  "Hard_X_Affect" eq_refl Hk Hc Hu)).
Defined.

(** The vector view at work on [ex_log_abc]. *)
Lemma vector_view_witness :
  ex_log_abc ∈ [ex_log_abc] /\
  "Hard_X_Affect" ∈ RATINGS /\
  ex_log_abc !! "Hard_X_Affect" = Some (VStr "abc") /\
  "abc" <> "" /\
  py_float_str (Libs := ref_libs) "abc" = None /\
  exists e, vector_view (L := ref_libs) [ex_log_abc] = Raise e.
Proof.
  assert (Hin : ex_log_abc ∈ [ex_log_abc]) by constructor.
  assert (Hk : "Hard_X_Affect" ∈ RATINGS) by (unfold RATINGS; repeat constructor).
  assert (Hne : "abc" <> "") by discriminate.
  split; [exact Hin |]. split; [exact Hk |]. split; [reflexivity |]. split; [exact Hne |].
  split; [reflexivity |].
  exact (vector_view_raises_on_unparsable_rating (L := ref_libs) [ex_log_abc] ex_log_abc
           "Hard_X_Affect" "abc" Hin Hk eq_refl Hne eq_refl).
Defined.

(** C2, as stated, fails: an error met by the rewrite of the backup file
    ends the run of the record handler, and of the delete handler, with
    that error. *)
Lemma C2_backup_write_error_reaches_the_caller :
  fst (script (L := ref_libs) (Record_ ex_form) (ex_local [] [Some OSError])) = Raise OSError /\
  fst (script (L := ref_libs) (Delete 0) (ex_local [ex_log] [Some OSError])) = Raise OSError.
Proof. split; vm_compute; reflexivity. Qed.

Lemma C2_witness :
  fst (load_from_gsheet (L := ref_libs) (ex_remote [headers; ex_row] [] [Some APIError] [Some OSError]))
    = Ok [] /\
  fst (save_to_gsheet (L := ref_libs) ex_log (ex_remote [headers; ex_row] [] [Some APIError] [Some OSError]))
    = Ok false /\
  fst (delete_from_gsheet 0 (ex_remote [headers; ex_row] [] [Some APIError] [Some OSError]))
    = Ok false /\
  fst (write_backup (L := ref_libs) (ex_remote [headers; ex_row] [] [Some APIError] [Some OSError]))
    = Raise OSError.
Proof.
  destruct (C2_remote_calls_degrade_backup_write_raises (L := ref_libs)
              (ex_remote [headers; ex_row] [] [Some APIError] [Some OSError]))
    as (_ & _ & _ & Hremote & Hlocal).
  destruct (Hremote [headers; ex_row] APIError [] eq_refl eq_refl) as (Hload & Hsave & Hdelete).
  split; [exact Hload |]. split; [apply Hsave |]. split; [apply Hdelete |].
  exact (Hlocal [] OSError [] eq_refl eq_refl).
Defined.


(** C4 at work: the second of two records, which has a photo, is deleted. *)
Lemma C4_witness :
  session_logs (ex_local [ex_log; ex_log_photo] []) = Some [ex_log; ex_log_photo] /\
  [ex_log; ex_log_photo] !! 1%nat = Some ex_log_photo /\
  session_logs (snd (on_delete (L := ref_libs) 1 (ex_local [ex_log; ex_log_photo] []))) = Some [ex_log] /\
  fs (snd (on_delete (L := ref_libs) 1 (ex_local [ex_log; ex_log_photo] [])))
    !! "photos/20260102_030405.jpg" = None.
Proof.
  assert (Hs : session_logs (ex_local [ex_log; ex_log_photo] []) = Some [ex_log; ex_log_photo])
    by reflexivity.
  assert (Hi : [ex_log; ex_log_photo] !! 1%nat = Some ex_log_photo) by reflexivity.
  assert (Hp : forall p, photo_of (ex_local [ex_log; ex_log_photo] []) ex_log_photo = Some p ->
            fst (next_fault (local_faults (ex_local [ex_log; ex_log_photo] []))) = None /\
            exists c, fs (ex_local [ex_log; ex_log_photo] []) !! p = Some (File c)).
  { intros p H. vm_compute in H. injection H as <-. split; [reflexivity |].
    exists (Bytes []). reflexivity. }
  destruct (C4_delete_removes_record_and_photo (L := ref_libs) 1 _ _ _ Hs Hi Hp)
    as (Hstore & _ & _ & _ & Hphoto).
  split; [exact Hs |]. split; [exact Hi |]. split; [exact Hstore |].
  apply (Hphoto _ (Bytes [])); [reflexivity | discriminate | reflexivity | discriminate].
Defined.

(** C5, as stated, fails: the comment "NA" of a submitted record is read
    back from the backup file as the empty text. *)
Lemma C5_comment_NA_is_read_back_empty :
  session_logs (snd (script (L := ref_libs) (Record_ ex_form_na) (ex_local [] []))) = Some [ex_log_na] /\
  session_logs
    (snd (script (L := ref_libs) Visit
            (set_logs None (snd (script (L := ref_libs) (Record_ ex_form_na) (ex_local [] []))))))
    = Some [<["Comment" := VStr ""]> ex_log_na] /\
  ex_log_na !! "Comment" = Some (VStr "NA").
Proof. repeat split; vm_compute; reflexivity. Qed.

Lemma ex_log_submitted : @submitted ref_libs ex_log.
Proof.
  split; [| split].
  - vm_compute. reflexivity.
  - intros k Hk. unfold RATINGS in Hk.
    repeat (apply elem_of_cons in Hk as [-> | Hk]; [eexists; reflexivity |]).
    apply elem_of_nil in Hk. destruct Hk.
  - intros k Hk. unfold TEXTS in Hk.
    repeat (apply elem_of_cons in Hk as [-> | Hk];
            [eexists; split; [reflexivity |];
             first [left; reflexivity | right; repeat split; vm_compute; reflexivity] |]).
    apply elem_of_nil in Hk. destruct Hk.
Qed.

(** C5 (amended) at work: the record of the scenario comes back. *)
Lemma C5_witness :
  @reads_back_ints ref_libs /\
  Forall (@submitted ref_libs) [ex_log] /\
  session_logs (ex_local [ex_log] []) = Some [ex_log] /\
  gsheet_worksheet (ex_local [ex_log] []) = None /\
  no_fault 2 (local_faults (ex_local [ex_log] [])) = true /\
  fs (ex_local [ex_log] []) !! CSV_PATH <> Some Dir /\
  session_logs
    (snd (init_session (L := ref_libs)
            (set_logs None (snd (write_backup (L := ref_libs) (ex_local [ex_log] []))))))
    = Some [ex_log].
Proof.
  assert (Hsub : Forall (@submitted ref_libs) [ex_log]).
  { constructor; [exact ex_log_submitted | constructor]. }
  assert (Hdir : fs (ex_local [ex_log] []) !! CSV_PATH <> Some Dir) by discriminate.
  split; [exact ref_reads_back_ints |]. split; [exact Hsub |].
  split; [reflexivity |]. split; [reflexivity |]. split; [reflexivity |]. split; [exact Hdir |].
  exact (C5_backup_round_trip_of_plain_records (L := ref_libs) (ex_local [ex_log] []) [ex_log]
           ref_reads_back_ints Hsub eq_refl eq_refl eq_refl Hdir).
Defined.

(** C6 at work: a registered location and one typed in by hand. *)
Lemma C6_witness :
  Forall drawable [ex_log; ex_log_free] /\
  field_map (L := ref_libs) [ex_log; ex_log_free] =
    Ok [{| m_location := (26.408, 127.742)%float; m_popup := "座喜味城跡 (読谷)";
           m_tooltip := VStr "座喜味城跡 (読谷)"; m_color := "blue" |}].
Proof.
  assert (Hd : Forall drawable [ex_log; ex_log_free]).
  { repeat constructor; eexists; reflexivity. }
  split; [exact Hd |].
  destruct (C6_markers_for_registered_locations (L := ref_libs) _ Hd) as [-> _].
  reflexivity.
Defined.

(** C7 at work: deleting the record at position 0 removes row 2. *)
Lemma C7_witness :
  gsheet_worksheet (ex_remote [headers; ex_row; ex_row_free] [] [] []) =
    Some [headers; ex_row; ex_row_free] /\
  (0 < length [ex_row; ex_row_free])%nat /\
  no_fault 1 (remote_faults (ex_remote [headers; ex_row; ex_row_free] [] [] [])) = true /\
  gsheet_worksheet (snd (delete_from_gsheet 0 (ex_remote [headers; ex_row; ex_row_free] [] [] []))) =
    Some [headers; ex_row_free] /\
  @sheet_records ref_libs [headers; ex_row_free] = Ok [ex_log_free].
Proof.
  assert (Hlen : (0 < length [ex_row; ex_row_free])%nat) by (simpl; lia).
  destruct (C7_remote_delete_addresses_row_of_record (L := ref_libs) 0
              (ex_remote [headers; ex_row; ex_row_free] [] [] []) headers [ex_row; ex_row_free]
              eq_refl Hlen eq_refl)
    as (_ & _ & _ & Hsheet & Hrecords).
  split; [reflexivity |]. split; [exact Hlen |]. split; [reflexivity |]. split; [exact Hsheet |].
  destruct (Hrecords [ex_log; ex_log_free]) as (_ & Hafter & _).
  - vm_compute. reflexivity.
  - exact Hafter.
Defined.

(** C8: on a worksheet that holds no value, [save_to_gsheet] asks for the
    values, gets [[[]]], which is not empty, and appends the row of the
    record without a header row before it: the row is the first row of the
    worksheet, and the next reload, which takes it for the header, returns
    no record.  On a worksheet whose only row is not the header no header
    is written either. *)
Theorem C8_no_header_is_ever_written :
  fst (save_to_gsheet (L := ref_libs) ex_log (ex_remote [] [] [] [])) = Ok true /\
  trace (snd (save_to_gsheet (L := ref_libs) ex_log (ex_remote [] [] [] []))) =
    [Remote GetAllValues; Remote (AppendRow ex_row)] /\
  gsheet_worksheet (snd (save_to_gsheet (L := ref_libs) ex_log (ex_remote [] [] [] []))) =
    Some [ex_row] /\
  fst (load_from_gsheet (L := ref_libs)
         (snd (save_to_gsheet (L := ref_libs) ex_log (ex_remote [] [] [] [])))) = Ok [] /\
  gsheet_worksheet (snd (save_to_gsheet (L := ref_libs) ex_log (ex_remote [["memo"]] [] [] []))) =
    Some [["memo"]; ex_row].
Proof. repeat split; vm_compute; reflexivity. Qed.

(** C9 at work: the store of the run before held another record; the run
    starts from the record of the worksheet. *)
Lemma C9_witness :
  gsheet_worksheet (ex_remote [headers; ex_row] [ex_log_free] [] []) = Some [headers; ex_row] /\
  session_logs (snd (init_session (L := ref_libs) (ex_remote [headers; ex_row] [ex_log_free] [] []))) =
    Some [ex_log].
Proof.
  destruct (C9_store_is_the_reload (L := ref_libs) (ex_remote [headers; ex_row] [ex_log_free] [] [])
              [headers; ex_row] eq_refl) as (Hstore & _ & _).
  split; [reflexivity |]. rewrite Hstore. vm_compute. reflexivity.
Defined.

(** C10 at work: the worksheet cannot be reached; the record and its photo
    are gone locally, the row stays. *)
Lemma C10_witness :
  session_logs (ex_remote [headers; ex_row] [ex_log_photo] [Some APIError] []) = Some [ex_log_photo] /\
  fs (snd (on_delete (L := ref_libs) 0 (ex_remote [headers; ex_row] [ex_log_photo] [Some APIError] [])))
    !! "photos/20260102_030405.jpg" = None /\
  session_logs (snd (on_delete (L := ref_libs) 0
                       (ex_remote [headers; ex_row] [ex_log_photo] [Some APIError] []))) = Some [] /\
  gsheet_worksheet (snd (on_delete (L := ref_libs) 0
                           (ex_remote [headers; ex_row] [ex_log_photo] [Some APIError] []))) =
    Some [headers; ex_row] /\
  trace (snd (on_delete (L := ref_libs) 0
                (ex_remote [headers; ex_row] [ex_log_photo] [Some APIError] []))) =
    [RemoveFile "photos/20260102_030405.jpg"; Remote (DeleteRows 2); LogsPop 0;
     ToCsv CSV_PATH; Rerun].
Proof.
  assert (Hdir : fs (ex_remote [headers; ex_row] [ex_log_photo] [Some APIError] []) !! CSV_PATH
                 <> Some Dir) by discriminate.
  assert (Hp : forall p,
            photo_of (ex_remote [headers; ex_row] [ex_log_photo] [Some APIError] []) ex_log_photo
              = Some p ->
            p <> CSV_PATH /\
            exists c, fs (ex_remote [headers; ex_row] [ex_log_photo] [Some APIError] []) !! p
                      = Some (File c)).
  { intros p H. vm_compute in H. injection H as <-. split; [discriminate |].
    exists (Bytes []). reflexivity. }
  destruct (C10_delete_goes_on_when_remote_delete_fails (L := ref_libs) 0
              (ex_remote [headers; ex_row] [ex_log_photo] [Some APIError] []) [ex_log_photo]
              ex_log_photo [headers; ex_row] eq_refl eq_refl eq_refl eq_refl Hdir Hp)
    as (_ & Htrace & Hstore & _ & Hphoto & Hsheet).
  split; [reflexivity |]. split; [apply Hphoto; reflexivity |]. split; [exact Hstore |].
  split; [exact (Hsheet APIError [] eq_refl) |]. exact Htrace.
Defined.

(** ** The further properties at work *)

Lemma ref_numericise_ints : @numericise_ints ref_libs.
Proof.
  intros z. simpl. unfold dec_int. rewrite int_of_string_str_int. simpl.
  f_equal. apply DecimalZ.of_to.
Qed.

Lemma ex_form_in_range : in_range ex_form.
Proof. unfold in_range. simpl. lia. Qed.

Lemma ex_log_form_built : form_built ex_log.
Proof. apply new_log_form_built, ex_form_in_range. Qed.

Lemma ex_log_free_form_built : form_built ex_log_free.
Proof. apply new_log_form_built. unfold in_range. simpl. lia. Qed.

Lemma ex_log_sheet_safe : @sheet_safe ref_libs ex_log.
Proof.
  split; [exact ex_log_form_built |]. intros k s Hk.
  destruct (decide (k ∈ headers)) as [Hin | Hout].
  - unfold headers in Hin.
    repeat (apply elem_of_cons in Hin as [-> | Hin];
            [vm_compute in Hk; first [discriminate Hk | injection Hk as <-; reflexivity] |]).
    apply elem_of_nil in Hin. destruct Hin.
  - rewrite (form_built_no_field ex_log k ex_log_form_built Hout) in Hk.
    discriminate.
Qed.


(** An upload at work: the photo is written under the name of the second. *)
Lemma photo_saved_witness :
  uploaded_file ex_form_upload = Some ("IMG_0001.jpg", [Byte.x78]) /\
  no_fault 2 (local_faults (ex_local [] [])) = true /\
  fst (save_photo ex_form_upload (ex_local [] [])) = Ok "photos/20260102_030405.jpg" /\
  fs (snd (save_photo ex_form_upload (ex_local [] []))) !! "photos/20260102_030405.jpg" =
    Some (File (Bytes [Byte.x78])).
Proof.
  assert (Hdir : forall c, fs (ex_local [] []) !! "photos" <> Some (File c)) by discriminate.
  assert (Hp : fs (ex_local [] []) !!
                 ("photos/" ++ strftime_file (now_file ex_form_upload) ++ splitext_ext "IMG_0001.jpg")
               <> Some Dir) by discriminate.
  destruct (photo_is_saved_under_timestamp_name ex_form_upload (ex_local [] []) "IMG_0001.jpg"
              [Byte.x78] eq_refl Hdir eq_refl Hp) as (Hpath & Hfile & _).
  split; [reflexivity |]. split; [reflexivity |]. split; [exact Hpath | exact Hfile].
Defined.

(** Two uploads of the same second at work: one file is left, the second. *)
Lemma same_second_witness :
  now_file ex_form_upload = now_file ex_form_upload2 /\
  splitext_ext "IMG_0001.jpg" = splitext_ext "wall.jpg" /\
  no_fault 3 (local_faults (ex_local [] [])) = true /\
  exists p,
    fst (save_photo ex_form_upload (ex_local [] [])) = Ok p /\
    fst (save_photo ex_form_upload2 (snd (save_photo ex_form_upload (ex_local [] [])))) = Ok p /\
    fs (snd (save_photo ex_form_upload (ex_local [] []))) !! p = Some (File (Bytes [Byte.x78])) /\
    fs (snd (save_photo ex_form_upload2 (snd (save_photo ex_form_upload (ex_local [] []))))) !! p =
      Some (File (Bytes [Byte.x79; Byte.x7a])).
Proof.
  assert (Hdir : forall c, fs (ex_local [] []) !! "photos" <> Some (File c)) by discriminate.
  assert (Hp : fs (ex_local [] []) !!
                 ("photos/" ++ strftime_file (now_file ex_form_upload) ++ splitext_ext "IMG_0001.jpg")
               <> Some Dir) by discriminate.
  split; [reflexivity |]. split; [reflexivity |]. split; [reflexivity |].
  exact (same_second_uploads_share_one_file ex_form_upload ex_form_upload2 (ex_local [] [])
           "IMG_0001.jpg" "wall.jpg" [Byte.x78] [Byte.x79; Byte.x7a]
           eq_refl eq_refl eq_refl eq_refl Hdir eq_refl Hp).
Defined.


(** The start of a session at work: no backup file, an empty store. *)
Lemma local_start_witness :
  gsheet_worksheet (ex_start None) = None /\
  session_logs (snd (init_session (L := ref_libs) (ex_start None))) = Some [].
Proof.
  destruct (local_session_start (L := ref_libs) (ex_start None) eq_refl) as (_ & Hnone & _).
  split; [reflexivity |]. rewrite (Hnone eq_refl eq_refl). reflexivity.
Defined.

(** A directory in the place of the backup file at work: the visit ends
    with the error of the read. *)
Lemma unreadable_backup_witness :
  gsheet_worksheet (ex_start (Some Dir)) = None /\
  session_logs (ex_start (Some Dir)) = None /\
  exists e,
    fst (script (L := ref_libs) Visit (ex_start (Some Dir))) = Raise e /\
    e <> EmptyDataError.
Proof.
  assert (Hthere : is_Some (fs (ex_start (Some Dir)) !! CSV_PATH)) by (eexists; reflexivity).
  destruct (unreadable_backup_ends_the_run (L := ref_libs) Visit
              (ex_start (Some Dir)) eq_refl eq_refl Hthere) as (e & He & Hne & _).
  { right. split; [reflexivity |]. left. reflexivity. }
  split; [reflexivity |]. split; [reflexivity |]. exists e. split; assumption.
Defined.

(** A backup file that holds the one byte [x] is read as a table with the
    column [x] and no row: the session starts with an empty store. *)
Lemma backup_with_one_label_starts_empty :
  init_session (L := ref_libs) (ex_start (Some (File (Bytes [Byte.x78])))) =
    (Ok tt, emit LogsSet
              (set_logs (Some []) (emit (ReadCsv CSV_PATH) (ex_start (Some (File (Bytes [Byte.x78]))))))).
Proof. vm_compute. reflexivity. Qed.

(** A header with a repeated label at work: the data row is not seen. *)
Lemma reload_without_records_witness :
  gsheet_worksheet (ex_remote [["Location"; "Location"]; ["a"; "b"]] [] [] []) =
    Some [["Location"; "Location"]; ["a"; "b"]] /\
  ~ NoDup ["Location"; "Location"] /\
  fst (load_from_gsheet (L := ref_libs)
         (ex_remote [["Location"; "Location"]; ["a"; "b"]] [] [] [])) = Ok [].
Proof.
  assert (Hdup : ~ NoDup ["Location"; "Location"]).
  { intros H. apply NoDup_cons in H as [H _]. apply H. left. }
  split; [reflexivity |]. split; [exact Hdup |].
  apply (reload_of_a_sheet_without_readable_records (L := ref_libs)
           (ex_remote [["Location"; "Location"]; ["a"; "b"]] [] [] [])
           [["Location"; "Location"]; ["a"; "b"]] eq_refl).
  right. right. exists ["Location"; "Location"], [["a"; "b"]]. split; [reflexivity | exact Hdup].
Defined.

(** Append and delete at work on a worksheet with one record. *)
Lemma delete_undoes_witness :
  gsheet_worksheet (ex_remote [headers; ex_row_free] [] [] []) = Some [headers; ex_row_free] /\
  no_fault 3 (remote_faults (ex_remote [headers; ex_row_free] [] [] [])) = true /\
  gsheet_worksheet (snd (save_to_gsheet (L := ref_libs) ex_log
                           (ex_remote [headers; ex_row_free] [] [] []))) =
    Some [headers; ex_row_free; ex_row] /\
  gsheet_worksheet
    (snd (delete_from_gsheet 1
            (snd (save_to_gsheet (L := ref_libs) ex_log (ex_remote [headers; ex_row_free] [] [] [])))))
    = Some [headers; ex_row_free].
Proof.
  destruct (delete_undoes_the_append (L := ref_libs) ex_log
              (ex_remote [headers; ex_row_free] [] [] []) [headers; ex_row_free] eq_refl eq_refl)
    as (_ & Happend & _ & Hsheet).
  split; [reflexivity |]. split; [reflexivity |]. split; [exact Happend | exact Hsheet].
Defined.

(** An empty rating cell at work: the map ends the visit. *)
Lemma undrawable_witness :
  session_logs (ex_local [ex_log_blank] []) = Some [ex_log_blank] /\
  ex_log_blank ∈ [ex_log_blank] /\
  ~ drawable ex_log_blank /\
  exists e, render_main (L := ref_libs) None (ex_local [ex_log_blank] []) =
              (Raise e, ex_local [ex_log_blank] []) /\ (e = KeyError \/ e = TypeError).
Proof.
  assert (Hin : ex_log_blank ∈ [ex_log_blank]) by constructor.
  assert (Hnot : ~ drawable ex_log_blank).
  { intros [_ H]. specialize (H eq_refl). discriminate H. }
  split; [reflexivity |]. split; [exact Hin |]. split; [exact Hnot |].
  exact (undrawable_record_ends_the_render (L := ref_libs) None (ex_local [ex_log_blank] [])
           [ex_log_blank] ex_log_blank eq_refl Hin Hnot).
Defined.

(** The records list at work: the later record comes first. *)
Lemma records_list_witness :
  Forall listed [ex_log; ex_log_free] /\
  Forall (showable (L := ref_libs) (ex_local [ex_log; ex_log_free] [])) [ex_log; ex_log_free] /\
  trace (snd (render_list (L := ref_libs) [ex_log; ex_log_free] 2 None (ex_local [ex_log; ex_log_free] []))) =
    [Show (Expander "【名もなきグスク】 (2026-01-02 03:04:05)"); Show (InfoBox "");
     Show (Expander "【座喜味城跡 (読谷)】 (2026-01-02 03:04:05)"); Show (InfoBox "stone walls")].
Proof.
  assert (Hall : Forall listed [ex_log; ex_log_free]).
  { repeat constructor; eexists; reflexivity. }
  assert (Hshow : Forall (showable (L := ref_libs) (ex_local [ex_log; ex_log_free] []))
                    [ex_log; ex_log_free]).
  { repeat constructor; intros p Hp; vm_compute in Hp; discriminate Hp. }
  destruct (records_list_is_newest_first (L := ref_libs) [ex_log; ex_log_free]
              (ex_local [ex_log; ex_log_free] []) Hall Hshow) as [_ Htrace].
  split; [exact Hall |]. split; [exact Hshow |].
  etransitivity; [exact Htrace | vm_compute; reflexivity].
Defined.

(** The vector view at work on a record without Hard_X_Affect. *)
Lemma vector_ready_witness :
  Forall vector_ready [ex_log_short] /\
  vector_view (L := ref_libs) [ex_log_short] =
    Ok [{| v_hard := (0, 20)%float; v_soft := (40, 30)%float;
           v_hover_hard := "座喜味城跡 (読谷) (Hard)"; v_hover_soft := "座喜味城跡 (読谷) (Soft)";
           v_text := VStr "座喜味城跡 (読谷)" |}].
Proof.
  assert (Hall : Forall vector_ready [ex_log_short]).
  { constructor; [| constructor]. split; [eexists; reflexivity |].
    intros k Hk. unfold RATINGS in Hk.
    apply elem_of_cons in Hk as [-> | Hk]; [right; right; exists 20%Z; split; [reflexivity | lia] |].
    apply elem_of_cons in Hk as [-> | Hk]; [left; reflexivity |].
    apply elem_of_cons in Hk as [-> | Hk]; [right; right; exists 30%Z; split; [reflexivity | lia] |].
    apply elem_of_cons in Hk as [-> | Hk]; [right; right; exists 40%Z; split; [reflexivity | lia] |].
    apply elem_of_nil in Hk. destruct Hk. }
  split; [exact Hall |].
  rewrite (vector_view_of_ready_records (L := ref_libs) [ex_log_short] Hall).
  vm_compute. reflexivity.
Defined.

(** The scatter plots at work on the record of the scenario. *)
Lemma scatter_form_built_witness :
  Forall form_built [ex_log] /\
  hard_scatter (L := ref_libs) [ex_log] =
    Ok [{| p_x := VInt (-10); p_y := VInt 20; p_text := VStr "座喜味城跡 (読谷)" |}] /\
  soft_scatter (L := ref_libs) [ex_log] =
    Ok [{| p_x := VInt 40; p_y := VInt 30; p_text := VStr "座喜味城跡 (読谷)" |}].
Proof.
  assert (Hall : Forall form_built [ex_log]).
  { constructor; [exact ex_log_form_built | constructor]. }
  assert (Hne : [ex_log] <> []) by discriminate.
  destruct (scatter_plots_of_form_built_records (L := ref_libs) [ex_log] Hall Hne) as [Hh Hs].
  split; [exact Hall |]. rewrite Hh, Hs. split; reflexivity.
Defined.

(** A visit at work on a store of two records. *)
Lemma visit_witness :
  session_logs (ex_local [ex_log; ex_log_free] []) = Some [ex_log; ex_log_free] /\
  Forall form_built [ex_log; ex_log_free] /\
  Forall (showable (L := ref_libs) (ex_local [ex_log; ex_log_free] [])) [ex_log; ex_log_free] /\
  fst (render_main (L := ref_libs) None (ex_local [ex_log; ex_log_free] [])) = Ok tt /\
  length (trace (snd (render_main (L := ref_libs) None (ex_local [ex_log; ex_log_free] [])))) = 8%nat.
Proof.
  assert (Hall : Forall form_built [ex_log; ex_log_free]).
  { constructor; [exact ex_log_form_built |].
    constructor; [exact ex_log_free_form_built | constructor]. }
  assert (Hshow : Forall (showable (L := ref_libs) (ex_local [ex_log; ex_log_free] []))
                    [ex_log; ex_log_free]).
  { repeat constructor; intros p Hp; vm_compute in Hp; discriminate Hp. }
  assert (Hne : [ex_log; ex_log_free] <> []) by discriminate.
  destruct (visit_of_a_form_built_store (L := ref_libs) (ex_local [ex_log; ex_log_free] [])
              [ex_log; ex_log_free] eq_refl Hne Hall Hshow) as [Hok Htrace].
  split; [reflexivity |]. split; [exact Hall |]. split; [exact Hshow |]. split; [exact Hok |].
  rewrite Htrace. reflexivity.
Defined.

(** The round trip through the worksheet at work, on a worksheet that holds
    the header row. *)
Lemma worksheet_round_trip_witness :
  @numericise_ints ref_libs /\
  Forall (@sheet_safe ref_libs) [ex_log] /\
  gsheet_worksheet (ex_remote [headers] [] [] []) = Some (sheet_of (L := ref_libs) []) /\
  gsheet_worksheet (append_all (L := ref_libs) [ex_log] (ex_remote [headers] [] [] [])) =
    Some [headers; ex_row] /\
  fst (load_from_gsheet (L := ref_libs) (append_all (L := ref_libs) [ex_log] (ex_remote [headers] [] [] []))) =
    Ok [ex_log].
Proof.
  assert (Hall : Forall (@sheet_safe ref_libs) [ex_log]).
  { constructor; [exact ex_log_sheet_safe | constructor]. }
  destruct (worksheet_round_trip (L := ref_libs) [] [ex_log] (ex_remote [headers] [] [] [])
              ref_numericise_ints (Forall_nil_2 _) Hall eq_refl eq_refl) as [Hsheet Hload].
  split; [exact ref_numericise_ints |]. split; [exact Hall |]. split; [reflexivity |].
  split; [rewrite Hsheet; reflexivity | exact Hload].
Defined.

(** The same submission at work on a worksheet that holds no value: the
    reload returns no record. *)
Lemma empty_worksheet_witness :
  gsheet_worksheet (ex_remote [] [] [] []) = Some [] /\
  gsheet_worksheet (append_all (L := ref_libs) [ex_log] (ex_remote [] [] [] [])) = Some [ex_row] /\
  exists records,
    fst (load_from_gsheet (L := ref_libs) (append_all (L := ref_libs) [ex_log] (ex_remote [] [] [] [])))
      = Ok records /\
    (length records < 1)%nat.
Proof.
  assert (Hne : [ex_log] <> []) by discriminate.
  destruct (append_to_an_empty_worksheet_loses_a_record (L := ref_libs) [ex_log]
              (ex_remote [] [] [] []) eq_refl eq_refl Hne) as (Hsheet & records & Hload & Hlen & _).
  split; [reflexivity |]. split; [rewrite Hsheet; reflexivity |].
  exists records. split; [exact Hload | exact Hlen].
Defined.

(** The stamps of the scenario's time. *)
Lemma stamps_witness :
  valid_time ex_time /\
  strftime_file ex_time = "20260102_030405" /\
  strftime_log ex_time = "2026-01-02 03:04:05" /\
  String.length (strftime_file ex_time) = 15%nat /\
  String.length (strftime_log ex_time) = 19%nat.
Proof.
  assert (Hv : valid_time ex_time) by (unfold valid_time; simpl; lia).
  destruct (stamps_tell_the_second ex_time ex_time Hv Hv) as (Hf & Hl & _).
  split; [exact Hv |]. split; [reflexivity |]. split; [reflexivity |]. split; [exact Hf | exact Hl].
Defined.

(** The extension of an upload's name at work. *)
Lemma extension_witness :
  splitext_ext ("IMG_0001" ++ "." ++ "jpg") = ".jpg" /\ splitext_ext "IMG_0001" = "".
Proof.
  assert (Ha : "I"%char <> "."%char) by discriminate.
  destruct (extension_of_an_uploaded_name "IMG_0001" "jpg" "I" "MG_0001" eq_refl Ha
              eq_refl eq_refl eq_refl) as [Hext Hnone].
  split; [exact Hext | exact (Hnone eq_refl)].
Defined.

(** A reload at work: the record read from the worksheet holds no NaN. *)
Lemma no_nan_witness :
  GSHEET_ENABLED (ex_remote [headers; ex_row] [] [] []) = true /\
  session_logs (snd (init_session (L := ref_libs) (ex_remote [headers; ex_row] [] [] []))) =
    Some [ex_log] /\
  no_nan [ex_log].
Proof.
  assert (Hs : session_logs (snd (init_session (L := ref_libs) (ex_remote [headers; ex_row] [] [] [])))
               = Some [ex_log]) by (vm_compute; reflexivity).
  split; [reflexivity |]. split; [exact Hs |].
  exact (store_holds_no_nan_after_start (L := ref_libs) (ex_remote [headers; ex_row] [] [] [])
           [ex_log] (or_intror eq_refl) Hs).
Defined.

(** A failed write of the photo at work: nothing is stored, and the photo
    that an earlier upload of the same second had left is emptied. *)
Lemma failed_upload_witness :
  uploaded_file ex_form_upload = Some ("IMG_0001.jpg", [Byte.x78]) /\
  fs ex_torn !! "photos" = Some Dir /\
  local_faults ex_torn = [Some OSError] /\
  torn ex_torn = [Some []] /\
  fs ex_torn !! "photos/20260102_030405.jpg" = Some (File (Bytes [Byte.x79; Byte.x7a])) /\
  fst (on_record (L := ref_libs) ex_form_upload ex_torn) = Raise OSError /\
  session_logs (snd (on_record (L := ref_libs) ex_form_upload ex_torn)) = Some [] /\
  fs (snd (on_record (L := ref_libs) ex_form_upload ex_torn)) !! "photos/20260102_030405.jpg" =
    Some (File (Bytes [])).
Proof.
  destruct (failed_upload_loses_the_submission (L := ref_libs) ex_form_upload
              ex_torn "IMG_0001.jpg" [Byte.x78] OSError [] eq_refl eq_refl eq_refl)
    as (Herr & Hstore & _ & _ & _ & _ & Htorn).
  split; [reflexivity |]. split; [reflexivity |]. split; [reflexivity |]. split; [reflexivity |].
  split; [reflexivity |]. split; [exact Herr |]. split; [exact Hstore |].
  apply (Htorn [] [] eq_refl). discriminate.
Defined.

(** A failed removal of the photo at work: the record stays. *)
Lemma failed_removal_witness :
  session_logs (ex_local [ex_log_photo] [Some OSError]) = Some [ex_log_photo] /\
  ex_log_photo !! "Image_Path" = Some (VStr "photos/20260102_030405.jpg") /\
  exists e,
    fst (on_delete (L := ref_libs) 0 (ex_local [ex_log_photo] [Some OSError])) = Raise e /\
    session_logs (snd (on_delete (L := ref_libs) 0 (ex_local [ex_log_photo] [Some OSError]))) =
      Some [ex_log_photo].
Proof.
  assert (Hp : "photos/20260102_030405.jpg" <> "") by discriminate.
  destruct (failed_photo_removal_deletes_nothing (L := ref_libs) 0
              (ex_local [ex_log_photo] [Some OSError]) [ex_log_photo] ex_log_photo
              "photos/20260102_030405.jpg" eq_refl eq_refl eq_refl Hp)
    as (e & Herr & Hstore & _).
  { left. exists OSError, []. split; [reflexivity | eexists; reflexivity]. }
  split; [reflexivity |]. split; [reflexivity |]. exists e. split; assumption.
Defined.

(** A failed rewrite of the backup at work: the record is in the store. *)
Lemma backup_error_witness :
  session_logs (ex_local [] [Some OSError]) = Some [] /\
  save_photo ex_form (ex_local [] [Some OSError]) = (Ok "", ex_local [] [Some OSError]) /\
  fst (on_record (L := ref_libs) ex_form (ex_local [] [Some OSError])) = Raise OSError /\
  session_logs (snd (on_record (L := ref_libs) ex_form (ex_local [] [Some OSError]))) = Some [ex_log].
Proof.
  destruct (backup_error_leaves_the_record_stored (L := ref_libs) ex_form
              (ex_local [] [Some OSError]) (ex_local [] [Some OSError]) [] "" OSError []
              eq_refl eq_refl eq_refl) as (Herr & Hstore & _).
  split; [reflexivity |]. split; [reflexivity |]. split; [exact Herr | exact Hstore].
Defined.

(** A run at work: the submission of the scenario adds its record. *)
Lemma one_record_witness :
  init_session (L := ref_libs) (ex_local [ex_log_free] []) = (Ok tt, ex_local [ex_log_free] []) /\
  Forall form_built [ex_log_free] /\
  in_range ex_form /\
  exists logs',
    session_logs (snd (script (L := ref_libs) (Record_ ex_form) (ex_local [ex_log_free] []))) =
      Some logs' /\
    Forall form_built logs'.
Proof.
  assert (Hall : Forall form_built [ex_log_free]).
  { constructor; [exact ex_log_free_form_built | constructor]. }
  destruct (a_run_changes_the_store_by_one_record (L := ref_libs) (Record_ ex_form)
              (ex_local [ex_log_free] []) (ex_local [ex_log_free] []) [ex_log_free]
              eq_refl eq_refl) as [_ Hbuilt].
  split; [reflexivity |]. split; [exact Hall |]. split; [exact ex_form_in_range |].
  apply (Hbuilt Hall). intros f [= <-]. exact ex_form_in_range.
Defined.

(** A photo that is no image at work: the file of the record at position 1
    is empty, and the run ends before its delete button, which is taken to
    be the one pressed. *)
Lemma unshowable_photo_witness :
  [ex_log; ex_log_photo] !! 1%nat = Some ex_log_photo /\
  photo_of (ex_local [ex_log; ex_log_photo] []) ex_log_photo = Some "photos/20260102_030405.jpg" /\
  fs (ex_local [ex_log; ex_log_photo] []) !! "photos/20260102_030405.jpg" = Some (File (Bytes [])) /\
  image_error (Libs := ref_libs) "photos/20260102_030405.jpg" (Bytes []) =
    Some UnidentifiedImageError /\
  fst (render_list (L := ref_libs) [ex_log; ex_log_photo] 2 (Some 1%nat)
         (ex_local [ex_log; ex_log_photo] [])) = Raise UnidentifiedImageError /\
  session_logs (snd (render_list (L := ref_libs) [ex_log; ex_log_photo] 2 (Some 1%nat)
                       (ex_local [ex_log; ex_log_photo] []))) = Some [ex_log; ex_log_photo].
Proof.
  destruct (unshowable_photo_ends_the_list (L := ref_libs) [ex_log; ex_log_photo]
              (ex_local [ex_log; ex_log_photo] []) 1 ex_log_photo "photos/20260102_030405.jpg"
              (Bytes []) UnidentifiedImageError (Some 1%nat) eq_refl eq_refl eq_refl eq_refl)
    as (Herr & Hshows & _).
  - eexists. reflexivity.
  - eexists. reflexivity.
  - constructor.
  - constructor.
  - intros j [= <-]. lia.
  - split; [reflexivity |]. split; [reflexivity |]. split; [reflexivity |]. split; [reflexivity |].
    split; [exact Herr |]. destruct Hshows as (_ & _ & _ & _ & Hs & _). exact Hs.
Defined.
